(** * Judiciary staff management backend: access control and staff lifecycle

    A shallow embedding of the Mongoose models ([models/Court.js],
    [models/Staff.js]), of the role middleware ([middleware/auth.js]) and of
    the Express route handlers ([routes/staff.js], [routes/courts.js],
    [routes/users.js]), followed by the properties of the specification
    that concern them. The static queries of the models, the remaining
    route handlers, the token check and the field filter of the middleware
    and the in-memory store ([data/memory-store.js]) follow the sample
    data, and their properties follow those of the specification.

    Conventions of the embedding:
    - an ObjectId is carried in its [toString()] form;
    - a Staff document is a JavaScript object: a finite map from path names
      to values, where an absent key is [undefined];
    - a collection read in natural order ([findOne]) is a list, a collection
      addressed by [_id] only is a finite map;
    - [new Date()] is an explicit clock argument [now];
    - a handler returns its HTTP response together with the collections it
      leaves behind; an exception caught by the handler's [try/catch] is the
      500 response of that [catch];
    - an identifier that reaches [findById] is a well-formed ObjectId, the
      fields a court or user handler destructures from the body carry the
      JSON type of their schema path, and values are stored as assigned
      (no casting);
    - the [createdAt] and [updatedAt] stamps that [timestamps: true] adds
      are not part of the records. *)

From Stdlib Require Import Ascii.
From stdpp Require Import base strings list gmap pretty sorting.

Open Scope string_scope.
Set Warnings "-clear-no-such-hyp".


(** ** JavaScript values *)

(** What [JSON.parse] puts into a request body. *)
#[warnings="-register-all"]
Inductive Json :=
| JNull
| JBool (b : bool)
| JNum (n : Z)
| JStr (s : string)
| JObj (o : list (string * Json)).

(** What a document path holds: a parsed value as it was assigned, or a
    [Date] object (milliseconds since the epoch). *)
Inductive Value :=
| VDate (ms : Z)
| VJson (j : Json).

Coercion VJson : Json >-> Value.

Abbreviation ObjectId := string (only parsing).
Abbreviation Doc := (gmap string Value) (only parsing).

(** Truthiness, as [||], [&&] and [if] see it. *)
Definition truthyJson (j : Json) : bool :=
  match j with
  | JNull => false
  | JBool b => b
  | JNum n => negb (Z.eqb n 0)
  | JStr s => negb (String.eqb s "")
  | JObj _ => true
  end.

Definition truthy (v : Value) : bool :=
  match v with
  | VDate _ => true
  | VJson j => truthyJson j
  end.

(** [j === s] for a string literal [s]. *)
Definition jsonIs (j : Json) (s : string) : bool :=
  match j with
  | JStr s' => String.eqb s' s
  | _ => false
  end.

(** [j !== v] between a parsed body value and a document path; two objects
    are never identical. *)
Definition strictNe (j : Json) (v : option Value) : bool :=
  match j, v with
  | JNull, Some (VJson JNull) => false
  | JBool a, Some (VJson (JBool b)) => negb (Bool.eqb a b)
  | JNum a, Some (VJson (JNum b)) => negb (Z.eqb a b)
  | JStr a, Some (VJson (JStr b)) => negb (String.eqb a b)
  | _, _ => true
  end.

(** [a || b] where [a] may be [undefined]. *)
Definition orElse (a : option Value) (b : Value) : Value :=
  match a with
  | Some v => if truthy v then v else b
  | None => b
  end.

(** Property read on a parsed body; the first binding of a key. *)
Fixpoint prop (k : string) (o : list (string * Json)) : option Json :=
  match o with
  | [] => None
  | (k', v) :: o' => if String.eqb k' k then Some v else prop k o'
  end.

(** ** Errors raised inside a handler *)

Inductive Error :=
| ValidationError (msg : string)
| CastError
| TypeError.

Inductive Result (A : Type) :=
| Ok (a : A)
| Err (e : Error).
Arguments Ok {A} a.
Arguments Err {A} e.

#[global] Instance Result_bind : MBind Result := fun A B f r =>
  match r with
  | Ok a => f a
  | Err e => Err e
  end.

#[global] Instance Result_ret : MRet Result := fun A a => Ok a.

(** ** HTTP responses *)

Record Response := mkResponse {
  status : nat;
  success : bool;
  message : string
}.

Definition ok200 (msg : string) : Response := mkResponse 200 true msg.
Definition created201 (msg : string) : Response := mkResponse 201 true msg.
Definition fail (code : nat) (msg : string) : Response := mkResponse code false msg.

(** The outcome categories of the error taxonomy, as the transport layer
    encodes them in status codes. *)
Inductive Outcome :=
| Success
| ValidationFailed
| Unauthenticated
| PermissionDenied
| NotFound
| GenericFailure.

Definition outcome (r : Response) : Outcome :=
  match status r with
  | 200 | 201 => Success
  | 400 => ValidationFailed
  | 401 => Unauthenticated
  | 403 => PermissionDenied
  | 404 => NotFound
  | _ => GenericFailure
  end.

(** ** models/Staff.js *)

Module Staff.

Definition statusValues : list string :=
  ["active"; "retired"; "dismissed"; "on_leave"].

Definition courtTypeValues : list string := ["circuit"; "magisterial"].

(** The four status-specific date paths. *)
Definition dateFields : list string :=
  ["retirementDate"; "dismissalDate"; "leaveStartDate"; "leaveEndDate"].

(** [this.employmentStatus === s] *)
Definition statusIs (this : Doc) (s : string) : bool :=
  match this !! "employmentStatus" with
  | Some (VJson (JStr s')) => String.eqb s' s
  | _ => false
  end.

(** The [required] validator: the path holds a value other than
    [undefined], [null] and the empty string. *)
Definition hasValue (this : Doc) (k : string) : bool :=
  match this !! k with
  | None => false
  | Some (VJson JNull) => false
  | Some (VJson (JStr s)) => negb (String.eqb s "")
  | Some _ => true
  end.

(** The [enum] validator; it does not run on [undefined]. *)
Definition enumOk (this : Doc) (k : string) (allowed : list string) : bool :=
  match this !! k with
  | None => true
  | Some (VJson (JStr s)) => bool_decide (s ∈ allowed)
  | Some _ => false
  end.

(** Required paths that do not depend on the employment status. *)
Definition coreValid (this : Doc) : bool :=
  hasValue this "name" && hasValue this "position"
  && hasValue this "courtType" && enumOk this "courtType" courtTypeValues
  && hasValue this "courtId".

(** [employmentStatus] and the three conditionally required dates. *)
Definition statusValid (this : Doc) : bool :=
  hasValue this "employmentStatus"
  && enumOk this "employmentStatus" statusValues
  && implb (statusIs this "retired") (hasValue this "retirementDate")
  && implb (statusIs this "dismissed") (hasValue this "dismissalDate")
  && implb (statusIs this "on_leave") (hasValue this "leaveStartDate").

(** Document validation, the first [pre('save')] stage. The length, format
    and range validators of the free-text and numeric paths are not part
    of this model. *)
Definition validate (this : Doc) : bool := coreValid this && statusValid this.

(** [staffSchema.pre('save', ...)]: clear inappropriate dates. *)
Definition preSave (this : Doc) : Doc :=
  let this := if negb (statusIs this "retired")
              then delete "retirementDate" this else this in
  let this := if negb (statusIs this "dismissed")
              then delete "dismissalDate" this else this in
  if negb (statusIs this "on_leave")
  then delete "leaveEndDate" (delete "leaveStartDate" this)
  else this.

(** [this.save()]: validation, then the schema's pre-save hook; the result
    is the document as it is persisted. *)
Definition save (this : Doc) : Result Doc :=
  if validate this then Ok (preSave this)
  else Err (ValidationError "Staff validation failed").

(** The body of [updateEmploymentStatus] up to its [return this.save()]. *)
Definition setStatus (now : Z) (newStatus : Json) (date : option Value)
    (this : Doc) : Doc :=
  let this := <["employmentStatus" := VJson newStatus]> this in
  let this := delete "retirementDate" this in
  let this := delete "dismissalDate" this in
  let this := delete "leaveStartDate" this in
  let this := delete "leaveEndDate" this in
  if jsonIs newStatus "retired" then
    <["retirementDate" := orElse date (VDate now)]> this
  else if jsonIs newStatus "dismissed" then
    <["dismissalDate" := orElse date (VDate now)]> this
  else if jsonIs newStatus "on_leave" then
    <["leaveStartDate" := orElse date (VDate now)]> this
  else this.

(** [staffSchema.methods.updateEmploymentStatus(newStatus, date = null)] *)
Definition updateEmploymentStatus (now : Z) (newStatus : Json)
    (date : option Value) (this : Doc) : Result Doc :=
  save (setStatus now newStatus date this).

(** The date paths a status accounts for. *)
Definition dateGroup (s : string) : list string :=
  if String.eqb s "retired" then ["retirementDate"]
  else if String.eqb s "dismissed" then ["dismissalDate"]
  else if String.eqb s "on_leave" then ["leaveStartDate"; "leaveEndDate"]
  else [].

Definition statusOf (this : Doc) : string :=
  match this !! "employmentStatus" with
  | Some (VJson (JStr s)) => s
  | _ => ""
  end.

(** Every populated status date belongs to the group of the current
    status. *)
Definition datesMatchStatus (this : Doc) : bool :=
  forallb (fun k => match this !! k with
                    | None => true
                    | Some _ => bool_decide (k ∈ dateGroup (statusOf this))
                    end) dateFields.

(** The statuses whose date group has a populated path. *)
Definition populatedGroups (this : Doc) : list string :=
  filter (fun s => existsb (fun k => bool_decide (is_Some (this !! k)))
                     (dateGroup s) = true)
         ["retired"; "dismissed"; "on_leave"].

End Staff.

(** ** String helpers of the validators and of the schema setters *)

Definition isSpace (a : ascii) : bool :=
  let n := Ascii.nat_of_ascii a in
  Nat.eqb n 32 || (Nat.leb 9 n && Nat.leb n 13).

Fixpoint dropSpaces (l : list ascii) : list ascii :=
  match l with
  | a :: l' => if isSpace a then dropSpaces l' else l
  | [] => []
  end.

(** [String.prototype.trim] and the validators' [trim()], on ASCII white
    space. *)
Definition trim (s : string) : string :=
  String.string_of_list_ascii
    (rev (dropSpaces (rev (dropSpaces (String.list_ascii_of_string s))))).

Definition isAlnum (a : ascii) : bool :=
  let n := Ascii.nat_of_ascii a in
  (Nat.leb 48 n && Nat.leb n 57) || (Nat.leb 65 n && Nat.leb n 90)
  || (Nat.leb 97 n && Nat.leb n 122).

(** [isAlphanumeric()] with its default locale: [/^[0-9A-Z]+$/i]. *)
Definition isAlphanumeric (s : string) : bool :=
  negb (String.eqb s "") && forallb isAlnum (String.list_ascii_of_string s).

Definition lowerAscii (a : ascii) : ascii :=
  let n := Ascii.nat_of_ascii a in
  if Nat.leb 65 n && Nat.leb n 90 then Ascii.ascii_of_nat (n + 32) else a.

(** [String.prototype.toLowerCase], on ASCII letters. *)
Definition toLowerCase (s : string) : string :=
  String.string_of_list_ascii (map lowerAscii (String.list_ascii_of_string s)).

(** The string a validator sees for a body value ([toString] of
    express-validator); [undefined] and [null] read as the empty string. *)
Definition jsonToString (j : Json) : string :=
  match j with
  | JNull => ""
  | JBool true => "true"
  | JBool false => "false"
  | JNum n => pretty n
  | JStr s => s
  | JObj _ => "[object Object]"
  end.

Definition fieldToString (v : option Json) : string :=
  match v with
  | Some j => jsonToString j
  | None => ""
  end.

(** [isIn(values)] *)
Definition isIn (values : list string) (s : string) : bool :=
  bool_decide (s ∈ values).

(** [isLength({ min })] and [isLength({ max })] *)
Definition minLength (n : nat) (s : string) : bool := Nat.leb n (String.length s).
Definition maxLength (n : nat) (s : string) : bool := Nat.leb (String.length s) n.

(** ** models/Court.js *)

Module Court.

(** A Court document. [userId] is the property the staff routes read as
    [court.userId]; the schema declares no such path and no route assigns
    it, so it is [None] ([undefined]) on every document built by
    [new Court(...)]. *)
Record t := mk {
  _id : ObjectId;
  name : string;
  type : string;
  location : option string;
  circuitCourtId : option ObjectId;
  address : option Json;
  contactInfo : option Json;
  isActive : bool;
  description : option string;
  userId : option ObjectId
}.

Definition typeValues : list string := ["circuit"; "magisterial"].

(** [Court.findById(id)] *)
Definition findById (db : list t) (id : ObjectId) : option t :=
  find (fun c => String.eqb (_id c) id) db.

(** [Court.findOne({ userId: u, type: ty })] *)
Definition findOneByUserAndType (db : list t) (u : ObjectId) (ty : string)
    : option t :=
  find (fun c => match userId c with
                 | Some o => String.eqb o u && String.eqb (type c) ty
                 | None => false
                 end) db.

Definition optMaxLength (n : nat) (s : option string) : bool :=
  match s with
  | Some s => maxLength n s
  | None => true
  end.

(** Schema validation: [required], [enum], [maxlength] and the conditional
    [required] of [circuitCourtId]. *)
Definition validate (this : t) : bool :=
  negb (String.eqb (name this) "") && maxLength 100 (name this)
  && isIn typeValues (type this)
  && optMaxLength 200 (location this)
  && implb (String.eqb (type this) "magisterial")
       (bool_decide (is_Some (circuitCourtId this)))
  && optMaxLength 500 (description this).

(** [courtSchema.pre('save', ...)]: a magisterial court's reference must
    resolve to a circuit court. *)
Definition preSave (db : list t) (this : t) : Result unit :=
  match circuitCourtId this with
  | Some parent =>
      if String.eqb (type this) "magisterial" then
        match findById db parent with
        | Some circuitCourt =>
            if negb (String.eqb (type circuitCourt) "circuit")
            then Err (ValidationError "Invalid circuit court reference")
            else Ok ()
        | None => Err (ValidationError "Invalid circuit court reference")
        end
      else Ok ()
  | None => Ok ()
  end.

(** Writing a document back: the stored document with the same [_id] is
    replaced, a new document is appended. *)
Fixpoint upsert (db : list t) (this : t) : list t :=
  match db with
  | [] => [this]
  | c :: db' =>
      if String.eqb (_id c) (_id this) then this :: db'
      else c :: upsert db' this
  end.

(** [court.save()] *)
Definition save (db : list t) (this : t) : Result (list t) :=
  if validate this then
    _ ← preSave db this; Ok (upsert db this)
  else Err (ValidationError "Court validation failed").

(** [new Court({ name, type, location, circuitCourtId, address,
    contactInfo, description })]: the [trim] setters and the default of
    [isActive]. *)
Definition create (id : ObjectId) (name : option string) (type : string)
    (location : option string) (circuitCourtId : option ObjectId)
    (address contactInfo : option Json) (description : option string) : t :=
  mk id (trim (default "" name)) type (trim <$> location) circuitCourtId
     address contactInfo true description None.

End Court.

(** ** middleware/auth.js *)

Module Auth.

(** [req.user], as [authenticateToken] builds it. *)
Record ReqUser := mkUser {
  userId : ObjectId;
  username : string;
  role : string;
  name : string;
  circuitCourtId : option ObjectId
}.

(** [requireRole(allowedRoles)] on an authenticated request: [None] calls
    [next()]. *)
Definition requireRole (allowedRoles : list string) (user : ReqUser)
    : option Response :=
  if negb (isIn allowedRoles (role user))
  then Some (fail 403 "Insufficient permissions")
  else None.

End Auth.

(** The [catch] of a route handler. *)
Definition catch500 {S : Type} (unchanged : S) (r : Result (Response * S))
    : Response * S :=
  match r with
  | Ok x => x
  | Err _ => (fail 500 "Internal server error", unchanged)
  end.

(** ** routes/staff.js *)

Module StaffRoutes.

(** [o?.toString() !== s] *)
Definition optNe (o : option ObjectId) (s : ObjectId) : bool :=
  match o with
  | Some x => negb (String.eqb x s)
  | None => true
  end.

(** [o.toString()]: a [TypeError] on [undefined]. *)
Definition deref (o : option ObjectId) : Result ObjectId :=
  match o with
  | Some x => Ok x
  | None => Err TypeError
  end.

Definition denied : Response := fail 403 "Access denied".

(** The circuit branch shared by the permission checks: the caller's own
    circuit court is looked up by [userId], and the target must reference
    it. [Some r] is the early [return res.status(403)...]. *)
Definition circuitBranch (courts : list Court.t) (user : Auth.ReqUser)
    (court : Court.t) : option Response :=
  if String.eqb (Auth.role user) "circuit" then
    match Court.findOneByUserAndType courts (Auth.userId user) "circuit" with
    | None => Some denied
    | Some userCourt =>
        if optNe (Court.circuitCourtId court) (Court._id userCourt)
        then Some denied else None
    end
  else Some denied.

(** The permission check of [GET /court/:courtId] and of [POST /]:
    [court.userId.toString() !== req.user.userId]. *)
Definition checkPermission (courts : list Court.t) (user : Auth.ReqUser)
    (court : Court.t) : Result (option Response) :=
  if negb (String.eqb (Auth.role user) "admin") then
    owner ← deref (Court.userId court);
    if negb (String.eqb owner (Auth.userId user))
    then Ok (circuitBranch courts user court)
    else Ok None
  else Ok None.

(** The permission check of [GET /:id] and of [PUT /:id], on the populated
    [staff.courtId]: [court.userId?.toString() !== req.user.userId]. A
    reference that does not resolve populates as [null]. *)
Definition checkPermissionPopulated (courts : list Court.t)
    (user : Auth.ReqUser) (court : option Court.t) : Result (option Response) :=
  if negb (String.eqb (Auth.role user) "admin") then
    match court with
    | None => Err TypeError
    | Some court =>
        if optNe (Court.userId court) (Auth.userId user)
        then Ok (circuitBranch courts user court)
        else Ok None
    end
  else Ok None.

(** The caller is bound to the court [own]: it is the one court of the
    collection whose [userId] is the caller's. *)
Definition boundTo (courts : list Court.t) (user : Auth.ReqUser)
    (own : Court.t) : Prop :=
  own ∈ courts
  ∧ Court.userId own = Some (Auth.userId user)
  ∧ ∀ c, c ∈ courts → Court.userId c = Some (Auth.userId user) → c = own.

(** The [catch] of a handler that writes nothing. *)
Definition catchRead (r : Result Response) : Response :=
  match r with
  | Ok x => x
  | Err _ => fail 500 "Internal server error"
  end.

(** [GET /court/:courtId]. The 200 response carries
    [Staff.getByCourt(courtId)]. *)
Definition getStaffByCourt (courts : list Court.t) (user : Auth.ReqUser)
    (courtId : ObjectId) : Response :=
  catchRead
    match Court.findById courts courtId with
    | None => Ok (fail 404 "Court not found")
    | Some court =>
        refusal ← checkPermission courts user court;
        match refusal with
        | Some r => Ok r
        | None => Ok (ok200 "")
        end
    end.

(** [.populate('courtId', ...)]: the referenced court, [null] when the
    reference does not resolve. *)
Definition populateCourt (courts : list Court.t) (staff : Doc)
    : option Court.t :=
  match staff !! "courtId" with
  | Some (VJson (JStr id)) => Court.findById courts id
  | _ => None
  end.

(** The field selection ['name type circuitCourtId'] of a populate: the
    other paths, [userId] among them, are not loaded ([isActive], which no
    check reads, is kept as a boolean). *)
Definition selectNameTypeCircuit (c : Court.t) : Court.t :=
  Court.mk (Court._id c) (Court.name c) (Court.type c) None
    (Court.circuitCourtId c) None None (Court.isActive c) None None.

(** [GET /:id] *)
Definition getStaffById (courts : list Court.t)
    (staffColl : gmap string (gmap string Value)) (user : Auth.ReqUser)
    (id : ObjectId) : Response :=
  catchRead
    match staffColl !! id with
    | None => Ok (fail 404 "Staff member not found")
    | Some staff =>
        refusal ← checkPermissionPopulated courts user
                    (selectNameTypeCircuit <$> populateCourt courts staff);
        match refusal with
        | Some r => Ok r
        | None => Ok (ok200 "")
        end
    end.

(** A sanitizer of a validation chain rewrites the body field it ran on. *)
Definition sanitizeTrim (k : string) (o : list (string * Json))
    : list (string * Json) :=
  map (fun kv => if String.eqb (fst kv) k
                 then (fst kv, JStr (trim (jsonToString (snd kv))))
                 else kv) o.

(** [.optional()]: the chain is skipped on [undefined]. *)
Definition optional (v : option Json) (check : string → bool) : bool :=
  match v with
  | None => true
  | Some j => check (jsonToString j)
  end.

(** [new Staff(data)]: the paths of [data] and the schema defaults. *)
Definition fromBody (o : list (string * Json)) : Doc :=
  foldr (fun kv d => <[fst kv := VJson (snd kv)]> d) ∅ o.

Definition withDefaults (now : Z) (this : Doc) : Doc :=
  let this := match this !! "employmentStatus" with
              | None => <["employmentStatus" := VJson (JStr "active")]> this
              | Some _ => this
              end in
  match this !! "hireDate" with
  | None => <["hireDate" := VDate now]> this
  | Some _ => this
  end.

(** The [else] branch of [PUT /:id]: every key of the body except
    [employmentStatus] and [statusDate] is assigned to the document. *)
Definition assignFields (updateData : list (string * Json)) (staff : Doc)
    : Doc :=
  fold_left
    (fun staff kv =>
       if negb (String.eqb (fst kv) "employmentStatus")
          && negb (String.eqb (fst kv) "statusDate")
       then <[fst kv := VJson (snd kv)]> staff
       else staff)
    updateData staff.


(** [updateData.employmentStatus &&
     updateData.employmentStatus !== staff.employmentStatus] *)
Definition statusChange (updateData : list (string * Json)) (staff : Doc)
    : option Json :=
  match prop "employmentStatus" updateData with
  | Some j =>
      if truthyJson j && strictNe j (staff !! "employmentStatus")
      then Some j else None
  | None => None
  end.

(** The staff collection holds only documents whose status dates match
    their status. *)
Definition allDatesMatch (staffColl : gmap string (gmap string Value)) : Prop :=
  map_Forall (fun _ doc => Staff.datesMatchStatus doc = true) staffColl.

Section Handlers.

(** [isEmail()] of validator.js. *)
Variable isEmail : string → bool.

Definition validCreate (o : list (string * Json)) : bool :=
  minLength 2 (trim (fieldToString (prop "name" o)))
  && minLength 2 (trim (fieldToString (prop "position" o)))
  && negb (String.eqb (fieldToString (prop "courtId" o)) "")
  && isIn Staff.courtTypeValues (fieldToString (prop "courtType" o))
  && optional (prop "email" o) isEmail
  && optional (prop "employmentStatus" o) (isIn Staff.statusValues).

Definition validUpdate (o : list (string * Json)) : bool :=
  optional (prop "name" o) (fun s => minLength 2 (trim s))
  && optional (prop "position" o) (fun s => minLength 2 (trim s))
  && optional (prop "email" o) isEmail
  && optional (prop "employmentStatus" o) (isIn Staff.statusValues).

(** [POST /]; [newId] is the [_id] of the new document. *)
Definition postStaff (courts : list Court.t)
    (staffColl : gmap string (gmap string Value)) (now : Z)
    (user : Auth.ReqUser) (newId : ObjectId) (body : list (string * Json))
    : Response * gmap string (gmap string Value) :=
  if negb (validCreate body) then (fail 400 "Validation failed", staffColl)
  else
    let body := sanitizeTrim "position" (sanitizeTrim "name" body) in
    catch500 staffColl
      match prop "courtId" body with
      | Some (JStr courtId) =>
          match Court.findById courts courtId with
          | None => Ok (fail 400 "Invalid court", staffColl)
          | Some court =>
              if negb (String.eqb (Court.type court)
                         (fieldToString (prop "courtType" body)))
              then Ok (fail 400 "Invalid court", staffColl)
              else
                refusal ← checkPermission courts user court;
                match refusal with
                | Some r => Ok (r, staffColl)
                | None =>
                    saved ← Staff.save (withDefaults now (fromBody body));
                    Ok (created201 "Staff member created successfully",
                        <[newId := saved]> staffColl)
                end
          end
      | _ => Err CastError
      end.

(** [PUT /:id] *)
Definition putStaff (courts : list Court.t)
    (staffColl : gmap string (gmap string Value)) (now : Z)
    (user : Auth.ReqUser) (staffId : ObjectId)
    (updateData : list (string * Json))
    : Response * gmap string (gmap string Value) :=
  if negb (validUpdate updateData) then (fail 400 "Validation failed", staffColl)
  else
    let updateData := sanitizeTrim "position" (sanitizeTrim "name" updateData) in
    match staffColl !! staffId with
    | None => (fail 404 "Staff member not found", staffColl)
    | Some staff =>
        catch500 staffColl
          (refusal ← checkPermissionPopulated courts user
                       (populateCourt courts staff);
           match refusal with
           | Some r => Ok (r, staffColl)
           | None =>
               saved ← match statusChange updateData staff with
                       | Some newStatus =>
                           Staff.updateEmploymentStatus now newStatus
                             (VJson <$> prop "statusDate" updateData) staff
                       | None => Staff.save (assignFields updateData staff)
                       end;
               Ok (ok200 "Staff member updated successfully",
                   <[staffId := saved]> staffColl)
           end)
    end.

End Handlers.

End StaffRoutes.

(** ** routes/courts.js *)

Module CourtRoutes.

(** The fields a court handler destructures from [req.body]; [None] is a
    field the body does not carry. *)
Record Body := mkBody {
  name : option string;
  location : option string;
  circuitCourtId : option ObjectId;
  address : option Json;
  contactInfo : option Json;
  description : option string
}.

(** [body('name').trim()] and [body('location').optional().trim()] rewrite
    the fields they ran on. *)
Definition sanitize (b : Body) : Body :=
  mkBody (trim <$> name b) (trim <$> location b) (circuitCourtId b)
    (address b) (contactInfo b) (description b).

Definition optCheck (v : option string) (check : string → bool) : bool :=
  match v with
  | None => true
  | Some s => check s
  end.

Definition validCircuit (b : Body) : bool :=
  minLength 2 (trim (default "" (name b)))
  && optCheck (location b) (fun s => maxLength 200 (trim s)).

(** [body('circuitCourtId').notEmpty()] on top of the circuit chains. *)
Definition validMagisterial (b : Body) : bool :=
  validCircuit b && negb (String.eqb (default "" (circuitCourtId b)) "").

Definition validUpdate (b : Body) : bool :=
  optCheck (name b) (fun s => minLength 2 (trim s)).

(** The handler of [POST /circuit]; [newId] is the [_id] of the new
    document. *)
Definition createCircuit (courts : list Court.t) (newId : ObjectId)
    (body : Body) : Response * list Court.t :=
  if negb (validCircuit body) then (fail 400 "Validation failed", courts)
  else
    let body := sanitize body in
    catch500 courts
      (courts' ← Court.save courts
                   (Court.create newId (name body) "circuit" (location body)
                      None (address body) (contactInfo body)
                      (description body));
       Ok (created201 "Circuit court created successfully", courts')).

(** [POST /circuit]: [requireRole(['admin'])], then the handler. *)
Definition postCircuit (courts : list Court.t) (user : Auth.ReqUser)
    (newId : ObjectId) (body : Body) : Response * list Court.t :=
  match Auth.requireRole ["admin"] user with
  | Some r => (r, courts)
  | None => createCircuit courts newId body
  end.

(** The handler of [POST /magisterial]. *)
Definition createMagisterial (courts : list Court.t) (newId : ObjectId)
    (body : Body) : Response * list Court.t :=
  if negb (validMagisterial body)
  then (fail 400 "Validation failed", courts)
  else
    let body := sanitize body in
    catch500 courts
      match Court.findById courts (default "" (circuitCourtId body)) with
      | None => Ok (fail 400 "Invalid circuit court", courts)
      | Some circuitCourt =>
          if negb (String.eqb (Court.type circuitCourt) "circuit")
          then Ok (fail 400 "Invalid circuit court", courts)
          else
            courts' ← Court.save courts
                        (Court.create newId (name body) "magisterial"
                           (location body) (circuitCourtId body)
                           (address body) (contactInfo body)
                           (description body));
            Ok (created201 "Magisterial court created successfully",
                courts')
      end.

(** [POST /magisterial]: [requireRole(['admin'])], then the handler. *)
Definition postMagisterial (courts : list Court.t) (user : Auth.ReqUser)
    (newId : ObjectId) (body : Body) : Response * list Court.t :=
  match Auth.requireRole ["admin"] user with
  | Some r => (r, courts)
  | None => createMagisterial courts newId body
  end.

Definition truthyString (s : option string) : bool :=
  match s with
  | Some s => negb (String.eqb s "")
  | None => false
  end.

Definition truthyField (j : option Json) : bool :=
  match j with
  | Some j => truthyJson j
  | None => false
  end.

(** The four conditional assignments of [PUT /:id]. *)
Definition applyUpdate (body : Body) (court : Court.t) : Court.t :=
  Court.mk (Court._id court)
    (if truthyString (name body) then trim (default "" (name body))
     else Court.name court)
    (Court.type court)
    (Court.location court)
    (Court.circuitCourtId court)
    (if truthyField (address body) then address body else Court.address court)
    (if truthyField (contactInfo body) then contactInfo body
     else Court.contactInfo court)
    (Court.isActive court)
    (if truthyString (description body) then description body
     else Court.description court)
    (Court.userId court).

(** [PUT /:id] *)
Definition putCourt (courts : list Court.t) (user : Auth.ReqUser)
    (courtId : ObjectId) (body : Body) : Response * list Court.t :=
  if negb (validUpdate body) then (fail 400 "Validation failed", courts)
  else
    let body := sanitize body in
    match Court.findById courts courtId with
    | None => (fail 404 "Court not found", courts)
    | Some court =>
        if negb (String.eqb (Auth.role user) "admin")
        then (fail 403 "Access denied", courts)
        else
          catch500 courts
            (courts' ← Court.save courts (applyUpdate body court);
             Ok (ok200 "Court updated successfully", courts'))
    end.

End CourtRoutes.

(** ** models/User.js *)

Module User.

(** A password after hashing; the stored form never exposes the plain
    text to the handlers. *)
Inductive Hashed := Hash (plain : string).

(** Modelled from the spec: the User model ([models/User.js]) is not part
    of the sources at hand. A user carries [id], a unique case-insensitive
    [username], a hashed [password], a [role] among admin, circuit and
    magisterial, a [name], an optional [circuitCourtId] and [isActive]. *)
Record t := mk {
  _id : ObjectId;
  username : string;
  password : Hashed;
  role : string;
  name : string;
  circuitCourtId : option ObjectId;
  isActive : bool
}.

(** What a handler passes to [new User(...)]. *)
Record Data := mkData {
  d_username : string;
  d_password : string;
  d_name : string;
  d_role : string;
  d_circuitCourtId : option ObjectId
}.

Definition roleValues : list string := ["admin"; "circuit"; "magisterial"].

(** Modelled from the spec: [User.findByUsername], a case-insensitive
    lookup. *)
Definition findByUsername (users : list t) (u : string) : option t :=
  find (fun x => String.eqb (toLowerCase (username x)) (toLowerCase u)) users.

(** Modelled from the spec: [new User(data).save()] checks the role against
    the allowed set, hashes the password and stores the account as
    active. *)
Definition save (users : list t) (id : ObjectId) (d : Data) : Result (list t) :=
  if isIn roleValues (d_role d) then
    Ok (app users [mk id (d_username d) (Hash (d_password d)) (d_role d)
                     (d_name d) (d_circuitCourtId d) true])
  else Err (ValidationError "User validation failed").

End User.

(** ** routes/users.js *)

Module UserRoutes.

Record Body := mkBody {
  username : option string;
  password : option string;
  name : option string;
  role : option string;
  circuitCourtId : option ObjectId
}.

(** [body('role').isIn(['admin'])] *)
Definition roleAccepted (role : option string) : bool :=
  isIn ["admin"] (default "" role).

(** The validation chains of [POST /]. *)
Definition validCreate (b : Body) : bool :=
  minLength 3 (trim (default "" (username b)))
  && isAlphanumeric (trim (default "" (username b)))
  && minLength 6 (default "" (password b))
  && minLength 2 (trim (default "" (name b)))
  && roleAccepted (role b).

Definition sanitize (b : Body) : Body :=
  mkBody (trim <$> username b) (password b) (trim <$> name b) (role b)
    (circuitCourtId b).

(** [userData], with [circuitCourtId] added for magisterial users. *)
Definition userData (b : Body) : User.Data :=
  User.mkData (default "" (username b)) (default "" (password b))
    (default "" (name b)) (default "" (role b))
    (if String.eqb (default "" (role b)) "magisterial"
        && negb (String.eqb (default "" (circuitCourtId b)) "")
     then circuitCourtId b else None).

(** The handler of [POST /]; [newId] is the [_id] of the new account. *)
Definition createUser (users : list User.t) (newId : ObjectId) (body : Body)
    : Response * list User.t :=
  if negb (validCreate body) then (fail 400 "Validation failed", users)
  else
    let body := sanitize body in
    match User.findByUsername users (default "" (username body)) with
    | Some _ => (fail 400 "Username already exists", users)
    | None =>
        catch500 users
          (users' ← User.save users newId (userData body);
           Ok (created201 "User created successfully", users'))
    end.

(** [POST /]: [requireRole(['admin'])], then the handler. *)
Definition postUser (users : list User.t) (user : Auth.ReqUser)
    (newId : ObjectId) (body : Body) : Response * list User.t :=
  match Auth.requireRole ["admin"] user with
  | Some r => (r, users)
  | None => createUser users newId body
  end.

End UserRoutes.

(** ** server.js: the sample data *)

Module Sample.

(** The four sample courts once the two [updateOne] calls have set the
    magisterial references; the ids stand for the generated ones. *)
Definition courts : list Court.t :=
  [ Court.mk "court1" "First Circuit Court" "circuit"
      (Some "Downtown District") None None None true None None;
    Court.mk "court2" "Second Circuit Court" "circuit"
      (Some "North District") None None None true None None;
    Court.mk "court3" "Central Magisterial Court" "magisterial"
      (Some "Central District") (Some "court1") None None true None None;
    Court.mk "court4" "East Magisterial Court" "magisterial"
      (Some "East District") (Some "court2") None None true None None ].

Definition staffMember (name position courtType courtId phone email
    education : string) : gmap string Value :=
  StaffRoutes.fromBody
    [ ("name", JStr name); ("position", JStr position);
      ("courtType", JStr courtType); ("courtId", JStr courtId);
      ("phone", JStr phone); ("email", JStr email);
      ("education", JStr education); ("employmentStatus", JStr "active") ].

Definition johnSmith : gmap string Value :=
  staffMember "John Smith" "Court Clerk" "circuit" "court1" "555-0101"
    "john.smith@court.gov" "Bachelor's Degree".

Definition sarahJohnson : gmap string Value :=
  staffMember "Sarah Johnson" "Bailiff" "circuit" "court1" "555-0102"
    "sarah.johnson@court.gov" "Associate Degree".

Definition michaelBrown : gmap string Value :=
  staffMember "Michael Brown" "Court Reporter" "circuit" "court2" "555-0103"
    "michael.brown@court.gov" "Certificate Program".

Definition lisaDavis : gmap string Value :=
  staffMember "Lisa Davis" "Magistrate Clerk" "magisterial" "court3"
    "555-0104" "lisa.davis@court.gov" "Bachelor's Degree".

Definition robertWilson : gmap string Value :=
  staffMember "Robert Wilson" "Security Officer" "magisterial" "court4"
    "555-0105" "robert.wilson@court.gov" "High School Diploma".

(** The staff collection after [Staff.insertMany(staff)]. *)
Definition staff : gmap string (gmap string Value) :=
  <["staff1" := johnSmith]>
    (<["staff2" := sarahJohnson]>
       (<["staff3" := michaelBrown]>
          (<["staff4" := lisaDavis]> (<["staff5" := robertWilson]> ∅)))).

(** John Smith, retired on 2024-03-01. *)
Definition retiredJohn : gmap string Value :=
  <["retirementDate" := VDate 1709251200000%Z]>
    (<["employmentStatus" := VJson (JStr "retired")]> johnSmith).

(** The same record with a dismissal date and a leave end date assigned
    to the document before it is saved. *)
Definition retiredWithStrayDates : gmap string Value :=
  <["leaveEndDate" := VDate 1700000000000%Z]>
    (<["dismissalDate" := VDate 1700000000000%Z]> retiredJohn).


(** The staff collection once John Smith has retired. *)
Definition staff' : gmap string (gmap string Value) :=
  <["staff1" := retiredJohn]> staff.

(** A circuit account bound to the first circuit court and a magisterial
    account bound to the east magisterial court. *)
Definition circuitUser : Auth.ReqUser :=
  Auth.mkUser "user2" "circuit1" "circuit" "First Circuit Clerk"
    (Some "court1").

Definition magisterialUser : Auth.ReqUser :=
  Auth.mkUser "user3" "east" "magisterial" "East Magisterial Clerk"
    (Some "court2").

(** The sample courts with the two bound courts carrying their owner's
    [userId]; the other two are as the schema builds them. *)
Definition ownedCourts : list Court.t :=
  [ Court.mk "court1" "First Circuit Court" "circuit"
      (Some "Downtown District") None None None true None (Some "user2");
    Court.mk "court2" "Second Circuit Court" "circuit"
      (Some "North District") None None None true None None;
    Court.mk "court3" "Central Magisterial Court" "magisterial"
      (Some "Central District") (Some "court1") None None true None None;
    Court.mk "court4" "East Magisterial Court" "magisterial"
      (Some "East District") (Some "court2") None None true None
      (Some "user3") ].

(** The access scenario: the caller's circuit court 1, magisterial court 2
    under it and magisterial court 3 under a court 99, each court carrying
    the [userId] of its own account. *)
Definition scenarioCaller : Auth.ReqUser :=
  Auth.mkUser "u1" "circuit1" "circuit" "Circuit One" (Some "1").

Definition scenarioCourts : list Court.t :=
  [ Court.mk "1" "Circuit One" "circuit" None None None None true None
      (Some "u1");
    Court.mk "2" "Magisterial Two" "magisterial" None (Some "1") None None
      true None (Some "u2");
    Court.mk "3" "Magisterial Three" "magisterial" None (Some "99") None None
      true None (Some "u3") ].

(** A clerk on leave whose document carries both leave dates. *)
Definition onLeaveJohn : gmap string Value :=
  <["leaveEndDate" := VDate 1711929600000%Z]>
    (<["leaveStartDate" := VDate 1709251200000%Z]>
       (<["employmentStatus" := VJson (JStr "on_leave")]> johnSmith)).

(** The creation scenario: circuit court "A", then magisterial court "B"
    under it, then a request for magisterial court "C" under "B". *)
Definition bodyA : CourtRoutes.Body :=
  CourtRoutes.mkBody (Some "Court A") None None None None None.





(** A request for a new account with role circuit, its other fields
    within their constraints. *)
Definition newCircuitAccount : UserRoutes.Body :=
  UserRoutes.mkBody (Some "circuit1") (Some "secret123")
    (Some "First Circuit Clerk") (Some "circuit") None.

Definition newAdminAccount : UserRoutes.Body :=
  UserRoutes.mkBody (Some "admin2") (Some "secret123")
    (Some "Second Administrator") (Some "admin") None.

(** The seeded administrator, as [authenticateToken] presents it. *)
Definition admin : Auth.ReqUser :=
  Auth.mkUser "user1" "admin" "admin" "System Administrator" None.

End Sample.


(** ** models/Staff.js: the static queries *)

Module StaffQueries.

(** [doc[k] === s] for a string [s], as a query condition [{ k: s }]
    matches it. *)
Definition pathIs (doc : Doc) (k s : string) : bool :=
  match doc !! k with
  | Some (VJson (JStr s')) => String.eqb s' s
  | _ => false
  end.

(** The sort key of [.sort({ name: 1 })]; a document without a name sorts
    first. *)
Definition nameOf (doc : Doc) : string :=
  match doc !! "name" with
  | Some (VJson (JStr s)) => s
  | _ => ""
  end.

(** The order of [.sort({ name: 1 })] on documents paired with their
    [_id]: the names compared as strings. *)
Definition byName (a b : ObjectId * gmap string Value) : Prop :=
  String.leb (nameOf (snd a)) (nameOf (snd b)) = true.

#[global] Instance byName_dec : RelDecision byName :=
  fun a b => decide (String.leb (nameOf (snd a)) (nameOf (snd b)) = true).

(** [.sort({ name: 1 })] *)
Definition sortByName (l : list (ObjectId * gmap string Value))
    : list (ObjectId * gmap string Value) :=
  merge_sort byName l.

(** [this.find(query)]. The population of [courtId] in the results is
    left out: the handlers of this development read none of it. *)
Definition find (query : gmap string Value → bool)
    (coll : gmap string (gmap string Value))
    : list (ObjectId * gmap string Value) :=
  filter (fun kv => query (snd kv) = true) (map_to_list coll).

(** [staffSchema.statics.getByStatus] *)
Definition getByStatus (coll : gmap string (gmap string Value))
    (status : string) : list (ObjectId * gmap string Value) :=
  sortByName (find (fun d => pathIs d "employmentStatus" status) coll).

(** [staffSchema.statics.getByCourt(courtId, courtType = null)]: the type
    joins the query when it is truthy. *)
Definition getByCourt (coll : gmap string (gmap string Value))
    (courtId : ObjectId) (courtType : option string)
    : list (ObjectId * gmap string Value) :=
  sortByName
    (find (fun d =>
             pathIs d "courtId" courtId
             && match courtType with
                | Some ty => if String.eqb ty "" then true
                             else pathIs d "courtType" ty
                | None => true
                end) coll).

(** [staffSchema.statics.getActiveStaff] *)
Definition getActiveStaff (coll : gmap string (gmap string Value))
    : list (ObjectId * gmap string Value) :=
  sortByName (find (fun d => pathIs d "employmentStatus" "active") coll).

(** The [_id] of a [$group] by ['$employmentStatus']: the status, [null]
    ([None]) for a document without one (a stored status is a string: the
    schema's enum admits nothing else). *)
Definition groupId (doc : Doc) : option string :=
  match doc !! "employmentStatus" with
  | Some (VJson (JStr s)) => Some s
  | _ => None
  end.

(** The groups of [{ $group: { _id: '$employmentStatus',
    count: { $sum: 1 } } }]: each document adds one to the count of its
    group. *)
Definition groupCounts (docs : list (gmap string Value))
    : gmap (option string) nat :=
  foldr (fun d m => <[groupId d := S (default 0 (m !! groupId d))]> m) ∅ docs.

(** The result of the aggregation: one entry per distinct status. *)
Definition groupCount (docs : list (gmap string Value))
    : list (option string * nat) :=
  map_to_list (groupCounts docs).

(** The property key a group id becomes in [result[stat._id]]. *)
Definition statKey (id : option string) : string := default "null" id.

Definition emptyStats : gmap string nat :=
  <["total" := 0]> (<["active" := 0]> (<["retired" := 0]>
    (<["dismissed" := 0]> (<["on_leave" := 0]> ∅)))).

(** [result[stat._id] = stat.count; result.total += stat.count;] *)
Definition tallyStep (result : gmap string nat) (stat : option string * nat)
    : gmap string nat :=
  let result := <[statKey (fst stat) := snd stat]> result in
  <["total" := default 0 (result !! "total") + snd stat]> result.

(** [stats.forEach(...)] on the zeroed result. *)
Definition tally (stats : list (option string * nat)) : gmap string nat :=
  fold_left tallyStep stats emptyStats.

(** [staffSchema.statics.getStatistics] *)
Definition getStatistics (coll : gmap string (gmap string Value))
    : gmap string nat :=
  tally (groupCount (map snd (map_to_list coll))).

End StaffQueries.

(** ** routes/staff.js: the listings, the statistics and the deletion *)

Module StaffListing.

(** The condition [{ userId: req.user.userId, isActive: true }] *)
Definition ownedActive (user : Auth.ReqUser) (c : Court.t) : bool :=
  match Court.userId c with
  | Some o => String.eqb o (Auth.userId user)
  | None => false
  end && Court.isActive c.

(** The condition [{ circuitCourtId: { $in: courtIds }, isActive: true }] *)
Definition referencesActive (courtIds : list ObjectId) (c : Court.t) : bool :=
  match Court.circuitCourtId c with
  | Some p => bool_decide (p ∈ courtIds)
  | None => false
  end && Court.isActive c.

(** [Court.find({ userId: req.user.userId, isActive: true })], mapped to
    the ids. *)
Definition ownCourtIds (courts : list Court.t) (user : Auth.ReqUser)
    : list ObjectId :=
  map Court._id (filter (fun c => ownedActive user c = true) courts).

(** [Court.find({ circuitCourtId: { $in: courtIds }, isActive: true })],
    mapped to the ids. *)
Definition subordinateIds (courts : list Court.t) (courtIds : list ObjectId)
    : list ObjectId :=
  map Court._id (filter (fun c => referencesActive courtIds c = true) courts).

(** The court ids whose staff a caller that is not an administrator is
    shown: the caller's own active courts, and for the circuit role the
    active courts that reference one of them. *)
Definition visibleCourtIds (courts : list Court.t) (user : Auth.ReqUser)
    : list ObjectId :=
  if String.eqb (Auth.role user) "circuit"
  then app (ownCourtIds courts user)
           (subordinateIds courts (ownCourtIds courts user))
  else ownCourtIds courts user.

(** [courtId: { $in: courtIds }] *)
Definition courtIn (courtIds : list ObjectId) (doc : Doc) : bool :=
  match doc !! "courtId" with
  | Some (VJson (JStr c)) => bool_decide (c ∈ courtIds)
  | _ => false
  end.

(** [GET /]: [requireRole(['admin'])], then every staff member by name. *)
Definition getAllStaff (coll : gmap string (gmap string Value))
    (user : Auth.ReqUser) : Response * list (ObjectId * gmap string Value) :=
  match Auth.requireRole ["admin"] user with
  | Some r => (r, [])
  | None => (ok200 "", StaffQueries.sortByName
                         (StaffQueries.find (fun _ => true) coll))
  end.

(** [GET /status/:status] *)
Definition getStaffByStatus (courts : list Court.t)
    (coll : gmap string (gmap string Value)) (user : Auth.ReqUser)
    (status : string) : Response * list (ObjectId * gmap string Value) :=
  if negb (isIn Staff.statusValues status)
  then (fail 400 "Invalid employment status", [])
  else if String.eqb (Auth.role user) "admin"
  then (ok200 "", StaffQueries.getByStatus coll status)
  else
    (ok200 "",
     StaffQueries.sortByName
       (StaffQueries.find
          (fun d => StaffQueries.pathIs d "employmentStatus" status
                    && courtIn (visibleCourtIds courts user) d) coll)).

(** [GET /statistics] *)
Definition getStatistics (courts : list Court.t)
    (coll : gmap string (gmap string Value)) (user : Auth.ReqUser)
    : Response * gmap string nat :=
  if String.eqb (Auth.role user) "admin"
  then (ok200 "", StaffQueries.getStatistics coll)
  else
    (ok200 "",
     StaffQueries.tally
       (StaffQueries.groupCount
          (map snd (StaffQueries.find (courtIn (visibleCourtIds courts user))
                      coll)))).

(** [DELETE /:id]: [requireRole(['admin'])], then the handler. *)
Definition deleteStaff (coll : gmap string (gmap string Value))
    (user : Auth.ReqUser) (staffId : ObjectId)
    : Response * gmap string (gmap string Value) :=
  match Auth.requireRole ["admin"] user with
  | Some r => (r, coll)
  | None =>
      match coll !! staffId with
      | None => (fail 404 "Staff member not found", coll)
      | Some _ => (ok200 "Staff member deleted successfully",
                   delete staffId coll)
      end
  end.

End StaffListing.

(** ** models/Court.js: the listing statics *)

Module CourtQueries.

(** [.sort({ name: 1 })]: ascending by [name], code unit by code unit. *)
Definition byName (a b : Court.t) : Prop :=
  String.leb (Court.name a) (Court.name b) = true.

#[global] Instance byName_dec : RelDecision byName :=
  fun a b => decide (String.leb (Court.name a) (Court.name b) = true).

Definition sortByName (l : list Court.t) : list Court.t :=
  merge_sort byName l.

(** [courtSchema.statics.getCircuitCourts]:
    [this.find({ type: 'circuit', isActive: true }).sort({ name: 1 })] *)
Definition getCircuitCourts (db : list Court.t) : list Court.t :=
  sortByName
    (filter (fun c => String.eqb (Court.type c) "circuit" && Court.isActive c
                      = true) db).

(** [courtSchema.statics.getMagisterialCourts(circuitCourtId)]:
    [this.find({ type: 'magisterial', circuitCourtId, isActive: true })],
    sorted by name. The populate that follows replaces each reference by
    the name of the court it resolves to; the listing is given here by the
    court documents themselves. *)
Definition getMagisterialCourts (db : list Court.t) (circuitCourtId : ObjectId)
    : list Court.t :=
  sortByName
    (filter (fun c => String.eqb (Court.type c) "magisterial"
                      && match Court.circuitCourtId c with
                         | Some p => String.eqb p circuitCourtId
                         | None => false
                         end
                      && Court.isActive c = true) db).

(** [courtSchema.statics.getAllMagisterialCourts]:
    [this.find({ type: 'magisterial', isActive: true })], sorted by name. *)
Definition getAllMagisterialCourts (db : list Court.t) : list Court.t :=
  sortByName
    (filter (fun c => String.eqb (Court.type c) "magisterial"
                      && Court.isActive c = true) db).

End CourtQueries.

(** ** routes/courts.js: deactivation, and the court hierarchy *)

Module CourtAdmin.

(** [court.isActive = false] *)
Definition deactivate (c : Court.t) : Court.t :=
  Court.mk (Court._id c) (Court.name c) (Court.type c) (Court.location c)
    (Court.circuitCourtId c) (Court.address c) (Court.contactInfo c) false
    (Court.description c) (Court.userId c).

(** [DELETE /:id]: [requireRole(['admin'])], then the handler. *)
Definition deleteCourt (courts : list Court.t) (user : Auth.ReqUser)
    (courtId : ObjectId) : Response * list Court.t :=
  match Auth.requireRole ["admin"] user with
  | Some r => (r, courts)
  | None =>
      match Court.findById courts courtId with
      | None => (fail 404 "Court not found", courts)
      | Some court =>
          catch500 courts
            (courts' ← Court.save courts (deactivate court);
             Ok (ok200 "Court deactivated successfully", courts'))
      end
  end.

(** The reference of a magisterial court resolves, in [db], to a circuit
    court. *)
Definition parentOk (db : list Court.t) (c : Court.t) : bool :=
  if String.eqb (Court.type c) "magisterial" then
    match Court.circuitCourtId c with
    | Some p =>
        match Court.findById db p with
        | Some parent => String.eqb (Court.type parent) "circuit"
        | None => false
        end
    | None => false
    end
  else true.

(** The two-level hierarchy: every magisterial court of the collection
    references a circuit court of the collection. *)
Definition hierarchy (db : list Court.t) : bool := forallb (parentOk db) db.

End CourtAdmin.

(** ** routes/users.js: updating and deactivating accounts *)

Module UserAdmin.

(** Modelled from the spec: the User model is not part of the sources at
    hand; [User.findById(id)] is the account with that [id]. *)
Definition findById (users : list User.t) (id : ObjectId) : option User.t :=
  find (fun u => String.eqb (User._id u) id) users.

(** Writing a loaded account back: the stored account with the same [_id]
    is replaced in place. *)
Fixpoint replace (users : list User.t) (this : User.t) : list User.t :=
  match users with
  | [] => []
  | u :: users' =>
      if String.eqb (User._id u) (User._id this) then this :: users'
      else u :: replace users' this
  end.

(** Modelled from the spec: [user.save()] on a loaded account checks the
    role against the allowed set and writes the account back; the
    password, which these handlers never assign, stays as it is stored. *)
Definition save (users : list User.t) (this : User.t) : Result (list User.t) :=
  if isIn User.roleValues (User.role this) then Ok (replace users this)
  else Err (ValidationError "User validation failed").

(** The fields [PUT /:id] destructures from [req.body]. *)
Record Body := mkBody {
  name : option string;
  role : option string;
  circuitCourtId : option ObjectId;
  isActive : option bool
}.

(** The validation chains of [PUT /:id]:
    [body('name').optional().trim().isLength({ min: 2 })] and
    [body('role').optional().isIn(['admin'])]. *)
Definition validUpdate (b : Body) : bool :=
  CourtRoutes.optCheck (name b) (fun s => minLength 2 (trim s))
  && CourtRoutes.optCheck (role b) (isIn ["admin"]).

Definition sanitize (b : Body) : Body :=
  mkBody (trim <$> name b) (role b) (circuitCourtId b) (isActive b).

(** The four conditional assignments of [PUT /:id]; [admin] is
    [req.user.role === 'admin']. *)
Definition assign (admin : bool) (b : Body) (user : User.t) : User.t :=
  User.mk (User._id user) (User.username user) (User.password user)
    (if CourtRoutes.truthyString (role b) && admin
     then default "" (role b) else User.role user)
    (if CourtRoutes.truthyString (name b)
     then default "" (name b) else User.name user)
    (if CourtRoutes.truthyString (circuitCourtId b) && admin
     then circuitCourtId b else User.circuitCourtId user)
    (match isActive b with
     | Some a => if admin then a else User.isActive user
     | None => User.isActive user
     end).

(** [PUT /:id] *)
Definition putUser (users : list User.t) (caller : Auth.ReqUser)
    (userId : ObjectId) (body : Body) : Response * list User.t :=
  if negb (validUpdate body) then (fail 400 "Validation failed", users)
  else
    let body := sanitize body in
    let admin := String.eqb (Auth.role caller) "admin" in
    if negb admin && negb (String.eqb (Auth.userId caller) userId)
    then (fail 403 "Access denied", users)
    else if negb admin
            && (CourtRoutes.truthyString (role body)
                || CourtRoutes.truthyString (circuitCourtId body)
                || bool_decide (is_Some (isActive body)))
    then (fail 403 "Access denied - insufficient permissions", users)
    else
      match findById users userId with
      | None => (fail 404 "User not found", users)
      | Some user =>
          catch500 users
            (users' ← save users (assign admin body user);
             Ok (ok200 "User updated successfully", users'))
      end.

(** [user.isActive = false] *)
Definition deactivate (user : User.t) : User.t :=
  User.mk (User._id user) (User.username user) (User.password user)
    (User.role user) (User.name user) (User.circuitCourtId user) false.

(** [DELETE /:id]: [requireRole(['admin'])], then the handler. *)
Definition deleteUser (users : list User.t) (caller : Auth.ReqUser)
    (userId : ObjectId) : Response * list User.t :=
  match Auth.requireRole ["admin"] caller with
  | Some r => (r, users)
  | None =>
      if String.eqb (Auth.userId caller) userId
      then (fail 400 "Cannot deactivate your own account", users)
      else
        match findById users userId with
        | None => (fail 404 "User not found", users)
        | Some user =>
            catch500 users
              (users' ← save users (deactivate user);
               Ok (ok200 "User deactivated successfully", users'))
        end
  end.

End UserAdmin.

(** ** middleware/auth.js: the token check and the field filter *)

Module AuthMiddleware.

(** [String.prototype.split] on a one-character separator. *)
Fixpoint split (sep : ascii) (s : string) : list string :=
  match s with
  | EmptyString => [""]
  | String c s' =>
      if Ascii.eqb c sep then "" :: split sep s'
      else match split sep s' with
           | h :: t => String c h :: t
           | [] => [String c ""]
           end
  end.

(** [authHeader && authHeader.split(' ')[1]], [None] when the result is
    falsy. *)
Definition bearerToken (authorization : option string) : option string :=
  match authorization with
  | None => None
  | Some authHeader =>
      if String.eqb authHeader "" then None
      else match split " "%char authHeader !! 1%nat with
           | Some token => if String.eqb token "" then None else Some token
           | None => None
           end
  end.

(** What [jwt.verify] does with a token: the [userId] of the decoded
    payload, or the error it throws. *)
Inductive Verified :=
| Decoded (userId : option ObjectId)
| JsonWebTokenError
| TokenExpiredError
| OtherError.

Section Token.

(** [jwt.verify(token, process.env.JWT_SECRET)] *)
Variable verify : string → Verified.

(** [authenticateToken]: the response that ends the request, or the
    [req.user] handed to [next()]. *)
Definition authenticateToken (users : list User.t)
    (authorization : option string) : Response + Auth.ReqUser :=
  match bearerToken authorization with
  | None => inl (fail 401 "Access token required")
  | Some token =>
      match verify token with
      | Decoded userId =>
          match userId ≫= UserAdmin.findById users with
          | Some user =>
              if negb (User.isActive user)
              then inl (fail 401 "Invalid token or user not found")
              else inr (Auth.mkUser (User._id user) (User.username user)
                          (User.role user) (User.name user)
                          (User.circuitCourtId user))
          | None => inl (fail 401 "Invalid token or user not found")
          end
      | JsonWebTokenError => inl (fail 401 "Invalid token")
      | TokenExpiredError => inl (fail 401 "Token expired")
      | OtherError => inl (fail 500 "Internal server error")
      end
  end.

End Token.

(** [!req.body.hasOwnProperty(field) || req.body[field] === undefined ||
    req.body[field] === ''] on a parsed body. *)
Definition isMissing (body : list (string * Json)) (field : string) : bool :=
  match prop field body with
  | None => true
  | Some j => jsonIs j ""
  end.

(** [validateFields(requiredFields, optionalFields)]: the names of the
    missing fields with the 400 response, or the body [next()] sees. The
    body is a parsed object whose [hasOwnProperty] is the inherited
    one. *)
Definition validateFields (requiredFields optionalFields : list string)
    (body : list (string * Json))
    : Response * list string + list (string * Json) :=
  let missingFields := filter (fun f => isMissing body f = true)
                         requiredFields in
  if Nat.ltb 0 (length missingFields)
  then inl (fail 400 "Missing required fields", missingFields)
  else inr (filter (fun kv => fst kv ∈ app requiredFields optionalFields)
              body).

End AuthMiddleware.

(** ** data/memory-store.js *)

Module MemoryStore.

(** The store: three arrays of plain objects and the id counter. An
    object is a finite map from property names to values. *)
Record t := mk {
  users : list (gmap string Value);
  courts : list (gmap string Value);
  staff : list (gmap string Value);
  nextId : Z
}.

(** The fields the constructor sets, before the sample data is loaded. *)
Definition empty : t := mk [] [] [] 1.

(** [generateId()]: [return this.nextId++]. *)
Definition generateId (s : t) : Z * t :=
  (nextId s, mk (users s) (courts s) (staff s) (nextId s + 1)).

Section Runtime.

(** The number a string converts to under [==], when it is an integer. *)
Variable toNumber : string → option Z.

(** [bcrypt.hash(password, 10)] *)
Variable hash : string → string.

(** [x == id] for a number [id]: a number compares by value, a boolean
    and a string by the number they convert to; [undefined], [null], an
    object and a [Date] are never equal to a number. *)
Definition looseEq (x : option Value) (id : Z) : bool :=
  match x with
  | Some (VJson (JNum n)) => Z.eqb n id
  | Some (VJson (JBool b)) => Z.eqb (if b then 1 else 0) id
  | Some (VJson (JStr s)) =>
      match toNumber s with
      | Some n => Z.eqb n id
      | None => false
      end
  | _ => false
  end.

(** [findUserByUsername]: [user.username.toLowerCase()] throws on a user
    whose [username] is not a string. *)
Fixpoint findUserByUsername (us : list (gmap string Value)) (username : string)
    : Result (option (gmap string Value)) :=
  match us with
  | [] => Ok None
  | user :: us' =>
      match user !! "username" with
      | Some (VJson (JStr s)) =>
          if String.eqb (toLowerCase s) (toLowerCase username)
          then Ok (Some user)
          else findUserByUsername us' username
      | _ => Err TypeError
      end
  end.

(** [this.staff.find(staff => staff.id == id)], and the same search of
    [findUserById] and [findCourtById] *)
Definition findById (l : list (gmap string Value)) (id : Z)
    : option (gmap string Value) :=
  find (fun x => looseEq (x !! "id") id) l.

Definition findStaffById (s : t) (id : Z) := findById (staff s) id.

(** [createUser]: [{ id: this.generateId(), ...userData, password: await
    bcrypt.hash(userData.password, 10), isActive: true }]. The id is
    drawn before the hash is computed, and [bcrypt.hash] rejects a
    password that is not a string. *)
Definition createUser (userData : gmap string Value) (s : t)
    : Result (gmap string Value) * t :=
  let (id, s) := generateId s in
  match userData !! "password" with
  | Some (VJson (JStr password)) =>
      let user :=
        <["isActive" := VJson (JBool true)]>
          (<["password" := VJson (JStr (hash password))]>
             (userData ∪ {["id" := VJson (JNum id)]})) in
      (Ok user, mk (app (users s) [user]) (courts s) (staff s) (nextId s))
  | _ => (Err TypeError, s)
  end.

(** [createStaff]: [{ id: this.generateId(), ...staffData,
    createdAt: new Date() }] *)
Definition createStaff (now : Z) (staffData : gmap string Value) (s : t)
    : gmap string Value * t :=
  let (id, s) := generateId s in
  let x :=
    <["createdAt" := VDate now]>
      (staffData ∪ {["id" := VJson (JNum id)]}) in
  (x, mk (users s) (courts s) (app (staff s) [x]) (nextId s)).

(** [this.staff.findIndex(staff => staff.id == id)] *)
Fixpoint findIndex (l : list (gmap string Value)) (id : Z) : option nat :=
  match l with
  | [] => None
  | x :: l' =>
      if looseEq (x !! "id") id then Some 0%nat
      else S <$> findIndex l' id
  end.

(** [updateStaff]: [{ ...this.staff[index], ...updateData,
    updatedAt: new Date() }] at the index found, [null] otherwise. *)
Definition updateStaff (now : Z) (id : Z) (updateData : gmap string Value)
    (s : t) : option (gmap string Value) * t :=
  match findIndex (staff s) id with
  | Some index =>
      match staff s !! index with
      | Some old =>
          let x := <["updatedAt" := VDate now]> (updateData ∪ old) in
          (Some x,
           mk (users s) (courts s) (<[index := x]> (staff s)) (nextId s))
      | None => (None, s)
      end
  | None => (None, s)
  end.

(** [deleteStaff]: [this.staff.splice(index, 1)[0]] at the index found,
    [null] otherwise. *)
Definition deleteStaff (id : Z) (s : t) : option (gmap string Value) * t :=
  match findIndex (staff s) id with
  | Some index =>
      (staff s !! index,
       mk (users s) (courts s) (delete index (staff s)) (nextId s))
  | None => (None, s)
  end.

End Runtime.

(** The numeric id of a stored object. *)
Definition idOf (x : gmap string Value) : option Z :=
  match x !! "id" with
  | Some (VJson (JNum n)) => Some n
  | _ => None
  end.

(** The staff array is keyed: every record carries a number the counter
    has passed as its [id], and no two records carry the same. *)
Definition keyed (s : t) : Prop :=
  Forall (fun x => ∃ n, idOf x = Some n ∧ (n < nextId s)%Z) (staff s)
  ∧ NoDup (idOf <$> staff s).

End MemoryStore.
(** * Properties *)

(** Decides a closed proposition by evaluation. *)
Ltac decide_closed := refine (bool_decide_unpack _ _); vm_compute; exact I.

(** ** Staff lifecycle: the status transition and the pre-save hook *)

Module StaffLifecycle.

Lemma status_cases (s : string) :
  s ∈ Staff.statusValues →
  s = "active" ∨ s = "retired" ∨ s = "dismissed" ∨ s = "on_leave".
Proof. unfold Staff.statusValues. set_solver. Qed.

Ltac status_split H :=
  apply status_cases in H; destruct H as [-> | [-> | [-> | ->]]].

(** Closes an equation between lookups in maps built by [insert] and
    [delete] on string keys. *)
Ltac lookup_solve :=
  repeat first
    [ rewrite lookup_insert_eq
    | rewrite lookup_delete_eq
    | rewrite lookup_insert_ne by (done || congruence)
    | rewrite lookup_delete_ne by (done || congruence) ];
  try done; try congruence.

Ltac not_in_keys Hk :=
  repeat (rewrite not_elem_of_cons in Hk;
          let H := fresh "Hne" in destruct Hk as [H Hk]).

(** The transition leaves every path other than the status and the four
    status dates alone, whatever status and date it is given. *)
Lemma setStatus_frame (now : Z) (newStatus : Json) (date : option Value)
    (this : gmap string Value) (k : string) :
  k ∉ "employmentStatus" :: Staff.dateFields →
  Staff.setStatus now newStatus date this !! k = this !! k.
Proof.
  intros Hk. unfold Staff.dateFields in Hk. not_in_keys Hk.
  unfold Staff.setStatus.
  repeat match goal with |- context [if ?b then _ else _] => destruct b end;
    lookup_solve.
Qed.

Lemma setStatus_status (now : Z) (newStatus : Json) (date : option Value)
    (this : gmap string Value) :
  Staff.setStatus now newStatus date this !! "employmentStatus"
  = Some (VJson newStatus).
Proof.
  unfold Staff.setStatus.
  repeat match goal with |- context [if ?b then _ else _] => destruct b end;
    lookup_solve.
Qed.

Lemma hasValue_frame (m m' : gmap string Value) (k : string) :
  m' !! k = m !! k → Staff.hasValue m' k = Staff.hasValue m k.
Proof. unfold Staff.hasValue. by intros ->. Qed.

Lemma enumOk_frame (m m' : gmap string Value) (k : string) (l : list string) :
  m' !! k = m !! k → Staff.enumOk m' k l = Staff.enumOk m k l.
Proof. unfold Staff.enumOk. by intros ->. Qed.

Lemma coreValid_frame (m m' : gmap string Value) :
  (∀ k, k ∉ "employmentStatus" :: Staff.dateFields → m' !! k = m !! k) →
  Staff.coreValid m' = Staff.coreValid m.
Proof.
  intros H. unfold Staff.coreValid.
  rewrite !(hasValue_frame m m'), (enumOk_frame m m'); [done | ..];
    apply H; unfold Staff.dateFields; set_solver.
Qed.

Lemma coreValid_setStatus now newStatus date (this : gmap string Value) :
  Staff.coreValid (Staff.setStatus now newStatus date this)
  = Staff.coreValid this.
Proof. apply coreValid_frame. intros k. apply setStatus_frame. Qed.

(** What [date || new Date()] yields passes a [required] validator. *)
Lemma orElse_required (date : option Value) (now : Z) :
  match orElse date (VDate now) with
  | VJson JNull => false
  | VJson (JStr s) => negb (String.eqb s "")
  | _ => true
  end = true.
Proof.
  unfold orElse, truthy, truthyJson.
  destruct date as [[ms | [ | b | n | s | o]] |]; try done.
  - by destruct b.
  - by destruct (Z.eqb n 0).
  - by destruct (String.eqb s "") eqn:E; simpl; rewrite ?E.
Qed.

(** The resulting document passes the status validators exactly when the
    new status is one of the four. *)
Lemma statusValid_setStatus now (v : string) date (this : gmap string Value) :
  Staff.statusValid (Staff.setStatus now (JStr v) date this)
  = isIn Staff.statusValues v.
Proof.
  pose proof (orElse_required date now) as Hreq.
  unfold Staff.statusValid, Staff.statusIs, Staff.enumOk.
  rewrite setStatus_status.
  unfold Staff.hasValue at 1. rewrite setStatus_status.
  unfold isIn, Staff.setStatus, jsonIs.
  destruct (String.eqb_spec v "retired") as [-> | Hr].
  { unfold Staff.hasValue. simpl. rewrite lookup_insert_eq. by rewrite Hreq. }
  destruct (String.eqb_spec v "dismissed") as [-> | Hd].
  { unfold Staff.hasValue. simpl. rewrite lookup_insert_eq. by rewrite Hreq. }
  destruct (String.eqb_spec v "on_leave") as [-> | Hl].
  { unfold Staff.hasValue. simpl. rewrite lookup_insert_eq. by rewrite Hreq. }
  simpl. rewrite !andb_true_r.
  destruct (String.eqb_spec v "") as [-> | He]; [done |]. done.
Qed.

Lemma statusIs_frame (m m' : gmap string Value) (s : string) :
  m' !! "employmentStatus" = m !! "employmentStatus" →
  Staff.statusIs m' s = Staff.statusIs m s.
Proof. unfold Staff.statusIs. by intros ->. Qed.

Lemma statusIs_delete (m : gmap string Value) (k s : string) :
  k ≠ "employmentStatus" →
  Staff.statusIs (delete k m) s = Staff.statusIs m s.
Proof. intros. apply statusIs_frame. by rewrite lookup_delete_ne. Qed.

(** The hook, with its three tests read on the document it was given. *)
Lemma preSave_unfold (this : gmap string Value) :
  Staff.preSave this =
  let m1 := if Staff.statusIs this "retired" then this
            else delete "retirementDate" this in
  let m2 := if Staff.statusIs this "dismissed" then m1
            else delete "dismissalDate" m1 in
  if Staff.statusIs this "on_leave" then m2
  else delete "leaveEndDate" (delete "leaveStartDate" m2).
Proof.
  unfold Staff.preSave. cbv zeta.
  destruct (Staff.statusIs this "retired") eqn:Hr; simpl;
    rewrite ?statusIs_delete by done;
    destruct (Staff.statusIs this "dismissed") eqn:Hd; simpl;
    rewrite ?statusIs_delete by done; rewrite ?Hr;
    by destruct (Staff.statusIs this "on_leave").
Qed.

Lemma preSave_status (this : gmap string Value) :
  Staff.preSave this !! "employmentStatus" = this !! "employmentStatus".
Proof.
  rewrite preSave_unfold. cbv zeta.
  repeat match goal with |- context [if ?b then _ else _] => destruct b end;
    lookup_solve.
Qed.

Lemma preSave_frame (this : gmap string Value) (k : string) :
  k ∉ Staff.dateFields → Staff.preSave this !! k = this !! k.
Proof.
  intros Hk. unfold Staff.dateFields in Hk. not_in_keys Hk.
  rewrite preSave_unfold. cbv zeta.
  repeat match goal with |- context [if ?b then _ else _] => destruct b end;
    lookup_solve.
Qed.

Tactic Notation "key_cases" constr(k) :=
  destruct (decide (k = "employmentStatus")) as [-> |];
  [| destruct (decide (k = "retirementDate")) as [-> |];
     [| destruct (decide (k = "dismissalDate")) as [-> |];
        [| destruct (decide (k = "leaveStartDate")) as [-> |];
           [| destruct (decide (k = "leaveEndDate")) as [-> |]]]]].

Ltac split_ifs :=
  repeat match goal with |- context [if ?b then _ else _] => destruct b end.

(** After the transition the hook finds nothing left to clear. *)
Lemma preSave_setStatus now newStatus date (this : gmap string Value) :
  Staff.preSave (Staff.setStatus now newStatus date this)
  = Staff.setStatus now newStatus date this.
Proof.
  rewrite preSave_unfold. unfold Staff.statusIs. rewrite setStatus_status.
  unfold Staff.setStatus, jsonIs. cbv zeta.
  apply map_eq; intros k.
  destruct newStatus as [ | b | n | s | o]; try solve [key_cases k; lookup_solve].
  destruct (String.eqb s "retired") eqn:Hr.
  { apply String.eqb_eq in Hr as ->. simpl. key_cases k; lookup_solve. }
  destruct (String.eqb s "dismissed") eqn:Hd.
  { apply String.eqb_eq in Hd as ->. simpl. key_cases k; lookup_solve. }
  destruct (String.eqb s "on_leave") eqn:Hl.
  { apply String.eqb_eq in Hl as ->. simpl. key_cases k; lookup_solve. }
  key_cases k; lookup_solve.
Qed.

(** The transition reads nothing of the status and the status dates it
    is about to overwrite. *)
Lemma setStatus_ext now newStatus date (m m' : gmap string Value) :
  (∀ k, k ∉ "employmentStatus" :: Staff.dateFields → m !! k = m' !! k) →
  Staff.setStatus now newStatus date m = Staff.setStatus now newStatus date m'.
Proof.
  intros H. unfold Staff.setStatus. cbv zeta.
  apply map_eq; intros k. split_ifs; key_cases k; lookup_solve.
  all: apply H; unfold Staff.dateFields; set_solver.
Qed.

(** The transition does not see what the hook cleared. *)
Lemma setStatus_preSave now newStatus date (this : gmap string Value) :
  Staff.setStatus now newStatus date (Staff.preSave this)
  = Staff.setStatus now newStatus date this.
Proof.
  apply setStatus_ext. intros k Hk. apply preSave_frame.
  unfold Staff.dateFields in *. set_solver.
Qed.

Lemma setStatus_twice now1 now2 newStatus date (this : gmap string Value) :
  orElse date (VDate now2) = orElse date (VDate now1) →
  Staff.setStatus now2 newStatus date (Staff.setStatus now1 newStatus date this)
  = Staff.setStatus now1 newStatus date this.
Proof.
  intros Hd.
  rewrite (setStatus_ext now2 newStatus date _ this)
    by (intros k Hk; by apply setStatus_frame).
  unfold Staff.setStatus. by rewrite Hd.
Qed.

Lemma updateEmploymentStatus_eq now (v : string) date (this : gmap string Value) :
  Staff.updateEmploymentStatus now (JStr v) date this =
  if Staff.coreValid this && isIn Staff.statusValues v
  then Ok (Staff.setStatus now (JStr v) date this)
  else Err (ValidationError "Staff validation failed").
Proof.
  unfold Staff.updateEmploymentStatus, Staff.save, Staff.validate.
  by rewrite coreValid_setStatus, statusValid_setStatus, preSave_setStatus.
Qed.

(** The status as a string tests like the status path itself. *)
Lemma statusIs_statusOf (this : gmap string Value) (s : string) :
  s ≠ "" → Staff.statusIs this s = String.eqb (Staff.statusOf this) s.
Proof.
  intros Hs. unfold Staff.statusIs, Staff.statusOf.
  destruct (this !! "employmentStatus") as [[ms | []] |]; try done;
    symmetry; by apply String.eqb_neq.
Qed.

Lemma statusOf_preSave (this : gmap string Value) :
  Staff.statusOf (Staff.preSave this) = Staff.statusOf this.
Proof. unfold Staff.statusOf. by rewrite preSave_status. Qed.

(** What the hook leaves of each status date. *)
Lemma preSave_dates (this : gmap string Value) (k : string) :
  k ∈ Staff.dateFields →
  Staff.preSave this !! k =
  if bool_decide (k ∈ Staff.dateGroup (Staff.statusOf this))
  then this !! k else None.
Proof.
  intros Hk. rewrite preSave_unfold.
  rewrite !statusIs_statusOf by done. unfold Staff.dateGroup. cbv zeta.
  assert (k = "retirementDate" ∨ k = "dismissalDate" ∨ k = "leaveStartDate"
          ∨ k = "leaveEndDate") as Hcases
    by (unfold Staff.dateFields in Hk; set_solver).
  destruct (String.eqb (Staff.statusOf this) "retired") eqn:Hr.
  { apply String.eqb_eq in Hr. rewrite Hr. simpl.
    destruct Hcases as [-> | [-> | [-> | ->]]]; by lookup_solve. }
  destruct (String.eqb (Staff.statusOf this) "dismissed") eqn:Hd.
  { apply String.eqb_eq in Hd. rewrite Hd. simpl.
    destruct Hcases as [-> | [-> | [-> | ->]]]; by lookup_solve. }
  destruct (String.eqb (Staff.statusOf this) "on_leave") eqn:Hl.
  { destruct Hcases as [-> | [-> | [-> | ->]]]; by lookup_solve. }
  destruct Hcases as [-> | [-> | [-> | ->]]]; by lookup_solve.
Qed.

(** The hook establishes the invariant on whatever document it is given. *)
Lemma preSave_datesMatchStatus (this : gmap string Value) :
  Staff.datesMatchStatus (Staff.preSave this) = true.
Proof.
  unfold Staff.datesMatchStatus. apply forallb_forall. intros k Hk.
  apply list_elem_of_In in Hk. rewrite statusOf_preSave, preSave_dates by done.
  case_bool_decide as Hg; [| done].
  by destruct (this !! k).
Qed.

Lemma datesMatchStatus_spec (this : gmap string Value) :
  Staff.datesMatchStatus this = true ↔
  ∀ k, k ∈ Staff.dateFields → k ∉ Staff.dateGroup (Staff.statusOf this) →
       this !! k = None.
Proof.
  unfold Staff.datesMatchStatus. rewrite forallb_forall. split.
  - intros H k Hk Hg. apply list_elem_of_In in Hk. specialize (H k Hk).
    destruct (this !! k); [| done]. by apply bool_decide_eq_true in H.
  - intros H k Hk. apply list_elem_of_In in Hk.
    destruct (this !! k) eqn:E; [| done]. apply bool_decide_eq_true.
    destruct (decide (k ∈ Staff.dateGroup (Staff.statusOf this))); [done |].
    rewrite H in E; done.
Qed.

Lemma nodup_all_eq_length {A} (l : list A) (x : A) :
  NoDup l → (∀ y, y ∈ l → y = x) → (length l ≤ 1)%nat.
Proof.
  intros Hnd Hall. destruct l as [| a [| b l]]; simpl; [lia | lia |].
  exfalso. apply NoDup_cons in Hnd as [Hnotin _]. apply Hnotin.
  rewrite (Hall a), (Hall b); set_solver.
Qed.

(** Under the invariant only the group of the current status can be
    populated. *)
Lemma populatedGroups_matching (this : gmap string Value) :
  Staff.datesMatchStatus this = true →
  Staff.populatedGroups this ⊆ [Staff.statusOf this]
  ∧ (length (Staff.populatedGroups this) ≤ 1)%nat.
Proof.
  intros H. rewrite datesMatchStatus_spec in H.
  assert (∀ s, s ∈ Staff.populatedGroups this → s = Staff.statusOf this) as Hs.
  { intros s. unfold Staff.populatedGroups. rewrite list_elem_of_filter.
    intros [Hex Hin]. apply existsb_exists in Hex as [k [Hk Hpop]].
    apply list_elem_of_In in Hk. apply bool_decide_eq_true in Hpop.
    assert (k ∈ Staff.dateFields) as Hdf.
    { unfold Staff.dateGroup, Staff.dateFields in *.
      assert (s = "retired" ∨ s = "dismissed" ∨ s = "on_leave") as Hc
        by set_solver.
      destruct Hc as [-> | [-> | ->]]; simpl in Hk; set_solver. }
    destruct (decide (k ∈ Staff.dateGroup (Staff.statusOf this))) as [Hg | Hg].
    - unfold Staff.dateGroup in Hg, Hk.
      assert (s = "retired" ∨ s = "dismissed" ∨ s = "on_leave") as Hc
        by set_solver.
      destruct (String.eqb_spec (Staff.statusOf this) "retired") as [-> | ?];
        [destruct Hc as [-> | [-> | ->]]; simpl in Hk; set_solver |].
      destruct (String.eqb_spec (Staff.statusOf this) "dismissed") as [-> | ?];
        [destruct Hc as [-> | [-> | ->]]; simpl in Hk; set_solver |].
      destruct (String.eqb_spec (Staff.statusOf this) "on_leave") as [-> | ?];
        [destruct Hc as [-> | [-> | ->]]; simpl in Hk; set_solver |].
      set_solver.
    - rewrite (H k Hdf Hg) in Hpop. by destruct Hpop. }
  split.
  - intros s Hin. apply Hs in Hin as ->. set_solver.
  - apply nodup_all_eq_length with (x := Staff.statusOf this); [| done].
    unfold Staff.populatedGroups. apply NoDup_filter.
    repeat (apply NoDup_cons; split; [set_solver |]). apply NoDup_nil_2.
Qed.

(** Within the group of on_leave both leave dates stay populated: the
    invariant counts groups, not single paths. *)
Example save_on_leave_keeps_both_leave_dates :
  Staff.validate Sample.onLeaveJohn = true
  ∧ Staff.preSave Sample.onLeaveJohn !! "leaveStartDate"
    = Some (VDate 1709251200000%Z)
  ∧ Staff.preSave Sample.onLeaveJohn !! "leaveEndDate"
    = Some (VDate 1711929600000%Z)
  ∧ Staff.populatedGroups (Staff.preSave Sample.onLeaveJohn) = ["on_leave"].
Proof. repeat split; vm_compute; reflexivity. Qed.

(** Every successful save leaves a document that satisfies the
    invariant. *)
Lemma save_datesMatchStatus (this saved : gmap string Value) :
  Staff.save this = Ok saved → Staff.datesMatchStatus saved = true.
Proof.
  unfold Staff.save. destruct (Staff.validate this); [| done].
  intros [= <-]. apply preSave_datesMatchStatus.
Qed.



(** A supplied date of any truthy form, such as the non-empty string of a
    parsed body, is stored as it was given. *)
Lemma setStatus_supplied_date (now : Z) (this : gmap string Value)
    (v : Value) :
  truthy v = true →
  Staff.setStatus now (JStr "retired") (Some v) this !! "retirementDate"
  = Some v
  ∧ Staff.setStatus now (JStr "dismissed") (Some v) this !! "dismissalDate"
    = Some v
  ∧ Staff.setStatus now (JStr "on_leave") (Some v) this !! "leaveStartDate"
    = Some v.
Proof.
  intros Hv. unfold Staff.setStatus, orElse. rewrite Hv. simpl.
  repeat split; lookup_solve.
Qed.

(** The transition scenario: an active record retires on 2024-03-01, then
    goes on leave without a date at time [now]. *)
Example scenario_retire_then_leave (now : Z) :
  let retired := Staff.setStatus 0 (JStr "retired")
                   (Some (VJson (JStr "2024-03-01"))) Sample.johnSmith in
  let onLeave := Staff.setStatus now (JStr "on_leave") None retired in
  retired !! "retirementDate" = Some (VJson (JStr "2024-03-01"))
  ∧ retired !! "dismissalDate" = None
  ∧ retired !! "leaveStartDate" = None
  ∧ retired !! "leaveEndDate" = None
  ∧ onLeave !! "leaveStartDate" = Some (VDate now)
  ∧ onLeave !! "retirementDate" = None.
Proof. cbv zeta. repeat split; vm_compute; reflexivity. Qed.

(** C7. Applying the transition to status [v] with the fixed date [d] to
    the result of the same transition changes nothing: the document after
    the second application is the document after the first, in memory and
    as saved, whatever the clock shows at either call. *)
Theorem updateEmploymentStatus_idempotent
    (now1 now2 : Z) (this : gmap string Value) (v : string) (d : Z) :
  let date := Some (VDate d) in
  let once := Staff.setStatus now1 (JStr v) date this in
  Staff.setStatus now2 (JStr v) date once = once
  ∧ (Staff.updateEmploymentStatus now1 (JStr v) date this
       ≫= Staff.updateEmploymentStatus now2 (JStr v) date)
    = Staff.updateEmploymentStatus now1 (JStr v) date this.
Proof.
  cbv zeta. split; [by apply setStatus_twice |].
  rewrite !updateEmploymentStatus_eq.
  destruct (Staff.coreValid this && isIn Staff.statusValues v) eqn:Hv;
    [| reflexivity].
  unfold mbind, Result_bind.
  rewrite updateEmploymentStatus_eq, coreValid_setStatus, Hv.
  by rewrite setStatus_twice.
Qed.

(** *** The write paths of the staff routes *)

Lemma catch500_save_writes {S : Type} (coll : S) (resp : Response)
    (r : Result (gmap string Value)) (store : gmap string Value → S) :
  (catch500 coll (saved ← r; Ok (resp, store saved))).2 = coll
  ∨ ∃ saved, r = Ok saved
      ∧ catch500 coll (saved ← r; Ok (resp, store saved)) = (resp, store saved).
Proof. destruct r as [saved | e]; simpl; eauto. Qed.

(** [PUT /:id] either leaves the collection as it is or replaces the
    addressed document by the result of a successful [save]. *)
Lemma putStaff_writes (isEmail : string → bool) (courts : list Court.t)
    (coll : gmap string (gmap string Value)) (now : Z) (user : Auth.ReqUser)
    (staffId : ObjectId) (updateData : list (string * Json)) :
  (StaffRoutes.putStaff isEmail courts coll now user staffId updateData).2 = coll
  ∨ ∃ this saved, Staff.save this = Ok saved
      ∧ (StaffRoutes.putStaff isEmail courts coll now user staffId updateData).2
        = <[staffId := saved]> coll.
Proof.
  unfold StaffRoutes.putStaff.
  destruct (StaffRoutes.validUpdate isEmail updateData); simpl; [| by left].
  destruct (coll !! staffId) as [staff |]; [| by left].
  destruct (StaffRoutes.checkPermissionPopulated _ _ _) as [[r |] | e];
    simpl; [by left | | by left].
  match goal with
  | |- context [catch500 coll (saved ← ?r; Ok (?resp, _))] =>
      destruct (catch500_save_writes coll resp r (fun s => <[staffId := s]> coll))
        as [Hsame | [saved [Hr Hw]]]
  end; [by left |].
  right. rewrite Hw. simpl.
  destruct (StaffRoutes.statusChange _ staff); eauto.
Qed.

(** [POST /] either leaves the collection as it is or adds the result of
    a successful [save]. *)
Lemma postStaff_writes (isEmail : string → bool) (courts : list Court.t)
    (coll : gmap string (gmap string Value)) (now : Z) (user : Auth.ReqUser)
    (newId : ObjectId) (body : list (string * Json)) :
  (StaffRoutes.postStaff isEmail courts coll now user newId body).2 = coll
  ∨ ∃ this saved, Staff.save this = Ok saved
      ∧ (StaffRoutes.postStaff isEmail courts coll now user newId body).2
        = <[newId := saved]> coll.
Proof.
  unfold StaffRoutes.postStaff.
  destruct (StaffRoutes.validCreate isEmail body); simpl; [| by left].
  destruct (prop "courtId" _) as [[ | | | courtId | ] |]; simpl; try by left.
  destruct (Court.findById courts courtId) as [court |]; simpl; [| by left].
  destruct (negb _); simpl; [by left |].
  destruct (StaffRoutes.checkPermission _ _ _) as [[r |] | e];
    simpl; [by left | | by left].
  match goal with
  | |- context [catch500 coll (saved ← ?r; Ok (?resp, _))] =>
      destruct (catch500_save_writes coll resp r (fun s => <[newId := s]> coll))
        as [Hsame | [saved [Hr Hw]]]
  end; [by left |].
  right. rewrite Hw. eauto.
Qed.

Lemma allDatesMatch_write (coll : gmap string (gmap string Value))
    (id : ObjectId) (this saved : gmap string Value) :
  StaffRoutes.allDatesMatch coll → Staff.save this = Ok saved →
  StaffRoutes.allDatesMatch (<[id := saved]> coll).
Proof.
  intros Hall Hsave. apply map_Forall_insert_2; [| done].
  by eapply save_datesMatchStatus.
Qed.

(** The seeded collection, written by [insertMany] without the hook,
    satisfies the invariant: no seeded record carries a status date. *)
Lemma sample_staff_dates_match : StaffRoutes.allDatesMatch Sample.staff.
Proof.
  unfold StaffRoutes.allDatesMatch, Sample.staff.
  repeat (apply map_Forall_insert_2; [vm_compute; reflexivity |]).
  apply map_Forall_empty.
Qed.

(** C4. A staff record that completes a save has every status date that
    does not belong to the group of its employment status cleared
    (retired: retirementDate; dismissed: dismissalDate; on_leave:
    leaveStartDate and leaveEndDate; active: none), so at most one group,
    the matching one, is populated. Every write path keeps this: the
    transition, and the create and update handlers, whose direct field
    assignments reach the collection through [save] only. *)
Theorem saved_dates_match_status
    (isEmail : string → bool) (courts : list Court.t)
    (coll : gmap string (gmap string Value)) (now : Z) (user : Auth.ReqUser)
    (id : ObjectId) (body : list (string * Json))
    (this saved : gmap string Value) (newStatus : Json) (date : option Value) :
  (Staff.save this = Ok saved →
     (∀ k, k ∈ Staff.dateFields →
           k ∉ Staff.dateGroup (Staff.statusOf saved) → saved !! k = None)
     ∧ Staff.populatedGroups saved ⊆ [Staff.statusOf saved]
     ∧ (length (Staff.populatedGroups saved) ≤ 1)%nat)
  ∧ (Staff.updateEmploymentStatus now newStatus date this = Ok saved →
     Staff.datesMatchStatus saved = true)
  ∧ (StaffRoutes.allDatesMatch coll →
     StaffRoutes.allDatesMatch
       (StaffRoutes.putStaff isEmail courts coll now user id body).2)
  ∧ (StaffRoutes.allDatesMatch coll →
     StaffRoutes.allDatesMatch
       (StaffRoutes.postStaff isEmail courts coll now user id body).2).
Proof.
  repeat split.
  - apply datesMatchStatus_spec. by eapply save_datesMatchStatus.
  - apply populatedGroups_matching. by eapply save_datesMatchStatus.
  - apply populatedGroups_matching. by eapply save_datesMatchStatus.
  - apply save_datesMatchStatus.
  - intros Hall.
    destruct (putStaff_writes isEmail courts coll now user id body)
      as [-> | (this' & saved' & Hsave & ->)]; [done |].
    by eapply allDatesMatch_write.
  - intros Hall.
    destruct (postStaff_writes isEmail courts coll now user id body)
      as [-> | (this' & saved' & Hsave & ->)]; [done |].
    by eapply allDatesMatch_write.
Qed.

(** The hypotheses of C4 hold of a concrete save: a retired clerk whose
    document also carries a dismissal date and a leave end date is saved
    with both cleared and the retirement date kept. *)
Lemma saved_dates_match_status_witness :
  Staff.save Sample.retiredWithStrayDates
  = Ok (Staff.preSave Sample.retiredWithStrayDates)
  ∧ Staff.preSave Sample.retiredWithStrayDates !! "dismissalDate" = None
  ∧ Staff.preSave Sample.retiredWithStrayDates !! "leaveEndDate" = None
  ∧ Staff.preSave Sample.retiredWithStrayDates !! "retirementDate"
    = Some (VDate 1709251200000%Z).
Proof.
  assert (Staff.validate Sample.retiredWithStrayDates = true) as Hvalid
    by (vm_compute; reflexivity).
  assert (Staff.save Sample.retiredWithStrayDates
          = Ok (Staff.preSave Sample.retiredWithStrayDates)) as Hsave
    by (unfold Staff.save; by rewrite Hvalid).
  assert (Staff.statusOf Sample.retiredWithStrayDates = "retired") as Hstatus
    by (vm_compute; reflexivity).
  pose proof (proj1 (proj1
    (saved_dates_match_status (fun _ => true) Sample.courts Sample.staff 0%Z
       Sample.admin "staff1" [] Sample.retiredWithStrayDates
       (Staff.preSave Sample.retiredWithStrayDates) JNull None) Hsave)) as H.
  rewrite statusOf_preSave, Hstatus in H.
  split; [exact Hsave |].
  split; [apply H; decide_closed |].
  split; [apply H; decide_closed |].
  vm_compute; reflexivity.
Defined.

(** *** An update that repeats the current status *)





Lemma prop_sanitizeTrim_ne (k k' : string) (o : list (string * Json)) :
  k ≠ k' → prop k (StaffRoutes.sanitizeTrim k' o) = prop k o.
Proof.
  intros Hne. induction o as [| [k0 v] o IH]; [done |].
  simpl. destruct (String.eqb_spec k0 k') as [-> | ?]; simpl.
  - destruct (String.eqb_spec k' k); [congruence | exact IH].
  - destruct (String.eqb_spec k0 k); [done | exact IH].
Qed.











End StaffLifecycle.

(** ** Access control of the staff routes *)

Module AccessControl.

Lemma findById_Some (courts : list Court.t) (id : ObjectId) (c : Court.t) :
  Court.findById courts id = Some c → c ∈ courts ∧ Court._id c = id.
Proof.
  unfold Court.findById. intros H. apply find_some in H as [Hin Heq].
  split; [by apply list_elem_of_In | by apply String.eqb_eq].
Qed.

(** The lookup of the caller's own circuit court finds the court the
    caller is bound to. *)
Lemma findOne_bound (courts : list Court.t) (user : Auth.ReqUser)
    (own : Court.t) :
  StaffRoutes.boundTo courts user own → Court.type own = "circuit" →
  Court.findOneByUserAndType courts (Auth.userId user) "circuit" = Some own.
Proof.
  intros (Hin & Hown & Huniq) Htype. unfold Court.findOneByUserAndType.
  destruct (find _ courts) as [c |] eqn:Hfind.
  - apply find_some in Hfind as [Hc Hp]. f_equal. apply Huniq.
    + by apply list_elem_of_In.
    + destruct (Court.userId c) as [o |]; [| done].
      apply andb_true_iff in Hp as [Ho _]. by apply String.eqb_eq in Ho as ->.
  - apply list_elem_of_In in Hin.
    pose proof (find_none _ _ Hfind own Hin) as Hp. simpl in Hp.
    by rewrite Hown, Htype, String.eqb_refl in Hp.
Qed.

(** The defect behind C1, C2 and C6: for a caller that is not an
    administrator, [court.userId.toString()] throws on a court without
    [userId], and the handler answers 500. *)
Lemma getStaffByCourt_without_owner (courts : list Court.t)
    (user : Auth.ReqUser) (courtId : ObjectId) (court : Court.t) :
  Auth.role user ≠ "admin" →
  Court.findById courts courtId = Some court →
  Court.userId court = None →
  StaffRoutes.getStaffByCourt courts user courtId
  = fail 500 "Internal server error".
Proof.
  intros Hrole Hfind Howner. unfold StaffRoutes.getStaffByCourt.
  rewrite Hfind. unfold StaffRoutes.checkPermission.
  apply String.eqb_neq in Hrole. by rewrite Hrole, Howner.
Qed.

(** On a court that carries a [userId], the check decides as the circuit
    rule says: the caller's own court and the courts that reference it are
    allowed, every other court is refused with 403. *)
Lemma getStaffByCourt_circuit_with_owner (courts : list Court.t)
    (user : Auth.ReqUser) (own : Court.t) (courtId : ObjectId)
    (court : Court.t) :
  Auth.role user = "circuit" →
  StaffRoutes.boundTo courts user own → Court.type own = "circuit" →
  Court.findById courts courtId = Some court →
  is_Some (Court.userId court) →
  (court = own ∨ Court.circuitCourtId court = Some (Court._id own) →
   StaffRoutes.getStaffByCourt courts user courtId = ok200 "")
  ∧ (court ≠ own → Court.circuitCourtId court ≠ Some (Court._id own) →
     StaffRoutes.getStaffByCourt courts user courtId = StaffRoutes.denied).
Proof.
  intros Hrole Hbound Htype Hfind [owner Howner].
  pose proof (findOne_bound _ _ _ Hbound Htype) as Hone.
  destruct Hbound as (Hin & Hown & Huniq).
  apply findById_Some in Hfind as Hcourt. destruct Hcourt as [Hcin _].
  unfold StaffRoutes.getStaffByCourt, StaffRoutes.checkPermission,
    StaffRoutes.circuitBranch.
  rewrite Hfind, Hrole, Howner, Hone. simpl.
  destruct (String.eqb_spec owner (Auth.userId user)) as [-> | Hne]; simpl.
  - split; [done |]. intros Hneq. destruct Hneq. by apply Huniq.
  - split.
    + intros [-> | Hparent]; [congruence |].
      rewrite Hparent. simpl. by rewrite String.eqb_refl.
    + intros _ Hparent. unfold StaffRoutes.optNe.
      destruct (Court.circuitCourtId court) as [p |]; [| done].
      destruct (String.eqb_spec p (Court._id own)); [congruence | done].
Qed.

(** On a court that carries a [userId], a magisterial caller is allowed
    exactly on the court it is bound to and refused with 403 elsewhere. *)
Lemma getStaffByCourt_magisterial_with_owner (courts : list Court.t)
    (user : Auth.ReqUser) (own : Court.t) (courtId : ObjectId)
    (court : Court.t) :
  Auth.role user = "magisterial" →
  StaffRoutes.boundTo courts user own →
  Court.findById courts courtId = Some court →
  is_Some (Court.userId court) →
  (court = own → StaffRoutes.getStaffByCourt courts user courtId = ok200 "")
  ∧ (court ≠ own →
     StaffRoutes.getStaffByCourt courts user courtId = StaffRoutes.denied).
Proof.
  intros Hrole (Hin & Hown & Huniq) Hfind [owner Howner].
  apply findById_Some in Hfind as Hcourt. destruct Hcourt as [Hcin _].
  unfold StaffRoutes.getStaffByCourt, StaffRoutes.checkPermission,
    StaffRoutes.circuitBranch.
  rewrite Hfind, Hrole, Howner. simpl.
  destruct (String.eqb_spec owner (Auth.userId user)) as [-> | Hne]; simpl.
  - split; [done |]. intros Hneq. destruct Hneq. by apply Huniq.
  - split; [| done]. intros ->. congruence.
Qed.

(** A target that does not resolve is answered 404, whoever asks. *)
Lemma getStaffByCourt_not_found (courts : list Court.t) (user : Auth.ReqUser)
    (courtId : ObjectId) :
  Court.findById courts courtId = None →
  StaffRoutes.getStaffByCourt courts user courtId = fail 404 "Court not found".
Proof. intros H. unfold StaffRoutes.getStaffByCourt. by rewrite H. Qed.




(** C6. On the courts as the sample data seeds them, a target that does
    not resolve is answered 404, and an existing court that a magisterial
    caller has no right to is answered 500, the generic failure, where the
    rule answers 403: no seeded court has a [userId] to dereference. *)
Theorem getStaffByCourt_unauthorized_generic_failure :
  outcome (StaffRoutes.getStaffByCourt Sample.courts Sample.magisterialUser
             "court9") = NotFound
  ∧ is_Some (Court.findById Sample.courts "court1")
  ∧ StaffRoutes.getStaffByCourt Sample.courts Sample.magisterialUser "court1"
    = fail 500 "Internal server error"
  ∧ outcome (StaffRoutes.getStaffByCourt Sample.courts Sample.magisterialUser
               "court1") = GenericFailure.
Proof. repeat split. by eexists. Qed.

(** The access scenario, every court carrying a [userId]: the circuit
    caller bound to court 1 is allowed on court 2 (magisterial, parent 1)
    and refused with PermissionDenied on court 3 (magisterial, parent
    99). *)
Example scenario_circuit_access :
  StaffRoutes.getStaffByCourt Sample.scenarioCourts Sample.scenarioCaller "2"
  = ok200 ""
  ∧ outcome (StaffRoutes.getStaffByCourt Sample.scenarioCourts
               Sample.scenarioCaller "3") = PermissionDenied
  ∧ outcome (StaffRoutes.getStaffByCourt Sample.scenarioCourts
               Sample.scenarioCaller "4") = NotFound.
Proof. repeat split. Qed.

(** The sibling check of [GET /:id] tolerates the missing [userId]: on the
    seeded data the same caller is refused with 403 there. *)
Lemma getStaffById_unauthorized_denied :
  StaffRoutes.getStaffById Sample.courts Sample.staff Sample.magisterialUser
    "staff1" = StaffRoutes.denied.
Proof. vm_compute. reflexivity. Qed.

End AccessControl.

(** ** Courts: creation under a circuit court, and what an update leaves *)

Module CourtLifecycle.






(** What [upsert] does to a collection that holds the document's id: the
    first document with that id is replaced, every other stays. *)
Lemma upsert_found (db : list Court.t) (old this : Court.t) :
  Court.findById db (Court._id this) = Some old →
  Forall2 (fun c c' => c' = c ∨ (c = old ∧ c' = this)) db (Court.upsert db this).
Proof.
  unfold Court.findById. induction db as [| c db IH]; [done |].
  simpl. destruct (String.eqb (Court._id c) (Court._id this)) eqn:E.
  - intros [= ->]. constructor; [by right |].
    apply Forall2_same_length_lookup_2; [done |].
    intros i x y Hx Hy. left. congruence.
  - intros H. constructor; [by left | by apply IH].
Qed.

(** The paths an update never assigns. *)
Lemma applyUpdate_frame (body : CourtRoutes.Body) (court : Court.t) :
  Court._id (CourtRoutes.applyUpdate body court) = Court._id court
  ∧ Court.type (CourtRoutes.applyUpdate body court) = Court.type court
  ∧ Court.circuitCourtId (CourtRoutes.applyUpdate body court)
    = Court.circuitCourtId court
  ∧ Court.isActive (CourtRoutes.applyUpdate body court) = Court.isActive court
  ∧ Court.location (CourtRoutes.applyUpdate body court) = Court.location court
  ∧ Court.userId (CourtRoutes.applyUpdate body court) = Court.userId court.
Proof. done. Qed.

(** C9. Whatever the caller and the body, the court-update operation
    leaves every court's [_id], [type], [circuitCourtId], [isActive],
    [location] and [userId] as they were, keeps the collection's courts in
    place, and changes no court other than the addressed one: only [name],
    [address], [contactInfo] and [description] of the addressed court can
    differ afterwards. *)
Theorem putCourt_frame (courts : list Court.t) (user : Auth.ReqUser)
    (courtId : ObjectId) (body : CourtRoutes.Body) :
  Forall2
    (fun c c' =>
       Court._id c' = Court._id c
       ∧ Court.type c' = Court.type c
       ∧ Court.circuitCourtId c' = Court.circuitCourtId c
       ∧ Court.isActive c' = Court.isActive c
       ∧ Court.location c' = Court.location c
       ∧ Court.userId c' = Court.userId c
       ∧ (Court._id c = courtId ∨ c' = c))
    courts (CourtRoutes.putCourt courts user courtId body).2.
Proof.
  assert (∀ l : list Court.t,
            Forall2 (fun c c' =>
              Court._id c' = Court._id c ∧ Court.type c' = Court.type c
              ∧ Court.circuitCourtId c' = Court.circuitCourtId c
              ∧ Court.isActive c' = Court.isActive c
              ∧ Court.location c' = Court.location c
              ∧ Court.userId c' = Court.userId c
              ∧ (Court._id c = courtId ∨ c' = c)) l l) as Hrefl.
  { intros l. apply Forall2_same_length_lookup_2; [done |].
    intros i x y Hx Hy. assert (y = x) as -> by congruence.
    repeat split; by right. }
  unfold CourtRoutes.putCourt.
  destruct (negb _); [apply Hrefl |]. cbv zeta.
  destruct (Court.findById courts courtId) as [court |] eqn:Hfind;
    [| apply Hrefl].
  destruct (negb _); [apply Hrefl |].
  unfold Court.save. destruct (Court.validate _); [| apply Hrefl].
  destruct (Court.preSave _ _); simpl; [| apply Hrefl].
  destruct (AccessControl.findById_Some _ _ _ Hfind) as [_ Hid].
  eapply Forall2_impl.
  - apply (upsert_found courts court). simpl. by rewrite Hid.
  - intros c c' [-> | [-> ->]]; [repeat split; by right |].
    repeat split; try done. by left.
Qed.

End CourtLifecycle.

(** ** Users: the role a creation request may carry *)

Module UserAccounts.

Lemma roleAccepted_admin (role : option string) :
  UserRoutes.roleAccepted role = true ↔ role = Some "admin".
Proof.
  unfold UserRoutes.roleAccepted, isIn. rewrite bool_decide_eq_true.
  rewrite list_elem_of_singleton. destruct role as [r |]; simpl.
  - split; [by intros -> | by intros [= ->]].
  - split; discriminate.
Qed.

(** C8, as the claim states it, fails: a creation request by the
    administrator for an account with role circuit, a role of the allowed
    set, with a fresh alphanumeric username, a password of nine characters
    and a name, is answered ValidationFailed and stores nothing. *)
Lemma createUser_rejects_circuit_role :
  "circuit" ∈ User.roleValues
  ∧ UserRoutes.role Sample.newCircuitAccount = Some "circuit"
  ∧ UserRoutes.validCreate
      (UserRoutes.mkBody (UserRoutes.username Sample.newCircuitAccount)
         (UserRoutes.password Sample.newCircuitAccount)
         (UserRoutes.name Sample.newCircuitAccount) (Some "admin") None) = true
  ∧ User.findByUsername [] "circuit1" = None
  ∧ UserRoutes.postUser [] Sample.admin "user2" Sample.newCircuitAccount
    = (fail 400 "Validation failed", [])
  ∧ outcome (UserRoutes.postUser [] Sample.admin "user2"
               Sample.newCircuitAccount).1 = ValidationFailed.
Proof.
  split; [decide_closed |]. repeat split.
Qed.

(** C8, amended. The role of a creation request is accepted exactly when
    it is admin. A request with any other role, circuit and magisterial
    included, is answered ValidationFailed and stores nothing; a request
    with role admin whose fields pass the validation chains and whose
    username is free is answered with success and stores the account with
    that role. Behind the route's gate an administrator's request is the
    handler's. *)
Theorem createUser_accepts_admin_only
    (users : list User.t) (user : Auth.ReqUser) (newId : ObjectId)
    (body : UserRoutes.Body) :
  (UserRoutes.roleAccepted (UserRoutes.role body) = true
   ↔ UserRoutes.role body = Some "admin")
  ∧ (UserRoutes.role body ≠ Some "admin" →
     UserRoutes.createUser users newId body
     = (fail 400 "Validation failed", users)
     ∧ outcome (UserRoutes.createUser users newId body).1 = ValidationFailed)
  ∧ (UserRoutes.validCreate body = true →
     User.findByUsername users
       (trim (default "" (UserRoutes.username body))) = None →
     UserRoutes.role body = Some "admin"
     ∧ outcome (UserRoutes.createUser users newId body).1 = Success
     ∧ ∃ account, (UserRoutes.createUser users newId body).2
                  = app users [account]
         ∧ User.role account = "admin")
  ∧ (Auth.role user = "admin" →
     UserRoutes.postUser users user newId body
     = UserRoutes.createUser users newId body).
Proof.
  split; [apply roleAccepted_admin |]. split; [| split].
  - intros Hrole. unfold UserRoutes.createUser, UserRoutes.validCreate.
    destruct (UserRoutes.roleAccepted _) eqn:Hacc.
    + by apply roleAccepted_admin in Hacc.
    + by rewrite !andb_false_r.
  - intros Hvalid Hfree.
    assert (UserRoutes.role body = Some "admin") as Hrole.
    { apply roleAccepted_admin. unfold UserRoutes.validCreate in Hvalid.
      by apply andb_true_iff in Hvalid as [_ ?]. }
    split; [done |].
    unfold UserRoutes.createUser. rewrite Hvalid. cbv zeta.
    assert (default "" (UserRoutes.username (UserRoutes.sanitize body))
            = trim (default "" (UserRoutes.username body))) as ->.
    { simpl. by destruct (UserRoutes.username body). }
    rewrite Hfree. unfold User.save, UserRoutes.userData. simpl.
    rewrite Hrole. simpl. split; [done |]. eexists. split; done.
  - intros Hadmin. unfold UserRoutes.postUser, Auth.requireRole.
    by rewrite Hadmin.
Qed.

(** The hypotheses of the amended C8 hold of a concrete request: on the
    empty collection the administrator's request for a second
    administrator passes the chains, finds its username free, and
    succeeds. *)
Lemma createUser_accepts_admin_only_witness :
  UserRoutes.validCreate Sample.newAdminAccount = true
  ∧ User.findByUsername [] "admin2" = None
  ∧ outcome (UserRoutes.createUser [] "user2" Sample.newAdminAccount).1
    = Success.
Proof.
  split; [reflexivity |]. split; [reflexivity |].
  exact (proj1 (proj2 (proj1 (proj2 (proj2
    (createUser_accepts_admin_only [] Sample.admin "user2"
       Sample.newAdminAccount))) eq_refl eq_refl))).
Defined.

End UserAccounts.

(** ** Staff queries: listings, statistics and deletion *)

Module StaffQueryFacts.

Lemma pathIs_true (doc : gmap string Value) (k s : string) :
  StaffQueries.pathIs doc k s = true ↔ doc !! k = Some (VJson (JStr s)).
Proof.
  unfold StaffQueries.pathIs.
  destruct (doc !! k) as [[ms | [ | b | n | s' | o]] |]; try (split; done).
  rewrite String.eqb_eq. split; [by intros -> | by intros [= ->]].
Qed.

Lemma byName_total : Total StaffQueries.byName.
Proof. intros a b. apply String.leb_total. Qed.

(** What a sorted query returns: the documents of the collection that the
    query matches, each once, by name. *)
Lemma sorted_find (query : gmap string Value → bool)
    (coll : gmap string (gmap string Value)) :
  (∀ id doc, (id, doc) ∈ StaffQueries.sortByName (StaffQueries.find query coll)
             ↔ coll !! id = Some doc ∧ query doc = true)
  ∧ Sorted StaffQueries.byName
      (StaffQueries.sortByName (StaffQueries.find query coll))
  ∧ NoDup (StaffQueries.sortByName (StaffQueries.find query coll)).*1.
Proof.
  unfold StaffQueries.sortByName, StaffQueries.find. split; [| split].
  - intros id doc. rewrite merge_sort_Permutation, list_elem_of_filter.
    rewrite elem_of_map_to_list. simpl. tauto.
  - apply Sorted_merge_sort, byName_total.
  - rewrite merge_sort_Permutation.
    eapply sublist_NoDup; [apply (NoDup_fst_map_to_list coll) |].
    apply fmap_sublist, sublist_filter.
Qed.

(** X1. [getByStatus] returns exactly the staff members whose
    [employmentStatus] is the given one, each once, sorted by name;
    [getActiveStaff] is the same listing for "active". *)
Theorem getByStatus_exact (coll : gmap string (gmap string Value))
    (status : string) :
  (∀ id doc, (id, doc) ∈ StaffQueries.getByStatus coll status
             ↔ coll !! id = Some doc
               ∧ doc !! "employmentStatus" = Some (VJson (JStr status)))
  ∧ Sorted StaffQueries.byName (StaffQueries.getByStatus coll status)
  ∧ NoDup (StaffQueries.getByStatus coll status).*1
  ∧ StaffQueries.getActiveStaff coll = StaffQueries.getByStatus coll "active".
Proof.
  unfold StaffQueries.getByStatus.
  destruct (sorted_find
              (fun d => StaffQueries.pathIs d "employmentStatus" status) coll)
    as (Hin & Hsorted & Hnodup).
  split; [| by repeat split].
  intros id doc. by rewrite Hin, pathIs_true.
Qed.

(** X2. [getByCourt] returns exactly the staff members of the given
    court, each once, sorted by name; a court type narrows the listing to
    the members recorded with that type, and a missing or empty type
    leaves it as it is. *)
Theorem getByCourt_exact (coll : gmap string (gmap string Value))
    (courtId : ObjectId) (courtType : string) :
  (∀ id doc, (id, doc) ∈ StaffQueries.getByCourt coll courtId None
             ↔ coll !! id = Some doc
               ∧ doc !! "courtId" = Some (VJson (JStr courtId)))
  ∧ StaffQueries.getByCourt coll courtId (Some "")
    = StaffQueries.getByCourt coll courtId None
  ∧ (courtType ≠ "" →
     ∀ id doc, (id, doc) ∈ StaffQueries.getByCourt coll courtId (Some courtType)
               ↔ (id, doc) ∈ StaffQueries.getByCourt coll courtId None
                 ∧ doc !! "courtType" = Some (VJson (JStr courtType)))
  ∧ Sorted StaffQueries.byName
      (StaffQueries.getByCourt coll courtId (Some courtType))
  ∧ NoDup (StaffQueries.getByCourt coll courtId (Some courtType)).*1.
Proof.
  unfold StaffQueries.getByCourt. split; [| split; [| split; [| split]]].
  - intros id doc. rewrite (proj1 (sorted_find _ coll)).
    by rewrite andb_true_r, pathIs_true.
  - done.
  - intros Hty id doc. rewrite !(proj1 (sorted_find _ coll)).
    apply String.eqb_neq in Hty. rewrite Hty.
    rewrite andb_true_r, andb_true_iff, !pathIs_true. tauto.
  - apply sorted_find.
  - apply sorted_find.
Qed.

End StaffQueryFacts.

Module StaffStatisticsFacts.

(** The count of a group is the number of its documents; a group without
    documents has no entry. *)
Lemma groupCounts_lookup (docs : list (gmap string Value)) (g : option string) :
  StaffQueries.groupCounts docs !! g =
  match length (filter (fun d => StaffQueries.groupId d = g) docs) with
  | 0 => None
  | n => Some n
  end.
Proof.
  induction docs as [| d docs IH]; [done |].
  simpl. rewrite filter_cons.
  destruct (decide (StaffQueries.groupId d = g)) as [-> | Hne].
  - rewrite lookup_insert_eq, IH. simpl.
    by destruct (length (filter _ docs)).
  - by rewrite lookup_insert_ne.
Qed.

Lemma sum_list_perm (l1 l2 : list nat) : l1 ≡ₚ l2 → sum_list l1 = sum_list l2.
Proof. induction 1; simpl; lia. Qed.

Lemma sum_counts_insert (m : gmap (option string) nat) (g : option string) :
  sum_list (map_to_list (<[g := S (default 0 (m !! g))]> m)).*2
  = S (sum_list (map_to_list m).*2).
Proof.
  destruct (m !! g) as [c |] eqn:Hg; simpl.
  - rewrite <- (insert_delete_eq m g (S c)).
    rewrite <- (insert_delete_id m g c Hg) at 2.
    rewrite !(sum_list_perm _ _ (fmap_Permutation snd _ _
               (map_to_list_insert _ _ _ (lookup_delete_eq m g)))).
    done.
  - by rewrite (sum_list_perm _ _ (fmap_Permutation snd _ _
                  (map_to_list_insert _ _ 1 Hg))).
Qed.

(** The counts of all groups add up to the number of documents. *)
Lemma sum_groupCount (docs : list (gmap string Value)) :
  sum_list (StaffQueries.groupCount docs).*2 = length docs.
Proof.
  unfold StaffQueries.groupCount.
  induction docs as [| d docs IH]; [done |].
  simpl. by rewrite sum_counts_insert, IH.
Qed.

(** The loop over the aggregation: with distinct keys, none of them
    "total", the total grows by the sum of the counts, every key of the
    aggregation holds its count, and every other key is left alone. *)
Lemma tally_fold (stats : list (option string * nat)) (r : gmap string nat)
    (t : nat) :
  r !! "total" = Some t →
  NoDup (StaffQueries.statKey <$> stats.*1) →
  "total" ∉ StaffQueries.statKey <$> stats.*1 →
  fold_left StaffQueries.tallyStep stats r !! "total"
  = Some (t + sum_list stats.*2)
  ∧ (∀ g c, (g, c) ∈ stats →
       fold_left StaffQueries.tallyStep stats r !! StaffQueries.statKey g
       = Some c)
  ∧ (∀ k, k ≠ "total" → k ∉ StaffQueries.statKey <$> stats.*1 →
       fold_left StaffQueries.tallyStep stats r !! k = r !! k).
Proof.
  revert r t. induction stats as [| [g c] stats IH]; intros r t Ht Hnd Hnt.
  { simpl. rewrite Ht. split; [f_equal; lia |]. split; [| done].
    intros g c Hin. by apply elem_of_nil in Hin. }
  simpl in Hnd, Hnt. apply NoDup_cons in Hnd as [Hfresh Hnd].
  apply not_elem_of_cons in Hnt as [Hgt Hnt].
  assert (StaffQueries.tallyStep r (g, c) !! "total" = Some (t + c)) as Ht'.
  { unfold StaffQueries.tallyStep. simpl.
    rewrite lookup_insert_eq. by rewrite lookup_insert_ne, Ht by done. }
  destruct (IH _ _ Ht' Hnd Hnt) as (Htot & Hkeys & Hframe).
  cbn [fold_left]. split; [| split].
  - rewrite Htot.
    replace (sum_list ((g, c) :: stats).*2) with (c + sum_list stats.*2)
      by done.
    f_equal; lia.
  - intros g' c' [[= -> ->] | Hin]%elem_of_cons; [| by apply Hkeys].
    rewrite Hframe by done. unfold StaffQueries.tallyStep. simpl.
    rewrite lookup_insert_ne by done. apply lookup_insert_eq.
  - intros k Hk Hnotin. apply not_elem_of_cons in Hnotin as [Hkg Hnotin].
    rewrite Hframe by done. unfold StaffQueries.tallyStep. simpl.
    by rewrite !lookup_insert_ne.
Qed.

Lemma groupId_status (d : gmap string Value) (s : string) :
  StaffQueries.groupId d = Some s
  ↔ d !! "employmentStatus" = Some (VJson (JStr s)).
Proof.
  unfold StaffQueries.groupId.
  destruct (d !! "employmentStatus") as [[ms | [ | b | n | s' | o]] |];
    try (split; done).
  split; [by intros [= ->] | by intros [= ->]].
Qed.

(** An entry of the aggregation is a status some document has, with the
    number of documents that have it. *)
Lemma groupCount_entry (docs : list (gmap string Value)) (g : option string)
    (c : nat) :
  (g, c) ∈ StaffQueries.groupCount docs →
  c = length (filter (fun d => StaffQueries.groupId d = g) docs)
  ∧ ∃ d, d ∈ docs ∧ StaffQueries.groupId d = g.
Proof.
  unfold StaffQueries.groupCount. rewrite elem_of_map_to_list.
  rewrite groupCounts_lookup.
  destruct (filter _ docs) as [| d l] eqn:Hf; [done |].
  simpl. intros [= <-]. split; [done |].
  assert (d ∈ filter (fun d => StaffQueries.groupId d = g) docs) as Hd
    by (rewrite Hf; apply list_elem_of_here).
  apply list_elem_of_filter in Hd as [? ?]. eauto.
Qed.

(** Each document with one of the four statuses is counted in exactly one
    of the four groups. *)
Lemma status_partition (docs : list (gmap string Value)) :
  (∀ d, d ∈ docs →
     ∃ s, s ∈ Staff.statusValues ∧ StaffQueries.groupId d = Some s) →
  length docs
  = (length (filter (fun d => StaffQueries.groupId d = Some "active") docs)
     + length (filter (fun d => StaffQueries.groupId d = Some "retired") docs)
     + length (filter (fun d => StaffQueries.groupId d = Some "dismissed") docs)
     + length (filter (fun d => StaffQueries.groupId d = Some "on_leave") docs))%nat.
Proof.
  induction docs as [| d docs IH]; intros Henum; [done |].
  rewrite !filter_cons.
  destruct (Henum d) as (s & Hs & Hd); [apply list_elem_of_here |].
  rewrite Hd. simpl. rewrite IH by (intros; apply Henum; by right).
  StaffLifecycle.status_split Hs;
    repeat case_decide; simplify_eq; simpl; lia.
Qed.

(** The statistics of a list of documents that all carry one of the four
    statuses. *)
Lemma tally_groupCount (docs : list (gmap string Value)) :
  (∀ d, d ∈ docs →
     ∃ s, s ∈ Staff.statusValues ∧ StaffQueries.groupId d = Some s) →
  StaffQueries.tally (StaffQueries.groupCount docs) !! "total"
  = Some (length docs)
  ∧ ∀ s, s ∈ Staff.statusValues →
      StaffQueries.tally (StaffQueries.groupCount docs) !! s
      = Some (length (filter (fun d => StaffQueries.groupId d = Some s) docs)).
Proof.
  intros Henum.
  assert (∀ g c, (g, c) ∈ StaffQueries.groupCount docs →
            ∃ s, s ∈ Staff.statusValues ∧ g = Some s) as Hkeys.
  { intros g c Hin. apply groupCount_entry in Hin as (_ & d & Hd & <-).
    by apply Henum. }
  assert (∀ g, g ∈ (StaffQueries.groupCount docs).*1 →
            ∃ s, s ∈ Staff.statusValues ∧ g = Some s) as Hkeys'.
  { intros g [[g' c] [-> Hin]]%list_elem_of_fmap. by eapply Hkeys. }
  destruct (tally_fold (StaffQueries.groupCount docs)
              StaffQueries.emptyStats 0) as (Htot & Hin & Hout).
  - done.
  - apply NoDup_fmap_2_strong;
      [| apply (NoDup_fst_map_to_list (StaffQueries.groupCounts docs))].
    intros g1 g2 H1 H2 Heq.
    destruct (Hkeys' _ H1) as (s1 & _ & ->).
    destruct (Hkeys' _ H2) as (s2 & _ & ->). simpl in Heq. by subst.
  - intros [g [Hg Hing]]%list_elem_of_fmap.
    destruct (Hkeys' _ Hing) as (s & Hs & ->). simpl in Hg. subst s.
    unfold Staff.statusValues in Hs. set_solver.
  - unfold StaffQueries.tally. split; [by rewrite Htot, sum_groupCount |].
    intros s Hs.
    destruct (StaffQueries.groupCounts docs !! Some s) as [c |] eqn:Hc.
    + assert ((Some s, c) ∈ StaffQueries.groupCount docs) as Hentry
        by (by apply elem_of_map_to_list).
      rewrite (Hin (Some s) c Hentry : _ !! s = _).
      by destruct (groupCount_entry _ _ _ Hentry) as [<- _].
    + rewrite Hout.
      * rewrite groupCounts_lookup in Hc.
        destruct (length (filter _ docs)); [| done].
        StaffLifecycle.status_split Hs; reflexivity.
      * intros ->. unfold Staff.statusValues in Hs. set_solver.
      * intros [g [Hg Hing]]%list_elem_of_fmap.
        destruct (Hkeys' _ Hing) as (s' & _ & ->). simpl in Hg. subst s'.
        apply list_elem_of_fmap in Hing as [[g c] [Hg Hing]].
        simpl in Hg. subst g.
        apply elem_of_map_to_list in Hing. congruence.
Qed.

Lemma length_filter_snd {A B} (P : B → Prop) `{!∀ x, Decision (P x)}
    (Q : A * B → Prop) `{!∀ x, Decision (Q x)} (l : list (A * B)) :
  (∀ x, Q x ↔ P x.2) →
  length (filter P (map snd l)) = length (filter Q l).
Proof.
  intros HPQ. induction l as [| x l IH]; [done |].
  simpl. rewrite !filter_cons.
  destruct (decide (P x.2)) as [HP | HP], (decide (Q x)) as [HQ | HQ];
    simpl; try by rewrite IH.
  - by apply HPQ in HP.
  - by apply HPQ in HQ.
Qed.

(** X3. When every staff record carries one of the four statuses,
    [getStatistics] reports as total the number of records, under each
    status the number of records [getByStatus] returns for it, and the
    four counts add up to the total. *)
Theorem getStatistics_counts (coll : gmap string (gmap string Value)) :
  (∀ id doc, coll !! id = Some doc →
     ∃ s, s ∈ Staff.statusValues
          ∧ doc !! "employmentStatus" = Some (VJson (JStr s))) →
  StaffQueries.getStatistics coll !! "total" = Some (size coll)
  ∧ (∀ s, s ∈ Staff.statusValues →
       StaffQueries.getStatistics coll !! s
       = Some (length (StaffQueries.getByStatus coll s)))
  ∧ size coll
    = (length (StaffQueries.getByStatus coll "active")
       + length (StaffQueries.getByStatus coll "retired")
       + length (StaffQueries.getByStatus coll "dismissed")
       + length (StaffQueries.getByStatus coll "on_leave"))%nat.
Proof.
  intros Henum.
  assert (∀ d, d ∈ map snd (map_to_list coll) →
            ∃ s, s ∈ Staff.statusValues ∧ StaffQueries.groupId d = Some s)
    as Hdocs.
  { intros d [[id d'] [-> Hin]]%list_elem_of_fmap.
    apply elem_of_map_to_list in Hin.
    destruct (Henum _ _ Hin) as (s & Hs & Hd). exists s.
    split; [done | by apply groupId_status]. }
  assert (∀ s, length (StaffQueries.getByStatus coll s)
               = length (filter (fun d => StaffQueries.groupId d = Some s)
                           (map snd (map_to_list coll)))) as Hlen.
  { intros s. unfold StaffQueries.getByStatus, StaffQueries.sortByName,
      StaffQueries.find.
    rewrite (Permutation_length (merge_sort_Permutation _ _)).
    symmetry. apply length_filter_snd. intros [id d]. simpl.
    by rewrite StaffQueryFacts.pathIs_true, groupId_status. }
  destruct (tally_groupCount _ Hdocs) as [Htot Hper].
  unfold StaffQueries.getStatistics.
  assert (length (map snd (map_to_list coll)) = size coll) as Hsize
    by (by rewrite length_map, length_map_to_list).
  split; [by rewrite Htot, Hsize |]. split.
  - intros s Hs. by rewrite Hper, Hlen.
  - rewrite <- Hsize, !Hlen. by apply status_partition.
Qed.

(** Every record of the sample collection, once John Smith has retired,
    carries one of the four statuses. *)
Lemma sample_statuses (id : ObjectId) (doc : gmap string Value) :
  Sample.staff' !! id = Some doc →
  ∃ s, s ∈ Staff.statusValues
       ∧ doc !! "employmentStatus" = Some (VJson (JStr s)).
Proof.
  revert id doc.
  change (map_Forall
            (fun (_ : string) (doc : gmap string Value) =>
               ∃ s, s ∈ Staff.statusValues
                    ∧ doc !! "employmentStatus" = Some (VJson (JStr s)))
            Sample.staff').
  unfold Sample.staff', Sample.staff.
  apply map_Forall_insert_2;
    [exists "retired"; split; [decide_closed | vm_compute; reflexivity] |].
  repeat (apply map_Forall_insert_2;
    [exists "active"; split; [decide_closed | vm_compute; reflexivity] |]).
  apply map_Forall_empty.
Qed.

(** The statistics of that collection. *)
Lemma getStatistics_counts_witness :
  StaffQueries.getStatistics Sample.staff' !! "total"
  = Some (size Sample.staff')
  ∧ size Sample.staff' = 5.
Proof.
  split; [exact (proj1 (getStatistics_counts Sample.staff' sample_statuses)) |].
  vm_compute. reflexivity.
Defined.

End StaffStatisticsFacts.

Module StaffListingFacts.

Lemma ownCourtIds_spec (courts : list Court.t) (user : Auth.ReqUser)
    (cid : ObjectId) :
  cid ∈ StaffListing.ownCourtIds courts user
  ↔ ∃ c, c ∈ courts ∧ Court._id c = cid
         ∧ Court.userId c = Some (Auth.userId user)
         ∧ Court.isActive c = true.
Proof.
  unfold StaffListing.ownCourtIds, StaffListing.ownedActive.
  rewrite list_elem_of_In, in_map_iff. split.
  - intros (c & Hid & Hin). apply list_elem_of_In, list_elem_of_filter in Hin.
    destruct Hin as [Hc Hin]. exists c. apply andb_true_iff in Hc as [Ho Ha].
    destruct (Court.userId c) as [o |]; [| done].
    apply String.eqb_eq in Ho as ->. done.
  - intros (c & Hin & Hid & Ho & Ha). exists c. split; [done |].
    apply list_elem_of_In, list_elem_of_filter. split; [| done].
    by rewrite Ho, Ha, String.eqb_refl.
Qed.

Lemma subordinateIds_spec (courts : list Court.t) (courtIds : list ObjectId)
    (cid : ObjectId) :
  cid ∈ StaffListing.subordinateIds courts courtIds
  ↔ ∃ c p, c ∈ courts ∧ Court._id c = cid
           ∧ Court.circuitCourtId c = Some p ∧ p ∈ courtIds
           ∧ Court.isActive c = true.
Proof.
  unfold StaffListing.subordinateIds, StaffListing.referencesActive.
  rewrite list_elem_of_In, in_map_iff. split.
  - intros (c & Hid & Hin). apply list_elem_of_In, list_elem_of_filter in Hin.
    destruct Hin as [Hc Hin]. apply andb_true_iff in Hc as [Hp Ha].
    destruct (Court.circuitCourtId c) as [p |] eqn:Hcc; [| done].
    apply bool_decide_eq_true in Hp. by exists c, p.
  - intros (c & p & Hin & Hid & Hp & Hpin & Ha). exists c. split; [done |].
    apply list_elem_of_In, list_elem_of_filter. split; [| done].
    rewrite Hp, Ha, andb_true_r. by apply bool_decide_eq_true.
Qed.

Lemma courtIn_true (courtIds : list ObjectId) (doc : gmap string Value) :
  StaffListing.courtIn courtIds doc = true
  ↔ ∃ cid, doc !! "courtId" = Some (VJson (JStr cid)) ∧ cid ∈ courtIds.
Proof.
  unfold StaffListing.courtIn.
  destruct (doc !! "courtId") as [[ms | [ | b | n | c | o]] |];
    try (split; [done | by intros (? & ? & ?)]).
  rewrite bool_decide_eq_true. split; [by eauto |].
  by intros (cid & [= ->] & ?).
Qed.

(** The courts a caller that is not an administrator sees staff of. *)
Lemma visibleCourtIds_spec (courts : list Court.t) (user : Auth.ReqUser)
    (cid : ObjectId) :
  cid ∈ StaffListing.visibleCourtIds courts user
  ↔ (∃ c, c ∈ courts ∧ Court._id c = cid ∧ Court.isActive c = true
          ∧ Court.userId c = Some (Auth.userId user))
    ∨ (Auth.role user = "circuit"
       ∧ ∃ c own, c ∈ courts ∧ Court._id c = cid
           ∧ Court.isActive c = true
           ∧ Court.circuitCourtId c = Some (Court._id own)
           ∧ own ∈ courts ∧ Court.isActive own = true
           ∧ Court.userId own = Some (Auth.userId user)).
Proof.
  unfold StaffListing.visibleCourtIds.
  destruct (String.eqb_spec (Auth.role user) "circuit") as [Hc | Hc].
  + rewrite elem_of_app, ownCourtIds_spec, subordinateIds_spec. split.
    * intros [(c & ? & ? & ? & ?) | (c & p & ? & ? & Hp & Hpin & ?)].
      -- left. by exists c.
      -- right. split; [done |].
         apply ownCourtIds_spec in Hpin as (own & ? & <- & ? & ?).
         by exists c, own.
    * intros [(c & ? & ? & ? & ?) | [_ (c & own & ? & ? & ? & ? & ? & ? & ?)]].
      -- left. by exists c.
      -- right. exists c, (Court._id own). repeat split; try done.
         apply ownCourtIds_spec. by exists own.
  + rewrite ownCourtIds_spec. split.
    * intros (c & ? & ? & ? & ?). left. by exists c.
    * intros [(c & ? & ? & ? & ?) | [? _]]; [by exists c | done].
Qed.

Lemma filter_all {A : Type} (P : A → Prop) `{!∀ x, Decision (P x)}
    (l : list A) :
  (∀ x, P x) → filter P l = l.
Proof.
  intros HP. induction l as [| x l IH]; [done |].
  rewrite filter_cons. destruct (decide (P x)) as [_ | Hx]; [by rewrite IH |].
  by destruct Hx.
Qed.

(** X4. The listing of all staff is refused with 403 to every caller
    that is not an administrator; an administrator gets every record of
    the collection, each once, sorted by name. *)
Theorem getAllStaff_admin_only (coll : gmap string (gmap string Value))
    (user : Auth.ReqUser) :
  (Auth.role user ≠ "admin" →
   StaffListing.getAllStaff coll user
   = (fail 403 "Insufficient permissions", []))
  ∧ (Auth.role user = "admin" →
     (StaffListing.getAllStaff coll user).1 = ok200 ""
     ∧ (∀ id doc, (id, doc) ∈ (StaffListing.getAllStaff coll user).2
                  ↔ coll !! id = Some doc)
     ∧ Sorted StaffQueries.byName (StaffListing.getAllStaff coll user).2
     ∧ NoDup (StaffListing.getAllStaff coll user).2.*1
     ∧ length (StaffListing.getAllStaff coll user).2 = size coll).
Proof.
  unfold StaffListing.getAllStaff, Auth.requireRole, isIn. split.
  - intros Hrole. rewrite bool_decide_eq_false_2; [done |].
    by intros Hin%list_elem_of_singleton.
  - intros ->. rewrite bool_decide_eq_true_2 by apply list_elem_of_here.
    cbn [negb fst snd].
    destruct (StaffQueryFacts.sorted_find (fun _ => true) coll)
      as (Hin & Hsorted & Hnodup).
    split; [done |]. split; [| split; [done | split; [done |]]].
    + intros id doc. rewrite Hin. tauto.
    + unfold StaffQueries.sortByName, StaffQueries.find.
      rewrite (Permutation_length (merge_sort_Permutation _ _)).
      by rewrite filter_all, length_map_to_list by done.
Qed.

(** X5. The listing by status answers 400 to a status outside the four,
    whoever asks, and gives an administrator the whole listing of
    [getByStatus]. Any other caller is shown exactly the staff members
    with that status whose court is one of the caller's visible courts:
    the active courts carrying the caller's [userId], and for the circuit
    role also the active courts whose [circuitCourtId] is one of those. *)
Theorem getStaffByStatus_scope (courts : list Court.t)
    (coll : gmap string (gmap string Value)) (user : Auth.ReqUser)
    (status : string) :
  (status ∉ Staff.statusValues →
   StaffListing.getStaffByStatus courts coll user status
   = (fail 400 "Invalid employment status", []))
  ∧ (status ∈ Staff.statusValues → Auth.role user = "admin" →
     StaffListing.getStaffByStatus courts coll user status
     = (ok200 "", StaffQueries.getByStatus coll status))
  ∧ (status ∈ Staff.statusValues → Auth.role user ≠ "admin" →
     (StaffListing.getStaffByStatus courts coll user status).1 = ok200 ""
     ∧ ∀ id doc,
         (id, doc) ∈ (StaffListing.getStaffByStatus courts coll user status).2
         ↔ coll !! id = Some doc
           ∧ doc !! "employmentStatus" = Some (VJson (JStr status))
           ∧ ∃ cid, doc !! "courtId" = Some (VJson (JStr cid))
                    ∧ cid ∈ StaffListing.visibleCourtIds courts user)
  ∧ (∀ cid, cid ∈ StaffListing.visibleCourtIds courts user
       ↔ (∃ c, c ∈ courts ∧ Court._id c = cid ∧ Court.isActive c = true
               ∧ Court.userId c = Some (Auth.userId user))
         ∨ (Auth.role user = "circuit"
            ∧ ∃ c own, c ∈ courts ∧ Court._id c = cid
                ∧ Court.isActive c = true
                ∧ Court.circuitCourtId c = Some (Court._id own)
                ∧ own ∈ courts ∧ Court.isActive own = true
                ∧ Court.userId own = Some (Auth.userId user))).
Proof.
  split; [| split; [| split]].
  - intros Hs. unfold StaffListing.getStaffByStatus, isIn.
    by rewrite bool_decide_eq_false_2.
  - intros Hs Hadmin. unfold StaffListing.getStaffByStatus, isIn.
    by rewrite bool_decide_eq_true_2, Hadmin.
  - intros Hs Hrole. unfold StaffListing.getStaffByStatus, isIn.
    rewrite bool_decide_eq_true_2 by done. apply String.eqb_neq in Hrole.
    rewrite Hrole. simpl. split; [done |]. intros id doc.
    rewrite (proj1 (StaffQueryFacts.sorted_find _ coll)).
    rewrite andb_true_iff, StaffQueryFacts.pathIs_true, courtIn_true. tauto.
  - apply visibleCourtIds_spec.
Qed.

(** The listing by status, seen by the circuit account of the access
    scenario. *)
Lemma getStaffByStatus_scope_witness :
  "active" ∈ Staff.statusValues
  ∧ Auth.role Sample.scenarioCaller ≠ "admin"
  ∧ (StaffListing.getStaffByStatus Sample.scenarioCourts Sample.staff
       Sample.scenarioCaller "active").1 = ok200 "".
Proof.
  assert ("active" ∈ Staff.statusValues) as Hs by decide_closed.
  assert (Auth.role Sample.scenarioCaller ≠ "admin") as Hr by done.
  split; [done |]. split; [done |].
  exact (proj1 (proj1 (proj2 (proj2
    (getStaffByStatus_scope Sample.scenarioCourts Sample.staff
       Sample.scenarioCaller "active"))) Hs Hr)).
Defined.

(** X6. On a court collection in which no court carries the caller's
    [userId], as every collection built through the Court schema, a
    caller that is not an administrator is shown no staff member under
    any status and statistics that are all zero. *)
Theorem nonadmin_sees_nothing_without_owned_court (courts : list Court.t)
    (coll : gmap string (gmap string Value)) (user : Auth.ReqUser)
    (status : string) :
  Auth.role user ≠ "admin" →
  (∀ c, c ∈ courts → Court.userId c ≠ Some (Auth.userId user)) →
  status ∈ Staff.statusValues →
  StaffListing.visibleCourtIds courts user = []
  ∧ StaffListing.getStaffByStatus courts coll user status = (ok200 "", [])
  ∧ StaffListing.getStatistics courts coll user
    = (ok200 "", StaffQueries.emptyStats).
Proof.
  intros Hrole Hnone Hs.
  assert (StaffListing.visibleCourtIds courts user = []) as Hvis.
  { apply elem_of_nil_inv. intros cid Hin.
    apply visibleCourtIds_spec in Hin.
    destruct Hin as [(c & Hc & _ & _ & Ho)
                    | [_ (c & own & _ & _ & _ & _ & Hown & _ & Ho)]];
      by eapply Hnone. }
  assert (∀ query : gmap string Value → bool,
            (∀ d, query d = true → StaffListing.courtIn [] d = true) →
            StaffQueries.find query coll = [])
    as Hfind.
  { intros query Hq. apply elem_of_nil_inv. intros [id doc] Hin.
    apply list_elem_of_filter in Hin as [Hin _]. simpl in Hin.
    apply Hq, courtIn_true in Hin as (cid & _ & Hcid).
    by apply elem_of_nil in Hcid. }
  split; [done |]. apply String.eqb_neq in Hrole. split.
  - unfold StaffListing.getStaffByStatus, isIn.
    rewrite bool_decide_eq_true_2, Hrole, Hvis by done. simpl.
    rewrite Hfind; [done |]. intros d Hd. by apply andb_true_iff in Hd as [_ Hd].
  - unfold StaffListing.getStatistics. rewrite Hrole, Hvis.
    by rewrite Hfind.
Qed.

(** The seeded courts and the magisterial account. *)
Lemma nonadmin_sees_nothing_without_owned_court_witness :
  StaffListing.getStaffByStatus Sample.courts Sample.staff
    Sample.magisterialUser "active" = (ok200 "", [])
  ∧ StaffListing.getStatistics Sample.courts Sample.staff
      Sample.magisterialUser = (ok200 "", StaffQueries.emptyStats).
Proof.
  apply (nonadmin_sees_nothing_without_owned_court Sample.courts Sample.staff
           Sample.magisterialUser "active").
  - done.
  - intros c Hc. unfold Sample.courts in Hc.
    repeat (apply elem_of_cons in Hc as [-> | Hc]; [done |]).
    by apply elem_of_nil in Hc.
  - decide_closed.
Defined.

(** The counts of a tally over the documents of a listing. *)
Lemma tally_listing (l : list (ObjectId * gmap string Value)) :
  (∀ kv, kv ∈ l →
     ∃ s, s ∈ Staff.statusValues
          ∧ kv.2 !! "employmentStatus" = Some (VJson (JStr s))) →
  StaffQueries.tally (StaffQueries.groupCount (map snd l)) !! "total"
  = Some (length l)
  ∧ ∀ s, s ∈ Staff.statusValues →
      StaffQueries.tally (StaffQueries.groupCount (map snd l)) !! s
      = Some (length
                (filter (fun kv => StaffQueries.pathIs kv.2
                                     "employmentStatus" s = true) l)).
Proof.
  intros Henum.
  destruct (StaffStatisticsFacts.tally_groupCount (map snd l)) as [Htot Hper].
  { intros d [kv [-> Hin]]%list_elem_of_fmap.
    destruct (Henum kv Hin) as (s & Hs & Hd). exists s.
    split; [done | by apply StaffStatisticsFacts.groupId_status]. }
  split; [by rewrite Htot, length_map |].
  intros s Hs. rewrite (Hper s Hs). f_equal.
  apply StaffStatisticsFacts.length_filter_snd. intros kv.
  by rewrite StaffQueryFacts.pathIs_true, StaffStatisticsFacts.groupId_status.
Qed.

(** X7. For every caller the statistics agree with the listings by
    status: on a collection whose records all carry one of the four
    statuses, the count the statistics route reports for a status is the
    length of the listing the status route gives the same caller, and
    the total is the sum of the four. *)
Theorem statistics_agree_with_listings (courts : list Court.t)
    (coll : gmap string (gmap string Value)) (user : Auth.ReqUser) :
  (∀ id doc, coll !! id = Some doc →
     ∃ s, s ∈ Staff.statusValues
          ∧ doc !! "employmentStatus" = Some (VJson (JStr s))) →
  (StaffListing.getStatistics courts coll user).1 = ok200 ""
  ∧ (∀ s, s ∈ Staff.statusValues →
       (StaffListing.getStatistics courts coll user).2 !! s
       = Some (length (StaffListing.getStaffByStatus courts coll user s).2))
  ∧ (StaffListing.getStatistics courts coll user).2 !! "total"
    = Some (length (StaffListing.getStaffByStatus courts coll user
                      "active").2
            + length (StaffListing.getStaffByStatus courts coll user
                        "retired").2
            + length (StaffListing.getStaffByStatus courts coll user
                        "dismissed").2
            + length (StaffListing.getStaffByStatus courts coll user
                        "on_leave").2)%nat.
Proof.
  intros Henum.
  set (visible := fun kv : ObjectId * gmap string Value =>
         if String.eqb (Auth.role user) "admin" then true
         else StaffListing.courtIn
                (StaffListing.visibleCourtIds courts user) kv.2).
  set (l := filter (fun kv => visible kv = true) (map_to_list coll)).
  assert ((StaffListing.getStatistics courts coll user).2
          = StaffQueries.tally (StaffQueries.groupCount (map snd l))) as Hstats.
  { unfold StaffListing.getStatistics, StaffQueries.getStatistics, l, visible.
    destruct (String.eqb (Auth.role user) "admin"); cbn [snd]; [| done].
    by rewrite filter_all by done. }
  assert (∀ s, s ∈ Staff.statusValues →
            length (StaffListing.getStaffByStatus courts coll user s).2
            = length (filter (fun kv => StaffQueries.pathIs kv.2
                                          "employmentStatus" s = true) l))
    as Hlist.
  { intros s Hs. unfold StaffListing.getStaffByStatus, isIn.
    rewrite bool_decide_eq_true_2 by done. cbn [negb].
    unfold l, visible, StaffQueries.getByStatus, StaffQueries.sortByName,
      StaffQueries.find.
    destruct (String.eqb (Auth.role user) "admin"); cbn [snd];
      rewrite (Permutation_length (merge_sort_Permutation _ _));
      rewrite list_filter_filter; f_equal; apply list_filter_iff;
      intros kv; rewrite ?andb_true_iff; tauto. }
  assert (∀ kv, kv ∈ l →
            ∃ s, s ∈ Staff.statusValues
                 ∧ kv.2 !! "employmentStatus" = Some (VJson (JStr s)))
    as Hl.
  { intros [id doc] [_ Hin%elem_of_map_to_list]%list_elem_of_filter.
    by eapply Henum. }
  destruct (tally_listing l Hl) as [Htot Hper].
  split; [unfold StaffListing.getStatistics;
          by destruct (String.eqb (Auth.role user) "admin") |].
  rewrite Hstats. split.
  - intros s Hs. by rewrite Hper, Hlist.
  - rewrite Htot, !Hlist by decide_closed. f_equal.
    rewrite <- (length_map snd l).
    rewrite (StaffStatisticsFacts.status_partition (map snd l)).
    + f_equal; [f_equal; [f_equal |] |];
        apply StaffStatisticsFacts.length_filter_snd; intros kv;
        by rewrite StaffQueryFacts.pathIs_true,
             StaffStatisticsFacts.groupId_status.
    + intros d [kv [-> Hin]]%list_elem_of_fmap.
      destruct (Hl kv Hin) as (s & Hs & Hd). exists s.
      split; [done | by apply StaffStatisticsFacts.groupId_status].
Qed.

(** The circuit account of the sample and the collection once John Smith
    has retired. *)
Lemma statistics_agree_with_listings_witness :
  (StaffListing.getStatistics Sample.ownedCourts Sample.staff'
     Sample.circuitUser).1 = ok200 ""
  ∧ (StaffListing.getStatistics Sample.ownedCourts Sample.staff'
       Sample.circuitUser).2 !! "retired"
    = Some (length (StaffListing.getStaffByStatus Sample.ownedCourts
                      Sample.staff' Sample.circuitUser "retired").2).
Proof.
  pose proof (statistics_agree_with_listings Sample.ownedCourts Sample.staff'
                Sample.circuitUser StaffStatisticsFacts.sample_statuses)
    as (H1 & H2 & _).
  split; [exact H1 |]. apply H2. decide_closed.
Defined.

End StaffListingFacts.

Module StaffRecordFacts.

Lemma deleteStaff_by_role (coll : gmap string (gmap string Value))
    (user : Auth.ReqUser) (staffId : ObjectId) :
  (Auth.role user ≠ "admin" →
   StaffListing.deleteStaff coll user staffId
   = (fail 403 "Insufficient permissions", coll))
  ∧ (Auth.role user = "admin" →
     StaffListing.deleteStaff coll user staffId
     = match coll !! staffId with
       | None => (fail 404 "Staff member not found", coll)
       | Some _ => (ok200 "Staff member deleted successfully",
                    delete staffId coll)
       end).
Proof.
  unfold StaffListing.deleteStaff, Auth.requireRole, isIn. split.
  - intros Hrole. rewrite bool_decide_eq_false_2; [done |].
    by intros Hin%list_elem_of_singleton.
  - by intros ->.
Qed.

(** X8. Deleting a staff member is refused with 403 to every caller that
    is not an administrator and answers 404 for an identifier no record
    has, both without touching the collection. Otherwise exactly the
    addressed record is removed: a second deletion answers 404, and
    deleting the identifier of a creation request, accepted or not,
    gives back the collection as it was before the request. *)
Theorem deleteStaff_removes_one (isEmail : string → bool)
    (courts : list Court.t) (coll : gmap string (gmap string Value))
    (user : Auth.ReqUser) (staffId : ObjectId) :
  (Auth.role user ≠ "admin" →
   StaffListing.deleteStaff coll user staffId
   = (fail 403 "Insufficient permissions", coll))
  ∧ (Auth.role user = "admin" → coll !! staffId = None →
     StaffListing.deleteStaff coll user staffId
     = (fail 404 "Staff member not found", coll))
  ∧ (Auth.role user = "admin" → is_Some (coll !! staffId) →
     (StaffListing.deleteStaff coll user staffId).1
     = ok200 "Staff member deleted successfully"
     ∧ (StaffListing.deleteStaff coll user staffId).2 !! staffId = None
     ∧ (∀ id, id ≠ staffId →
          (StaffListing.deleteStaff coll user staffId).2 !! id = coll !! id)
     ∧ (StaffListing.deleteStaff
          (StaffListing.deleteStaff coll user staffId).2 user staffId).1
       = fail 404 "Staff member not found")
  ∧ (Auth.role user = "admin" → coll !! staffId = None →
     ∀ now creator body,
       (StaffListing.deleteStaff
          (StaffRoutes.postStaff isEmail courts coll now creator staffId
             body).2 user staffId).2 = coll).
Proof.
  assert (Auth.role user = "admin" → ∀ c : gmap string (gmap string Value),
            StaffListing.deleteStaff c user staffId
            = match c !! staffId with
              | None => (fail 404 "Staff member not found", c)
              | Some _ => (ok200 "Staff member deleted successfully",
                           delete staffId c)
              end) as Hadmin.
  { intros Hrole c. unfold StaffListing.deleteStaff, Auth.requireRole.
    by rewrite Hrole. }
  split; [| split; [| split]].
  - intros Hrole. unfold StaffListing.deleteStaff, Auth.requireRole, isIn.
    rewrite bool_decide_eq_false_2; [done |].
    intros Hin. apply list_elem_of_singleton in Hin. done.
  - intros Hrole Hnone. by rewrite Hadmin, Hnone.
  - intros Hrole [doc Hdoc]. rewrite !Hadmin, Hdoc by done. simpl.
    rewrite lookup_delete_eq.
    repeat split; try done. intros id Hid. by apply lookup_delete_ne.
  - intros Hrole Hnone now creator body. rewrite Hadmin by done.
    destruct (StaffLifecycle.postStaff_writes isEmail courts coll now creator
                staffId body) as [-> | (this & saved & _ & ->)].
    + by rewrite Hnone.
    + rewrite lookup_insert_eq. simpl. by rewrite delete_insert_id.
Qed.

(** An administrator deletes the first sample record. *)
Lemma deleteStaff_removes_one_witness :
  (StaffListing.deleteStaff Sample.staff Sample.admin "staff1").1
  = ok200 "Staff member deleted successfully"
  ∧ (StaffListing.deleteStaff Sample.staff Sample.admin "staff1").2
    !! "staff1" = None.
Proof.
  assert (is_Some (Sample.staff !! "staff1")) as Hsome
    by (exists Sample.johnSmith; unfold Sample.staff; apply lookup_insert_eq).
  pose proof (proj1 (proj2 (proj2
    (deleteStaff_removes_one (fun _ => true) Sample.courts Sample.staff
       Sample.admin "staff1"))) eq_refl Hsome) as (H1 & H2 & _).
  by split.
Defined.



(** X10. An update whose body names a status other than the record's
    current one goes through the status transition only: whatever else
    the body carries, every path of the stored record other than the
    status and the four status dates is left as it was. The request
    either leaves the collection unchanged or stores the record with the
    new status and its dates reset. *)
Theorem putStaff_status_change_drops_other_fields (isEmail : string → bool)
    (courts : list Court.t) (coll : gmap string (gmap string Value))
    (now : Z) (user : Auth.ReqUser) (staffId : ObjectId)
    (updateData : list (string * Json)) (staff : gmap string Value)
    (old new : string) :
  coll !! staffId = Some staff →
  staff !! "employmentStatus" = Some (VJson (JStr old)) →
  prop "employmentStatus" updateData = Some (JStr new) →
  new ≠ old →
  ((StaffRoutes.putStaff isEmail courts coll now user staffId updateData).2
   = coll
   ∨ StaffRoutes.putStaff isEmail courts coll now user staffId updateData
     = (ok200 "Staff member updated successfully",
        <[staffId := Staff.setStatus now (JStr new)
                       (VJson <$> prop "statusDate" updateData) staff]> coll))
  ∧ ∀ saved k,
      (StaffRoutes.putStaff isEmail courts coll now user staffId
         updateData).2 !! staffId = Some saved →
      k ∉ "employmentStatus" :: Staff.dateFields →
      saved !! k = staff !! k.
Proof.
  intros Hstaff Hold Hnew Hne.
  assert ((StaffRoutes.putStaff isEmail courts coll now user staffId
             updateData).2 = coll
          ∨ StaffRoutes.putStaff isEmail courts coll now user staffId
              updateData
            = (ok200 "Staff member updated successfully",
               <[staffId := Staff.setStatus now (JStr new)
                   (VJson <$> prop "statusDate" updateData) staff]> coll))
    as Hcases.
  { unfold StaffRoutes.putStaff.
    destruct (StaffRoutes.validUpdate isEmail updateData) eqn:Hv;
      simpl; [| by left].
    rewrite Hstaff.
    destruct (StaffRoutes.checkPermissionPopulated _ _ _) as [[r |] | e];
      simpl; [by left | | by left].
    assert (isIn Staff.statusValues new = true) as Hin.
    { unfold StaffRoutes.validUpdate in Hv. rewrite Hnew in Hv.
      by apply andb_true_iff in Hv as [_ Hv]. }
    unfold StaffRoutes.statusChange.
    rewrite !StaffLifecycle.prop_sanitizeTrim_ne, Hnew, Hold by done.
    simpl.
    assert (String.eqb new "" = false) as ->.
    { apply String.eqb_neq. intros ->. revert Hin. by vm_compute. }
    apply String.eqb_neq in Hne. rewrite Hne. simpl.
    rewrite StaffLifecycle.updateEmploymentStatus_eq, Hin, andb_true_r.
    destruct (Staff.coreValid staff); simpl; [by right | by left]. }
  split; [exact Hcases |]. intros saved k Hsaved Hk.
  destruct Hcases as [Heq | Heq]; rewrite Heq in Hsaved.
  - rewrite Hstaff in Hsaved. by injection Hsaved as <-.
  - simpl in Hsaved. rewrite lookup_insert_eq in Hsaved.
    injection Hsaved as <-. by apply StaffLifecycle.setStatus_frame.
Qed.

(** The first sample record is retired by a body that also carries a new
    phone number. *)
Lemma putStaff_status_change_drops_other_fields_witness :
  (StaffRoutes.putStaff (fun _ => true) Sample.courts Sample.staff 0
     Sample.admin "staff1"
     [("employmentStatus", JStr "retired"); ("phone", JStr "555-0199")]).2
  = Sample.staff
  ∨ StaffRoutes.putStaff (fun _ => true) Sample.courts Sample.staff 0
      Sample.admin "staff1"
      [("employmentStatus", JStr "retired"); ("phone", JStr "555-0199")]
    = (ok200 "Staff member updated successfully",
       <["staff1" := Staff.setStatus 0 (JStr "retired") None
                       Sample.johnSmith]> Sample.staff).
Proof.
  refine (proj1 (putStaff_status_change_drops_other_fields (fun _ => true)
            Sample.courts Sample.staff 0 Sample.admin "staff1"
            [("employmentStatus", JStr "retired"); ("phone", JStr "555-0199")]
            Sample.johnSmith "active" "retired" _ _ _ _)).
  - unfold Sample.staff. apply lookup_insert_eq.
  - vm_compute. reflexivity.
  - reflexivity.
  - done.
Defined.










Lemma findOne_without_owner (courts : list Court.t) (u : ObjectId)
    (ty : string) :
  (∀ c, c ∈ courts → Court.userId c = None) →
  Court.findOneByUserAndType courts u ty = None.
Proof.
  intros Hnone. unfold Court.findOneByUserAndType.
  destruct (find _ courts) as [c |] eqn:Hfind; [| done].
  apply find_some in Hfind as [Hin Hc]. apply list_elem_of_In in Hin.
  by rewrite (Hnone c Hin) in Hc.
Qed.

Lemma circuitBranch_without_owner (courts : list Court.t)
    (user : Auth.ReqUser) (court : Court.t) :
  (∀ c, c ∈ courts → Court.userId c = None) →
  StaffRoutes.circuitBranch courts user court = Some StaffRoutes.denied.
Proof.
  intros Hnone. unfold StaffRoutes.circuitBranch.
  rewrite findOne_without_owner by done.
  by destruct (String.eqb (Auth.role user) "circuit").
Qed.

(** X12. On a court collection in which no court carries a [userId], as
    every collection built through the Court schema, the staff records
    are out of reach of every caller that is not an administrator:
    creating, updating and deleting a record are never answered with
    success and write nothing, and neither reading a record nor listing
    a court's staff is answered with success. *)
Theorem staff_routes_admin_only_without_owners (isEmail : string → bool)
    (courts : list Court.t) (coll : gmap string (gmap string Value))
    (now : Z) (user : Auth.ReqUser) (id : ObjectId)
    (body : list (string * Json)) :
  (∀ c, c ∈ courts → Court.userId c = None) →
  Auth.role user ≠ "admin" →
  (outcome (StaffRoutes.postStaff isEmail courts coll now user id body).1
   ≠ Success
   ∧ (StaffRoutes.postStaff isEmail courts coll now user id body).2 = coll)
  ∧ (outcome (StaffRoutes.putStaff isEmail courts coll now user id body).1
     ≠ Success
     ∧ (StaffRoutes.putStaff isEmail courts coll now user id body).2 = coll)
  ∧ StaffListing.deleteStaff coll user id
    = (fail 403 "Insufficient permissions", coll)
  ∧ outcome (StaffRoutes.getStaffById courts coll user id) ≠ Success
  ∧ outcome (StaffRoutes.getStaffByCourt courts user id) ≠ Success.
Proof.
  intros Hnone Hrole.
  pose proof (proj1 (deleteStaff_by_role coll user id) Hrole) as Hdel.
  apply String.eqb_neq in Hrole.
  split; [| split; [| split; [exact Hdel | split]]].
  - unfold StaffRoutes.postStaff.
    destruct (negb (StaffRoutes.validCreate isEmail body)); [done |].
    cbv zeta. destruct (prop "courtId" _) as [[ | | | courtId | ] |]; try done.
    destruct (Court.findById courts courtId) as [court |] eqn:Hfind;
      [| done].
    destruct (negb (String.eqb (Court.type court) _)); [done |].
    apply AccessControl.findById_Some in Hfind as [Hin _].
    unfold StaffRoutes.checkPermission. by rewrite Hrole, (Hnone court Hin).
  - unfold StaffRoutes.putStaff.
    destruct (negb (StaffRoutes.validUpdate isEmail body)); [done |].
    cbv zeta. destruct (coll !! id) as [staff |]; [| done].
    unfold StaffRoutes.checkPermissionPopulated. rewrite Hrole. cbn [negb].
    destruct (StaffRoutes.populateCourt courts staff) as [court |] eqn:Hpop;
      [| done].
    destruct (StaffRoutes.optNe _ _) eqn:Hne.
    + by rewrite circuitBranch_without_owner.
    + unfold StaffRoutes.populateCourt in Hpop.
      destruct (staff !! "courtId") as [[ms | [ | b | n | cid | o]] |];
        try done.
      apply AccessControl.findById_Some in Hpop as [Hin _].
      by rewrite (Hnone court Hin) in Hne.
  - unfold StaffRoutes.getStaffById.
    destruct (coll !! id) as [staff |]; [| done].
    unfold StaffRoutes.checkPermissionPopulated. rewrite Hrole. cbn [negb].
    destruct (StaffRoutes.populateCourt courts staff) as [court |]; [| done].
    cbn [fmap option_fmap option_map StaffRoutes.selectNameTypeCircuit
         Court.userId StaffRoutes.optNe].
    by rewrite circuitBranch_without_owner.
  - unfold StaffRoutes.getStaffByCourt.
    destruct (Court.findById courts id) as [court |] eqn:Hfind; [| done].
    apply AccessControl.findById_Some in Hfind as [Hin _].
    unfold StaffRoutes.checkPermission. by rewrite Hrole, (Hnone court Hin).
Qed.

(** The magisterial account and the seeded courts, none of which carries
    a [userId]. *)
Lemma staff_routes_admin_only_without_owners_witness :
  (StaffRoutes.postStaff (fun _ => true) Sample.courts Sample.staff 0
     Sample.magisterialUser "staff6"
     [ ("name", JStr "Ann Lee"); ("position", JStr "Clerk");
       ("courtId", JStr "court4"); ("courtType", JStr "magisterial") ]).2
  = Sample.staff
  ∧ StaffListing.deleteStaff Sample.staff Sample.magisterialUser "staff6"
    = (fail 403 "Insufficient permissions", Sample.staff).
Proof.
  assert (∀ c, c ∈ Sample.courts → Court.userId c = None) as Hnone.
  { intros c Hc. unfold Sample.courts in Hc.
    repeat (apply elem_of_cons in Hc as [-> | Hc]; [done |]).
    by apply elem_of_nil in Hc. }
  assert (Auth.role Sample.magisterialUser ≠ "admin") as Hrole by done.
  pose proof (staff_routes_admin_only_without_owners (fun _ => true)
                Sample.courts Sample.staff 0 Sample.magisterialUser "staff6"
                [ ("name", JStr "Ann Lee"); ("position", JStr "Clerk");
                  ("courtId", JStr "court4");
                  ("courtType", JStr "magisterial") ] Hnone Hrole)
    as ([_ H1] & _ & H3 & _).
  split; [exact H1 | exact H3].
Defined.

End StaffRecordFacts.

(** ** Courts: listings, deactivation and the hierarchy *)

Module CourtFacts.

Lemma courtsByName_total : Total CourtQueries.byName.
Proof. intros a b. apply String.leb_total. Qed.

Lemma sorted_filter (P : Court.t → Prop) `{∀ c, Decision (P c)}
    (db : list Court.t) :
  (∀ c, c ∈ CourtQueries.sortByName (filter P db) ↔ P c ∧ c ∈ db)
  ∧ Sorted CourtQueries.byName (CourtQueries.sortByName (filter P db)).
Proof.
  unfold CourtQueries.sortByName. split.
  - intros c. by rewrite merge_sort_Permutation, list_elem_of_filter.
  - apply Sorted_merge_sort, courtsByName_total.
Qed.

Lemma getCircuitCourts_spec (db : list Court.t) (c : Court.t) :
  c ∈ CourtQueries.getCircuitCourts db
  ↔ c ∈ db ∧ Court.type c = "circuit" ∧ Court.isActive c = true.
Proof.
  unfold CourtQueries.getCircuitCourts.
  rewrite (proj1 (sorted_filter _ db)), andb_true_iff, String.eqb_eq. tauto.
Qed.

Lemma getAllMagisterialCourts_spec (db : list Court.t) (c : Court.t) :
  c ∈ CourtQueries.getAllMagisterialCourts db
  ↔ c ∈ db ∧ Court.type c = "magisterial" ∧ Court.isActive c = true.
Proof.
  unfold CourtQueries.getAllMagisterialCourts.
  rewrite (proj1 (sorted_filter _ db)), andb_true_iff, String.eqb_eq. tauto.
Qed.

Lemma getMagisterialCourts_spec (db : list Court.t) (circuitId : ObjectId)
    (c : Court.t) :
  c ∈ CourtQueries.getMagisterialCourts db circuitId
  ↔ c ∈ CourtQueries.getAllMagisterialCourts db
    ∧ Court.circuitCourtId c = Some circuitId.
Proof.
  rewrite getAllMagisterialCourts_spec.
  unfold CourtQueries.getMagisterialCourts.
  rewrite (proj1 (sorted_filter _ db)), !andb_true_iff, String.eqb_eq.
  destruct (Court.circuitCourtId c) as [p |].
  - rewrite String.eqb_eq. split.
    + intros [[[? ->] ?] ?]. done.
    + intros [(? & ? & ?) [= ->]]. done.
  - split; [by intros [[[? ?] ?] ?] | by intros [_ ?]].
Qed.

(** X13. The three court listings are sorted by name and hold exactly
    the active courts of their kind: the circuit courts, the magisterial
    courts, and the magisterial courts that reference a given court. No
    court is in both the circuit and a magisterial listing, and every
    court of a by-circuit listing is in the listing of all magisterial
    courts. *)
Theorem court_listings_exact (db : list Court.t) (circuitId : ObjectId) :
  (∀ c, c ∈ CourtQueries.getCircuitCourts db
        ↔ c ∈ db ∧ Court.type c = "circuit" ∧ Court.isActive c = true)
  ∧ (∀ c, c ∈ CourtQueries.getAllMagisterialCourts db
          ↔ c ∈ db ∧ Court.type c = "magisterial"
            ∧ Court.isActive c = true)
  ∧ (∀ c, c ∈ CourtQueries.getMagisterialCourts db circuitId
          ↔ c ∈ CourtQueries.getAllMagisterialCourts db
            ∧ Court.circuitCourtId c = Some circuitId)
  ∧ (∀ c, c ∈ CourtQueries.getCircuitCourts db →
          c ∉ CourtQueries.getAllMagisterialCourts db)
  ∧ Sorted CourtQueries.byName (CourtQueries.getCircuitCourts db)
  ∧ Sorted CourtQueries.byName (CourtQueries.getAllMagisterialCourts db)
  ∧ Sorted CourtQueries.byName
      (CourtQueries.getMagisterialCourts db circuitId).
Proof.
  split; [apply getCircuitCourts_spec |].
  split; [apply getAllMagisterialCourts_spec |].
  split; [apply getMagisterialCourts_spec |]. split.
  - intros c [_ [Hty _]]%getCircuitCourts_spec
             [_ [Hty' _]]%getAllMagisterialCourts_spec.
    congruence.
  - repeat split; apply sorted_filter.
Qed.

(** *** Writing a court back *)

Lemma findById_upsert (db : list Court.t) (this : Court.t) (p : ObjectId) :
  Court.findById (Court.upsert db this) p
  = if String.eqb (Court._id this) p then Some this
    else Court.findById db p.
Proof.
  unfold Court.findById. induction db as [| c db IH]; [done |].
  cbn [Court.upsert].
  destruct (String.eqb_spec (Court._id c) (Court._id this)) as [Heq | Hne].
  - cbn [find]. rewrite Heq.
    by destruct (String.eqb (Court._id this) p).
  - cbn [find]. rewrite IH.
    destruct (String.eqb_spec (Court._id c) p) as [Hc | Hc]; [| done].
    destruct (String.eqb_spec (Court._id this) p); [congruence | done].
Qed.

Lemma elem_of_upsert (db : list Court.t) (this c : Court.t) :
  c ∈ Court.upsert db this → c = this ∨ c ∈ db.
Proof.
  induction db as [| c0 db IH]; cbn [Court.upsert].
  - intros ->%list_elem_of_singleton. by left.
  - destruct (String.eqb (Court._id c0) (Court._id this)).
    + intros [-> | Hin]%elem_of_cons; [by left |].
      right. by apply elem_of_cons; right.
    + intros [-> | Hin]%elem_of_cons; [right; apply list_elem_of_here |].
      destruct (IH Hin) as [-> | ?]; [by left |].
      right. by apply elem_of_cons; right.
Qed.

(** With unique ids, the collection after a write holds the written
    document and the documents of the other ids. *)
Lemma elem_of_upsert_NoDup (db : list Court.t) (this c : Court.t) :
  NoDup (Court._id <$> db) →
  c ∈ Court.upsert db this
  ↔ c = this ∨ (c ∈ db ∧ Court._id c ≠ Court._id this).
Proof.
  induction db as [| c0 db IH]; cbn [Court.upsert].
  - intros _. rewrite list_elem_of_singleton. split; [by left |].
    intros [-> | [Hin _]]; [done | by apply elem_of_nil in Hin].
  - rewrite fmap_cons, NoDup_cons. intros [Hfresh Hnodup].
    destruct (String.eqb_spec (Court._id c0) (Court._id this)) as [Heq | Hne].
    + rewrite !elem_of_cons. split.
      * intros [-> | Hin]; [by left |]. right. split; [by right |].
        intros Hid. apply Hfresh. rewrite Heq, <- Hid.
        by apply list_elem_of_fmap_2.
      * intros [-> | [[-> | Hin] Hid]]; [by left | done | by right].
    + rewrite !elem_of_cons, (IH Hnodup). split.
      * intros [-> | [-> | [Hin Hid]]]; [right | by left | right].
        -- split; [by left | done].
        -- split; [by right | done].
      * intros [-> | [[-> | Hin] Hid]]; [right; by left | by left |].
        right. right. done.
Qed.

Lemma save_inv (db db' : list Court.t) (this : Court.t) :
  Court.save db this = Ok db' →
  db' = Court.upsert db this
  ∧ Court.validate this = true ∧ Court.preSave db this = Ok ().
Proof.
  unfold Court.save. destruct (Court.validate this); [| done].
  destruct (Court.preSave db this) as [[] | e]; simpl; [| done].
  by intros [= <-].
Qed.

Lemma save_parentOk (db : list Court.t) (this : Court.t) :
  Court.validate this = true → Court.preSave db this = Ok () →
  CourtAdmin.parentOk db this = true.
Proof.
  unfold Court.validate, Court.preSave, CourtAdmin.parentOk.
  rewrite !andb_true_iff. intros [[_ Hreq] _].
  destruct (String.eqb (Court.type this) "magisterial"); [| done].
  destruct (Court.circuitCourtId this) as [p |];
    [| by simpl in Hreq].
  destruct (Court.findById db p) as [parent |]; [| done].
  by destruct (String.eqb (Court.type parent) "circuit").
Qed.

Lemma hierarchy_spec (db : list Court.t) :
  CourtAdmin.hierarchy db = true
  ↔ ∀ c, c ∈ db → CourtAdmin.parentOk db c = true.
Proof.
  unfold CourtAdmin.hierarchy. rewrite forallb_forall.
  split; intros H c Hc; apply H; by apply list_elem_of_In.
Qed.

Lemma parentOk_upsert (db : list Court.t) (this c : Court.t) :
  (∀ old, Court.findById db (Court._id this) = Some old →
          Court.type this = Court.type old) →
  CourtAdmin.parentOk db c = true →
  CourtAdmin.parentOk (Court.upsert db this) c = true.
Proof.
  intros Hsame. unfold CourtAdmin.parentOk.
  destruct (String.eqb (Court.type c) "magisterial"); [| done].
  destruct (Court.circuitCourtId c) as [p |]; [| done].
  rewrite findById_upsert.
  destruct (String.eqb_spec (Court._id this) p) as [<- | Hne]; [| done].
  destruct (Court.findById db (Court._id this)) as [old |]; [| done].
  by rewrite (Hsame old eq_refl).
Qed.

(** A write keeps the hierarchy when it keeps the type of the document it
    replaces and the written document has its parent in the collection. *)
Lemma hierarchy_upsert (db : list Court.t) (this : Court.t) :
  CourtAdmin.hierarchy db = true →
  (∀ old, Court.findById db (Court._id this) = Some old →
          Court.type this = Court.type old) →
  CourtAdmin.parentOk db this = true →
  CourtAdmin.hierarchy (Court.upsert db this) = true.
Proof.
  rewrite !hierarchy_spec. intros Hdb Hsame Hthis c Hc.
  apply parentOk_upsert; [done |].
  destruct (elem_of_upsert _ _ _ Hc) as [-> | Hin]; [done | by apply Hdb].
Qed.

Lemma hierarchy_save (db db' : list Court.t) (this : Court.t) :
  CourtAdmin.hierarchy db = true →
  (∀ old, Court.findById db (Court._id this) = Some old →
          Court.type this = Court.type old) →
  Court.save db this = Ok db' →
  CourtAdmin.hierarchy db' = true.
Proof.
  intros Hdb Hsame (-> & Hvalid & Hpre)%save_inv.
  apply hierarchy_upsert; [done | done |]. by apply save_parentOk.
Qed.

(** X14. The court routes keep the two-level hierarchy: if every
    magisterial court references a circuit court of the collection, so it
    is after a circuit or magisterial court is created under an unused
    identifier, after an update and after a deactivation, whoever asks
    and whatever the body. *)
Theorem court_routes_keep_hierarchy (courts : list Court.t)
    (user : Auth.ReqUser) (id : ObjectId) (body : CourtRoutes.Body) :
  CourtAdmin.hierarchy courts = true →
  (Court.findById courts id = None →
   CourtAdmin.hierarchy (CourtRoutes.postCircuit courts user id body).2 = true
   ∧ CourtAdmin.hierarchy (CourtRoutes.postMagisterial courts user id body).2
     = true)
  ∧ CourtAdmin.hierarchy (CourtRoutes.putCourt courts user id body).2 = true
  ∧ CourtAdmin.hierarchy (CourtAdmin.deleteCourt courts user id).2 = true.
Proof.
  intros Hdb.
  assert (∀ (resp : Response) (this : Court.t),
            (∀ old, Court.findById courts (Court._id this) = Some old →
                    Court.type this = Court.type old) →
            CourtAdmin.hierarchy
              (catch500 courts
                 (courts' ← Court.save courts this; Ok (resp, courts'))).2
            = true) as Hwrite.
  { intros resp this Hsame.
    destruct (Court.save courts this) as [db' |] eqn:Hsave; simpl; [| done].
    by eapply hierarchy_save. }
  split; [| split].
  - intros Hfresh. split.
    + unfold CourtRoutes.postCircuit.
      destruct (Auth.requireRole _ _); [exact Hdb |].
      unfold CourtRoutes.createCircuit. destruct (negb _); [exact Hdb |].
      apply Hwrite. simpl. intros old Hold. congruence.
    + unfold CourtRoutes.postMagisterial.
      destruct (Auth.requireRole _ _); [exact Hdb |].
      unfold CourtRoutes.createMagisterial. destruct (negb _); [exact Hdb |].
      cbv zeta.
      destruct (Court.findById courts (default "" _)) as [parent |];
        [| exact Hdb].
      destruct (negb _); [exact Hdb |].
      apply Hwrite. simpl. intros old Hold. congruence.
  - unfold CourtRoutes.putCourt. destruct (negb _); [exact Hdb |]. cbv zeta.
    destruct (Court.findById courts id) as [court |] eqn:Hfind; [| exact Hdb].
    destruct (negb _); [exact Hdb |].
    apply AccessControl.findById_Some in Hfind as Hid. destruct Hid as [_ <-].
    apply Hwrite. simpl. intros old Hold. congruence.
  - unfold CourtAdmin.deleteCourt. destruct (Auth.requireRole _ _); [exact Hdb |].
    destruct (Court.findById courts id) as [court |] eqn:Hfind; [| exact Hdb].
    apply AccessControl.findById_Some in Hfind as Hid. destruct Hid as [_ <-].
    apply Hwrite. simpl. intros old Hold. congruence.
Qed.

(** The sample courts form a hierarchy, and "court5" is unused. *)
Lemma court_routes_keep_hierarchy_witness :
  CourtAdmin.hierarchy
    (CourtRoutes.postCircuit Sample.courts Sample.admin "court5"
       Sample.bodyA).2 = true
  ∧ CourtAdmin.hierarchy
      (CourtRoutes.postMagisterial Sample.courts Sample.admin "court5"
         Sample.bodyA).2 = true.
Proof.
  assert (CourtAdmin.hierarchy Sample.courts = true) as Hdb
    by (vm_compute; reflexivity).
  assert (Court.findById Sample.courts "court5" = None) as Hfresh
    by (vm_compute; reflexivity).
  exact (proj1 (court_routes_keep_hierarchy Sample.courts Sample.admin
                  "court5" Sample.bodyA Hdb) Hfresh).
Defined.

Lemma deactivate_save (db : list Court.t) (court : Court.t) :
  Court.validate court = true → Court.preSave db court = Ok () →
  Court.save db (CourtAdmin.deactivate court)
  = Ok (Court.upsert db (CourtAdmin.deactivate court)).
Proof.
  intros Hvalid Hpre. unfold Court.save.
  change (Court.validate (CourtAdmin.deactivate court))
    with (Court.validate court).
  change (Court.preSave db (CourtAdmin.deactivate court))
    with (Court.preSave db court).
  by rewrite Hvalid, Hpre.
Qed.

(** X15. Deactivating a court needs the administrator role (403
    otherwise, nothing written). On a collection with unique ids and a
    stored court that passes its validation, the court stays in the
    collection with [isActive] false and its other paths as they were,
    leaves every listing, and no other court changes: the magisterial
    courts of a deactivated circuit court stay in its by-circuit
    listing. *)
Theorem deleteCourt_soft (courts : list Court.t) (user : Auth.ReqUser)
    (id : ObjectId) (court : Court.t) :
  NoDup (Court._id <$> courts) →
  Court.findById courts id = Some court →
  Court.validate court = true →
  Court.preSave courts court = Ok () →
  (Auth.role user ≠ "admin" →
   CourtAdmin.deleteCourt courts user id
   = (fail 403 "Insufficient permissions", courts))
  ∧ (Auth.role user = "admin" →
     CourtAdmin.deleteCourt courts user id
     = (ok200 "Court deactivated successfully",
        Court.upsert courts (CourtAdmin.deactivate court))
     ∧ Court.findById (CourtAdmin.deleteCourt courts user id).2 id
       = Some (CourtAdmin.deactivate court)
     ∧ (∀ j, j ≠ id →
          Court.findById (CourtAdmin.deleteCourt courts user id).2 j
          = Court.findById courts j)
     ∧ (∀ c, c ∈ CourtQueries.getCircuitCourts
                   (CourtAdmin.deleteCourt courts user id).2
             ↔ c ∈ CourtQueries.getCircuitCourts courts ∧ Court._id c ≠ id)
     ∧ (∀ p c, c ∈ CourtQueries.getMagisterialCourts
                     (CourtAdmin.deleteCourt courts user id).2 p
               ↔ c ∈ CourtQueries.getMagisterialCourts courts p
                 ∧ Court._id c ≠ id)
     ∧ (∀ c, c ∈ CourtQueries.getAllMagisterialCourts
                   (CourtAdmin.deleteCourt courts user id).2
             ↔ c ∈ CourtQueries.getAllMagisterialCourts courts
               ∧ Court._id c ≠ id)).
Proof.
  intros Hnodup Hfind Hvalid Hpre. split.
  - intros Hrole. unfold CourtAdmin.deleteCourt, Auth.requireRole, isIn.
    rewrite bool_decide_eq_false_2; [done |].
    by intros Hin%list_elem_of_singleton.
  - intros Hrole.
    assert (CourtAdmin.deleteCourt courts user id
            = (ok200 "Court deactivated successfully",
               Court.upsert courts (CourtAdmin.deactivate court))) as ->.
    { unfold CourtAdmin.deleteCourt, Auth.requireRole. rewrite Hrole. simpl.
      by rewrite Hfind, deactivate_save. }
    apply AccessControl.findById_Some in Hfind as Hid.
    destruct Hid as [Hin Hid]. cbn [snd].
    assert (∀ c, c ∈ Court.upsert courts (CourtAdmin.deactivate court)
                 ∧ Court.isActive c = true
                 ↔ (c ∈ courts ∧ Court.isActive c = true)
                   ∧ Court._id c ≠ id) as Hactive.
    { intros c. rewrite elem_of_upsert_NoDup by done. simpl. rewrite Hid.
      split.
      - intros [[-> | [? ?]] Hact]; [done | done].
      - intros [[? ?] ?]. split; [right |]; done. }
    split; [done |]. split; [| split; [| split; [| split]]].
    + rewrite findById_upsert. simpl. by rewrite Hid, String.eqb_refl.
    + intros j Hj. rewrite findById_upsert. simpl. rewrite Hid.
      apply String.eqb_neq in Hj. by rewrite String.eqb_sym, Hj.
    + intros c. rewrite !getCircuitCourts_spec.
      specialize (Hactive c). tauto.
    + intros p c.
      rewrite !getMagisterialCourts_spec, !getAllMagisterialCourts_spec.
      specialize (Hactive c). tauto.
    + intros c. rewrite !getAllMagisterialCourts_spec.
      specialize (Hactive c). tauto.
Qed.

(** The first circuit court of the sample is deactivated. *)
Lemma deleteCourt_soft_witness :
  CourtAdmin.deleteCourt Sample.courts Sample.admin "court1"
  = (ok200 "Court deactivated successfully",
     Court.upsert Sample.courts
       (CourtAdmin.deactivate
          (Court.mk "court1" "First Circuit Court" "circuit"
             (Some "Downtown District") None None None true None None)))
  ∧ Court.findById
      (CourtAdmin.deleteCourt Sample.courts Sample.admin "court1").2 "court1"
    = Some (CourtAdmin.deactivate
              (Court.mk "court1" "First Circuit Court" "circuit"
                 (Some "Downtown District") None None None true None None)).
Proof.
  assert (NoDup (Court._id <$> Sample.courts)) as Hnodup by decide_closed.
  pose proof (proj2 (deleteCourt_soft Sample.courts Sample.admin "court1"
                       _ Hnodup eq_refl eq_refl eq_refl) eq_refl)
    as (H1 & H2 & _).
  by split.
Defined.

(** *** Trimming *)

Lemma dropSpaces_head (l : list ascii) :
  match dropSpaces l with
  | a :: _ => isSpace a = false
  | [] => True
  end.
Proof.
  induction l as [| a l IH]; [done |]. cbn [dropSpaces].
  destruct (isSpace a) eqn:Ha; [done | exact Ha].
Qed.

Lemma dropSpaces_id (l : list ascii) :
  match l with
  | a :: _ => isSpace a = false
  | [] => True
  end →
  dropSpaces l = l.
Proof. destruct l as [| a l]; [done |]. cbn [dropSpaces]. by intros ->. Qed.

Lemma dropSpaces_suffix (l : list ascii) :
  ∃ pre, l = app pre (dropSpaces l).
Proof.
  induction l as [| a l [pre IH]]; [by exists [] |]. cbn [dropSpaces].
  destruct (isSpace a); [| by exists []].
  exists (a :: pre). simpl. by f_equal.
Qed.

Lemma trim_idemp (s : string) : trim (trim s) = trim s.
Proof.
  unfold trim. rewrite String.list_ascii_of_string_of_list_ascii.
  set (m := dropSpaces (String.list_ascii_of_string s)).
  set (r := dropSpaces (rev m)).
  assert (dropSpaces (rev r) = rev r) as ->.
  { apply dropSpaces_id.
    destruct (dropSpaces_suffix (rev m)) as [pre Hpre]. fold r in Hpre.
    apply (f_equal (@rev ascii)) in Hpre.
    rewrite rev_involutive, rev_app_distr in Hpre.
    pose proof (dropSpaces_head (String.list_ascii_of_string s)) as Hm.
    fold m in Hm. rewrite Hpre in Hm.
    by destruct (rev r). }
  rewrite rev_involutive.
  by rewrite (dropSpaces_id r) by apply dropSpaces_head.
Qed.

Lemma validate_overlong (c : Court.t) :
  maxLength 100 (Court.name c) = false → Court.validate c = false.
Proof.
  intros H. unfold Court.validate. rewrite H.
  by destruct (negb (String.eqb (Court.name c) "")).
Qed.

(** X16. A court name longer than 100 characters once trimmed passes the
    request validation of the court routes, which checks a minimum only,
    and fails the schema's [maxlength] inside [save]: creating a circuit
    court with it, or an administrator's update of an existing court to
    it, is answered 500 "Internal server error" and writes nothing. *)
Theorem overlong_name_is_server_error (courts : list Court.t)
    (user : Auth.ReqUser) (id : ObjectId) (body : CourtRoutes.Body)
    (name : string) :
  CourtRoutes.name body = Some name →
  (100 < String.length (trim name))%nat →
  (CourtRoutes.validCircuit body = true →
   CourtRoutes.createCircuit courts id body
   = (fail 500 "Internal server error", courts))
  ∧ (Auth.role user = "admin" → is_Some (Court.findById courts id) →
     CourtRoutes.putCourt courts user id body
     = (fail 500 "Internal server error", courts)).
Proof.
  intros Hname Hlen.
  assert (maxLength 100 (trim (trim name)) = false) as Hmax.
  { rewrite trim_idemp. unfold maxLength. apply Nat.leb_gt. lia. }
  assert (String.eqb (trim name) "" = false) as Hne.
  { apply String.eqb_neq. intros Heq. rewrite Heq in Hlen. simpl in Hlen. lia. }
  split.
  - intros Hvalid. unfold CourtRoutes.createCircuit. rewrite Hvalid.
    cbn [negb]. cbv zeta. unfold Court.save.
    rewrite validate_overlong; [done |].
    unfold Court.create, CourtRoutes.sanitize.
    cbn [Court.name CourtRoutes.name]. rewrite Hname. exact Hmax.
  - intros Hrole [court Hfind]. unfold CourtRoutes.putCourt.
    assert (CourtRoutes.validUpdate body = true) as ->.
    { unfold CourtRoutes.validUpdate. rewrite Hname.
      cbn [CourtRoutes.optCheck]. unfold minLength. apply Nat.leb_le. lia. }
    cbn [negb]. cbv zeta. rewrite Hfind, Hrole. cbn [String.eqb negb].
    change (String.eqb "admin" "admin") with true. cbn [negb].
    unfold Court.save. rewrite validate_overlong; [done |].
    unfold CourtRoutes.applyUpdate, CourtRoutes.sanitize.
    cbn [Court.name CourtRoutes.name]. rewrite Hname.
    cbn [fmap option_fmap option_map CourtRoutes.truthyString default].
    rewrite Hne. exact Hmax.
Qed.

(** A name of 101 letters. *)
Lemma overlong_name_is_server_error_witness :
  CourtRoutes.createCircuit Sample.courts "court5"
    (CourtRoutes.mkBody
       (Some (String.string_of_list_ascii (replicate 101 "a"%char)))
       None None None None None)
  = (fail 500 "Internal server error", Sample.courts).
Proof.
  refine (proj1 (overlong_name_is_server_error Sample.courts Sample.admin
                   "court5"
                   (CourtRoutes.mkBody
                      (Some (String.string_of_list_ascii
                               (replicate 101 "a"%char)))
                      None None None None None)
                   (String.string_of_list_ascii (replicate 101 "a"%char))
                   eq_refl _) _).
  - vm_compute. lia.
  - vm_compute. reflexivity.
Defined.

End CourtFacts.

(** ** Accounts: updates, deactivation and the token check *)

Module UserFacts.

Lemma user_findById_Some (users : list User.t) (id : ObjectId) (u : User.t) :
  UserAdmin.findById users id = Some u → u ∈ users ∧ User._id u = id.
Proof.
  unfold UserAdmin.findById. intros H. apply find_some in H as [Hin Heq].
  split; [by apply list_elem_of_In | by apply String.eqb_eq].
Qed.

(** What writing back does to a collection that holds the account's id:
    the first account with that id is replaced, every other stays. *)
Lemma replace_found (users : list User.t) (old this : User.t) :
  UserAdmin.findById users (User._id this) = Some old →
  Forall2 (fun u u' => u' = u ∨ (u = old ∧ u' = this)) users
    (UserAdmin.replace users this).
Proof.
  unfold UserAdmin.findById. induction users as [| u users IH]; [done |].
  simpl. destruct (String.eqb (User._id u) (User._id this)) eqn:E.
  - intros [= ->]. constructor; [by right |].
    apply Forall2_same_length_lookup_2; [done |].
    intros i x y Hx Hy. left. congruence.
  - intros H. constructor; [by left | by apply IH].
Qed.

Lemma findById_replace (users : list User.t) (old this : User.t)
    (id : ObjectId) :
  UserAdmin.findById users (User._id this) = Some old →
  UserAdmin.findById (UserAdmin.replace users this) id
  = if String.eqb (User._id this) id then Some this
    else UserAdmin.findById users id.
Proof.
  unfold UserAdmin.findById. induction users as [| u users IH]; [done |].
  cbn [UserAdmin.replace find].
  destruct (String.eqb_spec (User._id u) (User._id this)) as [Heq | Hne].
  - intros _. cbn [find]. rewrite Heq.
    by destruct (String.eqb (User._id this) id).
  - intros Hfind. cbn [find]. rewrite (IH Hfind).
    destruct (String.eqb_spec (User._id u) id) as [Hu | Hu]; [| done].
    destruct (String.eqb_spec (User._id this) id); [congruence | done].
Qed.

(** A handler that loads an account, changes it and saves it either
    leaves the collection as it is or writes the changed account back. *)
Lemma save_writes (users : list User.t) (resp : Response) (this : User.t) :
  (catch500 users
     (users' ← UserAdmin.save users this; Ok (resp, users'))).2 = users
  ∨ (isIn User.roleValues (User.role this) = true
     ∧ catch500 users
         (users' ← UserAdmin.save users this; Ok (resp, users'))
       = (resp, UserAdmin.replace users this)).
Proof.
  unfold UserAdmin.save.
  destruct (isIn User.roleValues (User.role this)); simpl; [by right | by left].
Qed.

Lemma Forall2_same {A : Type} (P : A → A → Prop) (l : list A) :
  (∀ x, P x x) → Forall2 P l l.
Proof. intros HP. induction l; by constructor. Qed.

(** X17. A caller that is not an administrator can change nothing but
    the name of the caller's own account: a request for another account
    is refused, a body with a role, a court or an activation flag is
    refused with 403, and whatever the request, every account is
    afterwards as it was, except that the caller's own may carry a new
    name. *)
Theorem putUser_non_admin_own_name_only (users : list User.t)
    (caller : Auth.ReqUser) (userId : ObjectId) (body : UserAdmin.Body) :
  Auth.role caller ≠ "admin" →
  (userId ≠ Auth.userId caller →
   outcome (UserAdmin.putUser users caller userId body).1 ≠ Success
   ∧ (UserAdmin.putUser users caller userId body).2 = users)
  ∧ (UserAdmin.validUpdate body = true →
     CourtRoutes.truthyString (UserAdmin.role body) = true
     ∨ CourtRoutes.truthyString (UserAdmin.circuitCourtId body) = true
     ∨ is_Some (UserAdmin.isActive body) →
     userId = Auth.userId caller →
     UserAdmin.putUser users caller userId body
     = (fail 403 "Access denied - insufficient permissions", users))
  ∧ Forall2
      (fun u u' =>
         u' = u
         ∨ (User._id u = Auth.userId caller
            ∧ u' = User.mk (User._id u) (User.username u) (User.password u)
                     (User.role u) (User.name u') (User.circuitCourtId u)
                     (User.isActive u)))
      users (UserAdmin.putUser users caller userId body).2.
Proof.
  intros Hrole. apply String.eqb_neq in Hrole.
  split; [| split].
  - intros Hother. unfold UserAdmin.putUser.
    destruct (negb (UserAdmin.validUpdate body)); [done |]. cbv zeta.
    rewrite Hrole. cbn [negb andb].
    assert (String.eqb (Auth.userId caller) userId = false) as ->
      by (by apply String.eqb_neq).
    done.
  - intros Hvalid Hextra ->. unfold UserAdmin.putUser.
    rewrite Hvalid, Hrole, String.eqb_refl. cbn [negb andb]. cbv zeta.
    assert (CourtRoutes.truthyString (UserAdmin.role (UserAdmin.sanitize body))
            || CourtRoutes.truthyString
                 (UserAdmin.circuitCourtId (UserAdmin.sanitize body))
            || bool_decide (is_Some (UserAdmin.isActive
                                       (UserAdmin.sanitize body))) = true)
      as ->; [| done].
    cbn [UserAdmin.sanitize UserAdmin.role UserAdmin.circuitCourtId
         UserAdmin.isActive].
    destruct Hextra as [-> | [-> | Hact]]; [done | by rewrite orb_true_r |].
    rewrite (bool_decide_eq_true_2 _ Hact). by rewrite !orb_true_r.
  - unfold UserAdmin.putUser.
    destruct (negb (UserAdmin.validUpdate body));
      [apply Forall2_same; by left |].
    cbv zeta. rewrite Hrole. cbn [negb andb].
    destruct (String.eqb_spec (Auth.userId caller) userId) as [<- | Hne];
      [| apply Forall2_same; by left].
    cbn [negb].
    destruct (CourtRoutes.truthyString _ || _ || _) eqn:Hextra;
      [apply Forall2_same; by left |].
    destruct (UserAdmin.findById users (Auth.userId caller)) as [user |]
      eqn:Hfind; [| apply Forall2_same; by left].
    set (this := UserAdmin.assign false (UserAdmin.sanitize body) user).
    apply user_findById_Some in Hfind as Huser. destruct Huser as [_ Hid].
    destruct (save_writes users (ok200 "User updated successfully") this)
      as [-> | [_ ->]]; [apply Forall2_same; by left |].
    cbn [snd].
    assert (UserAdmin.findById users (User._id this) = Some user) as Hthis
      by (by rewrite <- Hfind, <- Hid).
    eapply Forall2_impl; [apply (replace_found _ _ _ Hthis) |].
    intros u u' [-> | [-> ->]]; [by left |]. right. split; [done |].
    unfold this, UserAdmin.assign. rewrite !andb_false_r.
    by destruct (UserAdmin.isActive _).
Qed.

(** A clerk renames their own account. *)
Lemma putUser_non_admin_own_name_only_witness :
  UserAdmin.putUser
    [User.mk "user2" "circuit1" (User.Hash "secret123") "circuit"
       "First Circuit Clerk" (Some "court1") true]
    Sample.circuitUser "user2"
    (UserAdmin.mkBody None (Some "admin") None None)
  = (fail 403 "Access denied - insufficient permissions",
     [User.mk "user2" "circuit1" (User.Hash "secret123") "circuit"
        "First Circuit Clerk" (Some "court1") true]).
Proof.
  refine (proj1 (proj2 (putUser_non_admin_own_name_only _ Sample.circuitUser
                          "user2"
                          (UserAdmin.mkBody None (Some "admin") None None) _))
            _ _ _).
  - done.
  - reflexivity.
  - by left.
  - reflexivity.
Defined.

(** X18. No request to the account routes gives an account a role other
    than admin: after a creation, an update or a deactivation, every
    account of the collection has the role admin or is an account of the
    same id that had its role before. *)
Theorem user_routes_assign_admin_only (users : list User.t)
    (caller : Auth.ReqUser) (id : ObjectId) (created : UserRoutes.Body)
    (body : UserAdmin.Body) (u' : User.t) :
  u' ∈ (UserRoutes.postUser users caller id created).2
  ∨ u' ∈ (UserAdmin.putUser users caller id body).2
  ∨ u' ∈ (UserAdmin.deleteUser users caller id).2 →
  User.role u' = "admin"
  ∨ ∃ u, u ∈ users ∧ User._id u = User._id u' ∧ User.role u = User.role u'.
Proof.
  assert (∀ u, u ∈ users →
            User.role u = "admin"
            ∨ ∃ u0, u0 ∈ users ∧ User._id u0 = User._id u
                    ∧ User.role u0 = User.role u) as Hold.
  { intros u Hu. right. by exists u. }
  assert (∀ (resp : Response) (user this : User.t),
            UserAdmin.findById users (User._id this) = Some user →
            User.role this = "admin" ∨ User.role this = User.role user →
            u' ∈ (catch500 users
                    (users' ← UserAdmin.save users this;
                     Ok (resp, users'))).2 →
            User.role u' = "admin"
            ∨ ∃ u, u ∈ users ∧ User._id u = User._id u'
                   ∧ User.role u = User.role u') as Hwrite.
  { intros resp user this Hfind Hrole.
    destruct (save_writes users resp this) as [-> | [_ ->]]; [apply Hold |].
    cbn [snd]. intros Hin.
    apply list_elem_of_lookup in Hin as [i Hi].
    destruct (Forall2_lookup_r _ _ _ _ _ (replace_found _ _ _ Hfind) Hi)
      as (u & Hu & [-> | [-> ->]]).
    - apply Hold. by eapply list_elem_of_lookup_2.
    - destruct Hrole as [? | Hrole]; [by left |]. right. exists user.
      apply user_findById_Some in Hfind as [? ?]. done. }
  intros [Hin | [Hin | Hin]].
  - revert Hin. unfold UserRoutes.postUser.
    destruct (Auth.requireRole _ _); [apply Hold |].
    unfold UserRoutes.createUser.
    destruct (UserRoutes.validCreate created) eqn:Hvalid; [| apply Hold].
    cbv zeta. cbn [negb].
    destruct (User.findByUsername _ _); [apply Hold |].
    unfold User.save. destruct (isIn _ _); [| apply Hold].
    cbn [mbind Result_bind catch500 snd].
    intros [Hin | ->%list_elem_of_singleton]%elem_of_app; [by apply Hold |].
    left. cbn [User.role UserRoutes.userData User.d_role].
    unfold UserRoutes.validCreate in Hvalid.
    apply andb_true_iff in Hvalid as [_ Hacc].
    apply UserAccounts.roleAccepted_admin in Hacc.
    cbn [UserRoutes.sanitize UserRoutes.role]. by rewrite Hacc.
  - revert Hin. unfold UserAdmin.putUser.
    destruct (UserAdmin.validUpdate body) eqn:Hvalid; [| apply Hold].
    cbv zeta. cbn [negb].
    destruct (_ && negb (String.eqb (Auth.userId caller) id));
      [apply Hold |].
    destruct (_ && (_ || _ || _)); [apply Hold |].
    destruct (UserAdmin.findById users id) as [user |] eqn:Hfind;
      [| apply Hold].
    apply user_findById_Some in Hfind as Hid. destruct Hid as [_ <-].
    apply (Hwrite _ user); [done |].
    cbn [UserAdmin.assign User.role UserAdmin.sanitize UserAdmin.role].
    destruct (CourtRoutes.truthyString (UserAdmin.role body) && _) eqn:Hset;
      [| by right].
    left. unfold UserAdmin.validUpdate in Hvalid.
    apply andb_true_iff in Hvalid as [_ Hacc].
    destruct (UserAdmin.role body) as [r |]; [| done].
    cbn [CourtRoutes.optCheck] in Hacc. unfold isIn in Hacc.
    apply bool_decide_eq_true in Hacc.
    by apply list_elem_of_singleton in Hacc as ->.
  - revert Hin. unfold UserAdmin.deleteUser.
    destruct (Auth.requireRole _ _); [apply Hold |].
    destruct (String.eqb (Auth.userId caller) id); [apply Hold |].
    destruct (UserAdmin.findById users id) as [user |] eqn:Hfind;
      [| apply Hold].
    apply user_findById_Some in Hfind as Hid. destruct Hid as [_ <-].
    apply (Hwrite _ user); [done | by right].
Qed.

(** An administrator tries to turn the clerk's account into a
    magisterial one. *)
Lemma user_routes_assign_admin_only_witness :
  User.role
    (User.mk "user2" "circuit1" (User.Hash "secret123") "circuit"
       "First Circuit Clerk" (Some "court1") true) = "admin"
  ∨ ∃ u, u ∈ [User.mk "user2" "circuit1" (User.Hash "secret123") "circuit"
                "First Circuit Clerk" (Some "court1") true]
         ∧ User._id u = "user2" ∧ User.role u = "circuit".
Proof.
  apply (user_routes_assign_admin_only
           [User.mk "user2" "circuit1" (User.Hash "secret123") "circuit"
              "First Circuit Clerk" (Some "court1") true]
           Sample.admin "user2" Sample.newAdminAccount
           (UserAdmin.mkBody None (Some "magisterial") None None)
           (User.mk "user2" "circuit1" (User.Hash "secret123") "circuit"
              "First Circuit Clerk" (Some "court1") true)).
  right. left. vm_compute. apply list_elem_of_here.
Defined.

(** *** The token check *)

Lemma split_no_sep (sep : ascii) (s : string) :
  forallb (fun c => negb (Ascii.eqb c sep)) (String.list_ascii_of_string s)
  = true →
  AuthMiddleware.split sep s = [s].
Proof.
  induction s as [| c s IH]; [done |]. cbn [String.list_ascii_of_string forallb].
  intros [Hc Hs]%andb_true_iff. cbn [AuthMiddleware.split].
  apply negb_true_iff in Hc. by rewrite Hc, (IH Hs).
Qed.

Lemma split_app (sep : ascii) (a b : string) :
  forallb (fun c => negb (Ascii.eqb c sep)) (String.list_ascii_of_string a)
  = true →
  AuthMiddleware.split sep (a ++ String sep b)
  = a :: AuthMiddleware.split sep b.
Proof.
  induction a as [| c a IH].
  - intros _. change ("" ++ String sep b) with (String sep b).
    cbn [AuthMiddleware.split]. by rewrite Ascii.eqb_refl.
  - cbn [String.list_ascii_of_string forallb].
    intros [Hc Ha]%andb_true_iff.
    change (String c a ++ String sep b) with (String c (a ++ String sep b)).
    cbn [AuthMiddleware.split].
    apply negb_true_iff in Hc. by rewrite Hc, (IH Ha).
Qed.

(** X19. [authenticateToken] lets a request through only with a header
    whose second word verifies to the id of a stored, active account, and
    the [req.user] it passes on is that account as stored: its id,
    username, role, name and court. Every refusal is a 401, except the
    500 for an error of [verify] that is neither an invalid nor an
    expired token. The first word of the header is not looked at: any
    word in front of a token without spaces gives that token. *)
Theorem authenticateToken_sound (verify : string → AuthMiddleware.Verified)
    (users : list User.t) (authorization : option string) :
  (∀ reqUser,
     AuthMiddleware.authenticateToken verify users authorization
     = inr reqUser →
     ∃ token user,
       AuthMiddleware.bearerToken authorization = Some token
       ∧ verify token = AuthMiddleware.Decoded (Some (Auth.userId reqUser))
       ∧ UserAdmin.findById users (Auth.userId reqUser) = Some user
       ∧ User.isActive user = true
       ∧ reqUser = Auth.mkUser (User._id user) (User.username user)
                     (User.role user) (User.name user)
                     (User.circuitCourtId user))
  ∧ (∀ r,
       AuthMiddleware.authenticateToken verify users authorization = inl r →
       outcome r = Unauthenticated
       ∨ (r = fail 500 "Internal server error"
          ∧ ∃ token, AuthMiddleware.bearerToken authorization = Some token
                     ∧ verify token = AuthMiddleware.OtherError))
  ∧ (∀ scheme token,
       forallb (fun c => negb (Ascii.eqb c " "))
         (String.list_ascii_of_string scheme) = true →
       forallb (fun c => negb (Ascii.eqb c " "))
         (String.list_ascii_of_string token) = true →
       token ≠ "" →
       AuthMiddleware.bearerToken (Some (scheme ++ String " " token))
       = Some token).
Proof.
  split; [| split].
  - intros reqUser. unfold AuthMiddleware.authenticateToken.
    destruct (AuthMiddleware.bearerToken authorization) as [token |];
      [| done].
    destruct (verify token) as [[uid |] | | |] eqn:Hverify; try done.
    cbn [mbind option_bind].
    destruct (UserAdmin.findById users uid) as [user |] eqn:Hfind; [| done].
    destruct (User.isActive user) eqn:Hactive; [| done].
    cbn [negb]. intros [= <-]. exists token, user.
    apply user_findById_Some in Hfind as Hid. destruct Hid as [_ Hid].
    cbn [Auth.userId]. by rewrite Hid.
  - intros r. unfold AuthMiddleware.authenticateToken.
    destruct (AuthMiddleware.bearerToken authorization) as [token |];
      [| intros [= <-]; by left].
    destruct (verify token) as [uid | | |] eqn:Hverify;
      try (intros [= <-]; by left).
    + destruct (uid ≫= UserAdmin.findById users) as [user |];
        [| intros [= <-]; by left].
      destruct (negb (User.isActive user)); [| done].
      intros [= <-]. by left.
    + intros [= <-]. right. split; [done |]. by exists token.
  - intros scheme token Hscheme Htoken Hne.
    unfold AuthMiddleware.bearerToken.
    assert (String.eqb (scheme ++ String " " token) "" = false) as ->
      by (by destruct scheme).
    rewrite (split_app _ _ _ Hscheme), (split_no_sep _ _ Htoken).
    cbn [lookup list_lookup].
    apply String.eqb_neq in Hne. by rewrite Hne.
Qed.

(** A header of the usual form, and one with another first word. *)
Lemma authenticateToken_sound_witness :
  AuthMiddleware.bearerToken (Some "Bearer abc.def.ghi") = Some "abc.def.ghi"
  ∧ AuthMiddleware.bearerToken (Some "Basic abc.def.ghi")
    = Some "abc.def.ghi".
Proof.
  pose proof (proj2 (proj2 (authenticateToken_sound
                              (fun _ => AuthMiddleware.OtherError) [] None)))
    as Hparse.
  split.
  - apply (Hparse "Bearer" "abc.def.ghi"); [reflexivity | reflexivity | done].
  - apply (Hparse "Basic" "abc.def.ghi"); [reflexivity | reflexivity | done].
Defined.

Lemma deactivate_saved (users : list User.t) (resp : Response)
    (user : User.t) :
  isIn User.roleValues (User.role user) = true →
  catch500 users
    (users' ← UserAdmin.save users (UserAdmin.deactivate user);
     Ok (resp, users'))
  = (resp, UserAdmin.replace users (UserAdmin.deactivate user)).
Proof.
  intros Hrole. unfold UserAdmin.save.
  change (User.role (UserAdmin.deactivate user)) with (User.role user).
  by rewrite Hrole.
Qed.

(** X20. An administrator cannot deactivate the account the request is
    made with (400, nothing written). Deactivating another stored
    account keeps it in the collection with [isActive] false, and from
    then on [authenticateToken] answers 401 to every token of that
    account, while the tokens of every other account are treated as
    before. *)
Theorem deleteUser_revokes_access (verify : string → AuthMiddleware.Verified)
    (users : list User.t) (caller : Auth.ReqUser) (userId : ObjectId)
    (user : User.t) :
  Auth.role caller = "admin" →
  UserAdmin.deleteUser users caller (Auth.userId caller)
  = (fail 400 "Cannot deactivate your own account", users)
  ∧ (userId ≠ Auth.userId caller →
     UserAdmin.findById users userId = Some user →
     isIn User.roleValues (User.role user) = true →
     (UserAdmin.deleteUser users caller userId).1
     = ok200 "User deactivated successfully"
     ∧ UserAdmin.findById (UserAdmin.deleteUser users caller userId).2 userId
       = Some (UserAdmin.deactivate user)
     ∧ ∀ authorization token uid,
         AuthMiddleware.bearerToken authorization = Some token →
         verify token = AuthMiddleware.Decoded uid →
         (uid = Some userId →
          AuthMiddleware.authenticateToken verify
            (UserAdmin.deleteUser users caller userId).2 authorization
          = inl (fail 401 "Invalid token or user not found"))
         ∧ (uid ≠ Some userId →
            AuthMiddleware.authenticateToken verify
              (UserAdmin.deleteUser users caller userId).2 authorization
            = AuthMiddleware.authenticateToken verify users authorization)).
Proof.
  intros Hadmin.
  assert (∀ id, UserAdmin.deleteUser users caller id
                = if String.eqb (Auth.userId caller) id
                  then (fail 400 "Cannot deactivate your own account", users)
                  else match UserAdmin.findById users id with
                       | None => (fail 404 "User not found", users)
                       | Some user =>
                           catch500 users
                             (users' ← UserAdmin.save users
                                         (UserAdmin.deactivate user);
                              Ok (ok200 "User deactivated successfully",
                                  users'))
                       end) as Hdel.
  { intros id. unfold UserAdmin.deleteUser, Auth.requireRole.
    by rewrite Hadmin. }
  split; [by rewrite Hdel, String.eqb_refl |].
  intros Hother Hfind Hrole. rewrite Hdel.
  assert (String.eqb (Auth.userId caller) userId = false) as ->
    by (apply String.eqb_neq; congruence).
  rewrite Hfind, deactivate_saved by done. cbn [fst snd].
  apply user_findById_Some in Hfind as Hid. destruct Hid as [_ Hid].
  assert (UserAdmin.findById users (User._id (UserAdmin.deactivate user))
          = Some user) as Hthis by (cbn [UserAdmin.deactivate User._id];
                                    by rewrite Hid).
  assert (∀ id, UserAdmin.findById
                  (UserAdmin.replace users (UserAdmin.deactivate user)) id
                = if String.eqb userId id
                  then Some (UserAdmin.deactivate user)
                  else UserAdmin.findById users id) as Hlookup.
  { intros id. rewrite (findById_replace _ _ _ _ Hthis).
    cbn [UserAdmin.deactivate User._id]. by rewrite Hid. }
  split; [done |]. split; [by rewrite Hlookup, String.eqb_refl |].
  intros authorization token uid Htoken Hverify.
  unfold AuthMiddleware.authenticateToken. rewrite Htoken, Hverify. split.
  - intros ->. cbn [mbind option_bind].
    by rewrite Hlookup, String.eqb_refl.
  - intros Hne. destruct uid as [id |]; [| done]. cbn [mbind option_bind].
    rewrite Hlookup.
    destruct (String.eqb_spec userId id) as [-> | ?]; [done | done].
Qed.

(** The administrator deactivates the clerk's account. *)
Lemma deleteUser_revokes_access_witness :
  UserAdmin.deleteUser
    [User.mk "user2" "circuit1" (User.Hash "secret123") "circuit"
       "First Circuit Clerk" (Some "court1") true]
    Sample.admin (Auth.userId Sample.admin)
  = (fail 400 "Cannot deactivate your own account",
     [User.mk "user2" "circuit1" (User.Hash "secret123") "circuit"
        "First Circuit Clerk" (Some "court1") true])
  ∧ (UserAdmin.deleteUser
       [User.mk "user2" "circuit1" (User.Hash "secret123") "circuit"
          "First Circuit Clerk" (Some "court1") true]
       Sample.admin "user2").1
    = ok200 "User deactivated successfully".
Proof.
  pose proof (deleteUser_revokes_access
                (fun _ => AuthMiddleware.Decoded (Some "user2"))
                [User.mk "user2" "circuit1" (User.Hash "secret123") "circuit"
                   "First Circuit Clerk" (Some "court1") true]
                Sample.admin "user2"
                (User.mk "user2" "circuit1" (User.Hash "secret123") "circuit"
                   "First Circuit Clerk" (Some "court1") true)
                eq_refl) as [H1 H2].
  split; [exact H1 |].
  refine (proj1 (H2 _ eq_refl eq_refl)). done.
Defined.

End UserFacts.

(** ** The field filter of the middleware *)

Module FieldFacts.

Lemma prop_filter_keys (allowed : list string) (body : list (string * Json))
    (k : string) :
  prop k (filter (fun kv => fst kv ∈ allowed) body)
  = if bool_decide (k ∈ allowed) then prop k body else None.
Proof.
  induction body as [| [k' v] body IH].
  - by destruct (bool_decide _).
  - rewrite filter_cons. cbn [fst].
    destruct (decide (k' ∈ allowed)) as [Hin | Hout];
      cbn [prop]; destruct (String.eqb_spec k' k) as [-> | Hne].
    + by rewrite bool_decide_eq_true_2.
    + exact IH.
    + rewrite IH. by rewrite bool_decide_eq_false_2.
    + exact IH.
Qed.

(** X21. [validateFields] lets a body through exactly when every
    required field is present and not the empty string; otherwise it
    answers 400 with exactly the required fields that are missing. The
    body it passes on holds the required and optional fields with the
    values they had and no other field, and passes the same check
    unchanged. *)
Theorem validateFields_filters (requiredFields optionalFields : list string)
    (body : list (string * Json)) :
  match AuthMiddleware.validateFields requiredFields optionalFields body with
  | inl (r, missingFields) =>
      r = fail 400 "Missing required fields"
      ∧ (∃ f, f ∈ requiredFields
              ∧ (prop f body = None ∨ prop f body = Some (JStr "")))
      ∧ ∀ f, f ∈ missingFields
             ↔ f ∈ requiredFields
               ∧ (prop f body = None ∨ prop f body = Some (JStr ""))
  | inr filtered =>
      (∀ f, f ∈ requiredFields →
            ∃ j, prop f filtered = Some j ∧ j ≠ JStr "")
      ∧ (∀ k, k ∈ app requiredFields optionalFields →
              prop k filtered = prop k body)
      ∧ (∀ k, k ∉ app requiredFields optionalFields →
              prop k filtered = None)
      ∧ AuthMiddleware.validateFields requiredFields optionalFields filtered
        = inr filtered
  end.
Proof.
  assert (∀ b f, AuthMiddleware.isMissing b f = true
                 ↔ prop f b = None ∨ prop f b = Some (JStr "")) as Hmissing.
  { intros b f. unfold AuthMiddleware.isMissing.
    destruct (prop f b) as [[ | b0 | n | s | o] |]; cbn [jsonIs];
      try (split; [done | by intros [? | ?]]).
    - rewrite String.eqb_eq. split; [by intros ->; right |].
      by intros [? | [= ->]].
    - split; [by left | done]. }
  unfold AuthMiddleware.validateFields. cbv zeta.
  destruct (filter _ requiredFields) as [| f0 missing] eqn:Hfilter.
  - cbn [length Nat.ltb Nat.leb].
    set (allowed := app requiredFields optionalFields).
    assert (∀ f, f ∈ requiredFields →
              AuthMiddleware.isMissing body f = false) as Hpresent.
    { intros f Hf. destruct (AuthMiddleware.isMissing body f) eqn:Hm; [| done].
      assert (f ∈ filter (fun f => AuthMiddleware.isMissing body f = true)
                    requiredFields) as Hin
        by (by apply list_elem_of_filter).
      rewrite Hfilter in Hin. by apply elem_of_nil in Hin. }
    assert (∀ k, k ∈ allowed →
              prop k (filter (fun kv => fst kv ∈ allowed) body) = prop k body)
      as Hkeep.
    { intros k Hk. by rewrite prop_filter_keys, bool_decide_eq_true_2. }
    assert (∀ f, f ∈ requiredFields → f ∈ allowed) as Hreq
      by (intros f Hf; apply elem_of_app; by left).
    split; [| split; [| split]].
    + intros f Hf. rewrite Hkeep by auto.
      specialize (Hpresent f Hf). unfold AuthMiddleware.isMissing in Hpresent.
      destruct (prop f body) as [j |]; [| done]. exists j. split; [done |].
      intros ->. cbn [jsonIs] in Hpresent. by rewrite String.eqb_refl in Hpresent.
    + exact Hkeep.
    + intros k Hk. by rewrite prop_filter_keys, bool_decide_eq_false_2.
    + assert (filter (fun f => AuthMiddleware.isMissing
                          (filter (fun kv => fst kv ∈ allowed) body) f = true)
                requiredFields = []) as ->.
      { apply elem_of_nil_inv. intros f [Hm Hf]%list_elem_of_filter.
        unfold AuthMiddleware.isMissing in Hm. rewrite Hkeep in Hm by auto.
        specialize (Hpresent f Hf). unfold AuthMiddleware.isMissing in Hpresent.
        congruence. }
      cbn [length Nat.ltb Nat.leb]. f_equal.
      by apply list_filter_filter_r.
  - cbn [length Nat.ltb Nat.leb]. split; [done |].
    assert (∀ f, f ∈ f0 :: missing
                 ↔ f ∈ requiredFields
                   ∧ (prop f body = None ∨ prop f body = Some (JStr "")))
      as Hin.
    { intros f. rewrite <- Hfilter, list_elem_of_filter, Hmissing. tauto. }
    split; [| exact Hin].
    exists f0. apply Hin, list_elem_of_here.
Qed.

End FieldFacts.

(** ** The in-memory store *)

Module StoreFacts.

Section Runtime.

Variable toNumber : string → option Z.

Lemma looseEq_inj (x : option Value) (id j : Z) :
  MemoryStore.looseEq toNumber x id = true →
  MemoryStore.looseEq toNumber x j = true → id = j.
Proof.
  unfold MemoryStore.looseEq.
  destruct x as [[ms | [ | b | n | s | o]] |]; try done.
  - intros ?%Z.eqb_eq ?%Z.eqb_eq. congruence.
  - intros ?%Z.eqb_eq ?%Z.eqb_eq. congruence.
  - destruct (toNumber s) as [n |]; [| done].
    intros ?%Z.eqb_eq ?%Z.eqb_eq. congruence.
Qed.

Lemma looseEq_idOf (x : gmap string Value) (n id : Z) :
  MemoryStore.idOf x = Some n →
  MemoryStore.looseEq toNumber (x !! "id") id = Z.eqb n id.
Proof.
  unfold MemoryStore.idOf, MemoryStore.looseEq.
  destruct (x !! "id") as [[ms | [ | b | m | s | o]] |]; try done.
  by intros [= ->].
Qed.

(** What the index search finds. *)
Lemma findIndex_spec (l : list (gmap string Value)) (id : Z) :
  match MemoryStore.findIndex toNumber l id with
  | Some i => ∃ x, l !! i = Some x
                   ∧ MemoryStore.findById toNumber l id = Some x
  | None => MemoryStore.findById toNumber l id = None
  end.
Proof.
  unfold MemoryStore.findById. induction l as [| x l IH]; [done |].
  cbn [MemoryStore.findIndex find].
  destruct (MemoryStore.looseEq toNumber (x !! "id") id); [by exists x |].
  destruct (MemoryStore.findIndex toNumber l id) as [i |]; [| done].
  destruct IH as (y & Hy & Hfind). by exists y.
Qed.

Lemma findById_snoc (l : list (gmap string Value)) (x : gmap string Value)
    (id : Z) :
  MemoryStore.findById toNumber (app l [x]) id
  = match MemoryStore.findById toNumber l id with
    | Some y => Some y
    | None => if MemoryStore.looseEq toNumber (x !! "id") id
              then Some x else None
    end.
Proof.
  unfold MemoryStore.findById. induction l as [| y l IH]; [done |].
  cbn [app find]. by destruct (MemoryStore.looseEq toNumber (y !! "id") id).
Qed.

Lemma findById_below (l : list (gmap string Value)) (bound id : Z) :
  Forall (fun x => ∃ n, MemoryStore.idOf x = Some n ∧ (n < bound)%Z) l →
  (bound ≤ id)%Z →
  MemoryStore.findById toNumber l id = None.
Proof.
  unfold MemoryStore.findById. intros Hl Hid.
  induction Hl as [| x l (n & Hn & Hlt) _ IH]; [done |].
  cbn [find]. rewrite (looseEq_idOf _ _ _ Hn).
  destruct (Z.eqb_spec n id); [lia | exact IH].
Qed.

Lemma findById_delete (l : list (gmap string Value)) (id j : Z) (i : nat) :
  MemoryStore.findIndex toNumber l id = Some i → j ≠ id →
  MemoryStore.findById toNumber (delete i l) j
  = MemoryStore.findById toNumber l j.
Proof.
  unfold MemoryStore.findById. intros Hi Hj. revert i Hi.
  induction l as [| x l IH]; [done |]. intros i.
  cbn [MemoryStore.findIndex].
  destruct (MemoryStore.looseEq toNumber (x !! "id") id) eqn:Hx.
  - intros [= <-]. cbn [find].
    destruct (MemoryStore.looseEq toNumber (x !! "id") j) eqn:Hxj; [| done].
    by destruct Hj; eapply looseEq_inj.
  - destruct (MemoryStore.findIndex toNumber l id) as [i' |]; [| done].
    intros [= <-]. change (delete (S i') (x :: l)) with (x :: delete i' l).
    cbn [find]. by rewrite IH.
Qed.

Lemma findById_delete_found (l : list (gmap string Value)) (id : Z) (i : nat) :
  Forall (fun x => is_Some (MemoryStore.idOf x)) l →
  NoDup (MemoryStore.idOf <$> l) →
  MemoryStore.findIndex toNumber l id = Some i →
  MemoryStore.findById toNumber (delete i l) id = None.
Proof.
  unfold MemoryStore.findById. intros Hl. revert i.
  induction Hl as [| x l [n Hn] Hl IH]; [done |]. intros i.
  rewrite fmap_cons, NoDup_cons. intros [Hfresh Hnodup].
  cbn [MemoryStore.findIndex]. rewrite (looseEq_idOf _ _ _ Hn).
  destruct (Z.eqb_spec n id) as [-> | Hne].
  - intros [= <-]. change (delete 0%nat (x :: l)) with l.
    destruct (find _ l) as [y |] eqn:Hy; [| done].
    apply find_some in Hy as [Hin Hy]. apply list_elem_of_In in Hin.
    rewrite List.Forall_forall in Hl.
    destruct (Hl y (proj1 (list_elem_of_In _ _) Hin)) as [m Hm].
    rewrite (looseEq_idOf _ _ _ Hm) in Hy. apply Z.eqb_eq in Hy as ->.
    destruct Hfresh. rewrite Hn, <- Hm. by apply list_elem_of_fmap_2.
  - destruct (MemoryStore.findIndex toNumber l id) as [i' |]; [| done].
    intros [= <-]. change (delete (S i') (x :: l)) with (x :: delete i' l).
    cbn [find]. rewrite (looseEq_idOf _ _ _ Hn).
    destruct (Z.eqb_spec n id); [done | by apply IH].
Qed.

(** X22. [createStaff] stores the data under the next id of the counter
    and stamps it: on a keyed staff array and data without an [id], the
    new record carries that id and the data's properties, can be found
    by it, hides no earlier record, and the array stays keyed. Data that
    carries an [id] keeps it: the generated one is overwritten. *)
Theorem createStaff_keyed (now : Z) (staffData : gmap string Value)
    (s : MemoryStore.t) :
  (∀ v, staffData !! "id" = Some v →
        (MemoryStore.createStaff now staffData s).1 !! "id" = Some v)
  ∧ (staffData !! "id" = None → MemoryStore.keyed s →
     MemoryStore.idOf (MemoryStore.createStaff now staffData s).1
     = Some (MemoryStore.nextId s)
     ∧ (MemoryStore.createStaff now staffData s).1 !! "createdAt"
       = Some (VDate now)
     ∧ (∀ k, k ≠ "id" → k ≠ "createdAt" →
          (MemoryStore.createStaff now staffData s).1 !! k = staffData !! k)
     ∧ MemoryStore.keyed (MemoryStore.createStaff now staffData s).2
     ∧ MemoryStore.findStaffById toNumber
         (MemoryStore.createStaff now staffData s).2 (MemoryStore.nextId s)
       = Some (MemoryStore.createStaff now staffData s).1
     ∧ ∀ id, id ≠ MemoryStore.nextId s →
         MemoryStore.findStaffById toNumber
           (MemoryStore.createStaff now staffData s).2 id
         = MemoryStore.findStaffById toNumber s id).
Proof.
  unfold MemoryStore.createStaff, MemoryStore.generateId. cbn [fst snd].
  set (x := <["createdAt" := VDate now]>
              (staffData ∪ {["id" := VJson (JNum (MemoryStore.nextId s))]})).
  split.
  - intros v Hv. unfold x. rewrite lookup_insert_ne by done.
    by apply lookup_union_Some_l.
  - intros Hnone [Hbelow Hnodup].
    assert (x !! "id" = Some (VJson (JNum (MemoryStore.nextId s)))) as Hid.
    { unfold x. rewrite lookup_insert_ne by done.
      rewrite lookup_union_r by done. apply lookup_singleton_eq. }
    assert (MemoryStore.idOf x = Some (MemoryStore.nextId s)) as Hidx
      by (unfold MemoryStore.idOf; by rewrite Hid).
    split; [done |]. split; [apply lookup_insert_eq |]. split.
    { intros k Hk Hc. unfold x. rewrite lookup_insert_ne by done.
      destruct (staffData !! k) as [v |] eqn:Hv.
      - by apply lookup_union_Some_l.
      - rewrite lookup_union_r by done. by apply lookup_singleton_ne. }
    unfold MemoryStore.findStaffById. cbn [MemoryStore.staff].
    split; [| split].
    + split; cbn [MemoryStore.staff MemoryStore.nextId].
      * apply Forall_app. split.
        -- eapply Forall_impl; [exact Hbelow |].
           intros y (n & Hn & Hlt). exists n. split; [done | lia].
        -- apply Forall_singleton. exists (MemoryStore.nextId s).
           split; [done | lia].
      * rewrite fmap_app. apply NoDup_app. split; [done |]. split.
        -- intros o Ho ->%list_elem_of_singleton.
           apply list_elem_of_fmap in Ho as (y & Hy & Hin).
           rewrite List.Forall_forall in Hbelow.
           destruct (Hbelow y (proj1 (list_elem_of_In _ _) Hin))
             as (n & Hn & Hlt).
           rewrite Hidx in Hy. rewrite Hn in Hy. injection Hy as Hy. lia.
        -- apply NoDup_singleton.
    + rewrite findById_snoc, (findById_below _ (MemoryStore.nextId s))
        by (done || lia).
      by rewrite (looseEq_idOf _ _ _ Hidx), Z.eqb_refl.
    + intros id Hne. rewrite findById_snoc.
      destruct (MemoryStore.findById toNumber (MemoryStore.staff s) id);
        [done |].
      rewrite (looseEq_idOf _ _ _ Hidx).
      by destruct (Z.eqb_spec (MemoryStore.nextId s) id).
Qed.

(** X23. [updateStaff] is a plain merge: it answers [null] and changes
    nothing when no record has the id; otherwise the record found keeps
    its place, takes every property of the update and [updatedAt], and
    keeps every other property. The status dates get no treatment: a
    record that holds a status date and is given a status that does not
    account for it holds both afterwards. *)
Theorem updateStaff_merges (now id : Z) (updateData : gmap string Value)
    (s : MemoryStore.t) :
  (MemoryStore.findStaffById toNumber s id = None →
   MemoryStore.updateStaff toNumber now id updateData s = (None, s))
  ∧ (∀ old, MemoryStore.findStaffById toNumber s id = Some old →
       ∃ x, (MemoryStore.updateStaff toNumber now id updateData s).1 = Some x
         ∧ length (MemoryStore.staff
                     (MemoryStore.updateStaff toNumber now id updateData s).2)
           = length (MemoryStore.staff s)
         ∧ x ∈ MemoryStore.staff
                 (MemoryStore.updateStaff toNumber now id updateData s).2
         ∧ x !! "updatedAt" = Some (VDate now)
         ∧ (∀ k v, updateData !! k = Some v → k ≠ "updatedAt" →
                   x !! k = Some v)
         ∧ (∀ k, updateData !! k = None → k ≠ "updatedAt" →
                 x !! k = old !! k)
         ∧ (∀ k status,
              k ∈ Staff.dateFields → is_Some (old !! k) →
              updateData !! k = None →
              updateData !! "employmentStatus" = Some (VJson (JStr status)) →
              k ∉ Staff.dateGroup status →
              Staff.datesMatchStatus x = false)).
Proof.
  unfold MemoryStore.updateStaff, MemoryStore.findStaffById.
  pose proof (findIndex_spec (MemoryStore.staff s) id) as Hspec.
  destruct (MemoryStore.findIndex toNumber (MemoryStore.staff s) id)
    as [i |].
  - destruct Hspec as (old & Hi & Hfind). rewrite Hi, Hfind.
    split; [done |]. intros ? [= <-].
    set (x := <["updatedAt" := VDate now]> (updateData ∪ old)).
    assert (∀ k v, updateData !! k = Some v → k ≠ "updatedAt" →
              x !! k = Some v) as Hnew.
    { intros k v Hk Hne. unfold x. rewrite lookup_insert_ne by done.
      by apply lookup_union_Some_l. }
    assert (∀ k, updateData !! k = None → k ≠ "updatedAt" →
              x !! k = old !! k) as Hkeep.
    { intros k Hk Hne. unfold x. rewrite lookup_insert_ne by done.
      by apply lookup_union_r. }
    exists x. cbn [fst snd MemoryStore.staff].
    split; [done |]. split; [apply length_insert |]. split.
    { apply list_elem_of_lookup. exists i. apply list_lookup_insert_eq.
      by eapply lookup_lt_Some. }
    split; [apply lookup_insert_eq |]. split; [exact Hnew |].
    split; [exact Hkeep |].
    intros k status Hk [d Hd] Hupd Hstatus Hgroup.
    destruct (Staff.datesMatchStatus x) eqn:Hmatch; [| done].
    unfold Staff.datesMatchStatus in Hmatch.
    rewrite forallb_forall in Hmatch.
    specialize (Hmatch k (proj1 (list_elem_of_In _ _) Hk)).
    assert (k ≠ "updatedAt") as Hne.
    { intros ->. revert Hk. unfold Staff.dateFields.
      rewrite !elem_of_cons, elem_of_nil. naive_solver. }
    rewrite (Hkeep k Hupd Hne), Hd in Hmatch.
    unfold Staff.statusOf in Hmatch.
    rewrite (Hnew _ _ Hstatus) in Hmatch by done.
    by apply bool_decide_eq_true in Hmatch.
  - rewrite Hspec. split; [done | done].
Qed.

(** X24. [deleteStaff] answers [null] and changes nothing when no record
    has the id; otherwise it returns the record found and removes that
    one record, without touching the lookup of any other id. On a keyed
    staff array the id is then gone and the array stays keyed. *)
Theorem deleteStaff_removes (id : Z) (s : MemoryStore.t) :
  (MemoryStore.findStaffById toNumber s id = None →
   MemoryStore.deleteStaff toNumber id s = (None, s))
  ∧ (∀ old, MemoryStore.findStaffById toNumber s id = Some old →
       (MemoryStore.deleteStaff toNumber id s).1 = Some old
       ∧ S (length (MemoryStore.staff
                      (MemoryStore.deleteStaff toNumber id s).2))
         = length (MemoryStore.staff s)
       ∧ (∀ j, j ≠ id →
            MemoryStore.findStaffById toNumber
              (MemoryStore.deleteStaff toNumber id s).2 j
            = MemoryStore.findStaffById toNumber s j)
       ∧ (MemoryStore.keyed s →
          MemoryStore.keyed (MemoryStore.deleteStaff toNumber id s).2
          ∧ MemoryStore.findStaffById toNumber
              (MemoryStore.deleteStaff toNumber id s).2 id = None)).
Proof.
  unfold MemoryStore.deleteStaff, MemoryStore.findStaffById.
  pose proof (findIndex_spec (MemoryStore.staff s) id) as Hspec.
  destruct (MemoryStore.findIndex toNumber (MemoryStore.staff s) id)
    as [i |] eqn:Hindex.
  - destruct Hspec as (old & Hi & Hfind). rewrite Hfind.
    split; [done |]. intros ? [= <-]. cbn [fst snd MemoryStore.staff].
    split; [done |]. split.
    { rewrite length_delete by done.
      apply lookup_lt_Some in Hi. lia. }
    split; [intros j Hj; by apply findById_delete with (id := id) |].
    intros [Hbelow Hnodup]. split; [split |].
    + cbn [MemoryStore.staff MemoryStore.nextId].
      rewrite List.Forall_forall in Hbelow. apply List.Forall_forall.
      intros y Hy. apply Hbelow. apply list_elem_of_In.
      apply list_elem_of_In in Hy.
      eapply elem_of_sublist; [exact Hy | apply sublist_delete].
    + cbn [MemoryStore.staff].
      eapply sublist_NoDup; [exact Hnodup |].
      apply fmap_sublist, sublist_delete.
    + apply findById_delete_found; [| done | done].
      eapply Forall_impl; [exact Hbelow |]. intros y (n & Hn & _). by exists n.
  - rewrite Hspec. split; [done | done].
Qed.

(** X25. [createUser] stores the account with the hash of its password
    and as active, whatever the data says about either, and leaves its
    other properties as given; an account whose username differs in case
    only from no stored one is then found under every spelling of its
    username. Data without a string password is rejected, and the id
    drawn for it is spent all the same. *)
Theorem createUser_hashes_and_activates (hash : string → string)
    (userData : gmap string Value) (s : MemoryStore.t) :
  (∀ password, userData !! "password" = Some (VJson (JStr password)) →
     ∃ user,
       MemoryStore.createUser hash userData s
       = (Ok user,
          MemoryStore.mk (app (MemoryStore.users s) [user])
            (MemoryStore.courts s) (MemoryStore.staff s)
            (MemoryStore.nextId s + 1))
       ∧ user !! "password" = Some (VJson (JStr (hash password)))
       ∧ user !! "isActive" = Some (VJson (JBool true))
       ∧ (∀ k, k ∉ ["id"; "password"; "isActive"] →
               user !! k = userData !! k)
       ∧ (∀ username spelling,
            userData !! "username" = Some (VJson (JStr username)) →
            Forall (fun u => ∃ n, u !! "username" = Some (VJson (JStr n))
                                  ∧ toLowerCase n ≠ toLowerCase username)
              (MemoryStore.users s) →
            toLowerCase spelling = toLowerCase username →
            MemoryStore.findUserByUsername
              (app (MemoryStore.users s) [user]) spelling
            = Ok (Some user)))
  ∧ ((∀ password, userData !! "password" ≠ Some (VJson (JStr password))) →
     MemoryStore.createUser hash userData s
     = (Err TypeError,
        MemoryStore.mk (MemoryStore.users s) (MemoryStore.courts s)
          (MemoryStore.staff s) (MemoryStore.nextId s + 1))).
Proof.
  unfold MemoryStore.createUser, MemoryStore.generateId.
  cbn [MemoryStore.users MemoryStore.courts MemoryStore.staff
       MemoryStore.nextId].
  split.
  - intros password ->.
    set (user := <["isActive" := VJson (JBool true)]> _).
    exists user. split; [done |].
    assert (∀ k, k ∉ ["id"; "password"; "isActive"] →
              user !! k = userData !! k) as Hkeep.
    { intros k Hk. rewrite !not_elem_of_cons in Hk.
      destruct Hk as (Hid & Hpw & Hact & _).
      unfold user. rewrite !lookup_insert_ne by done.
      destruct (userData !! k) as [v |] eqn:Hv.
      - by apply lookup_union_Some_l.
      - rewrite lookup_union_r by done. by apply lookup_singleton_ne. }
    split.
    { unfold user. rewrite lookup_insert_ne by done. apply lookup_insert_eq. }
    split; [apply lookup_insert_eq |]. split; [exact Hkeep |].
    intros username spelling Hname Hothers Hspelling.
    induction Hothers as [| u us (n & Hn & Hne) _ IH].
    + cbn [app MemoryStore.findUserByUsername].
      rewrite Hkeep by decide_closed. rewrite Hname.
      by rewrite Hspelling, String.eqb_refl.
    + cbn [app MemoryStore.findUserByUsername]. rewrite Hn, Hspelling.
      apply String.eqb_neq in Hne. by rewrite Hne.
  - intros Hnone.
    destruct (userData !! "password") as [[ms | [ | b | n | p | o]] |];
      try done.
    by destruct (Hnone p).
Qed.

End Runtime.

(** A first record in the store as the constructor leaves it. *)
Lemma createStaff_keyed_witness :
  MemoryStore.idOf
    (MemoryStore.createStaff 0 {["name" := VJson (JStr "Ann Lee")]}
       MemoryStore.empty).1 = Some 1%Z
  ∧ MemoryStore.keyed
      (MemoryStore.createStaff 0 {["name" := VJson (JStr "Ann Lee")]}
         MemoryStore.empty).2.
Proof.
  assert (MemoryStore.keyed MemoryStore.empty) as Hkeyed
    by (split; [apply Forall_nil_2 | apply NoDup_nil_2]).
  pose proof (proj2 (createStaff_keyed (fun _ => None) 0
                       {["name" := VJson (JStr "Ann Lee")]}
                       MemoryStore.empty) eq_refl Hkeyed)
    as (H1 & _ & _ & H4 & _).
  by split.
Defined.

(** An account whose data asks to be inactive. *)
Lemma createUser_hashes_and_activates_witness :
  ∃ user,
    MemoryStore.createUser (fun p => p)
      (<["isActive" := VJson (JBool false)]>
         {["password" := VJson (JStr "secret123")]}) MemoryStore.empty
    = (Ok user, MemoryStore.mk [user] [] [] 2)
    ∧ user !! "isActive" = Some (VJson (JBool true)).
Proof.
  assert ((<["isActive" := VJson (JBool false)]>
            {["password" := VJson (JStr "secret123")]} : gmap string Value)
          !! "password" = Some (VJson (JStr "secret123"))) as Hpassword.
  { rewrite lookup_insert_ne by done. apply lookup_singleton_eq. }
  destruct (proj1 (createUser_hashes_and_activates (fun p => p)
                     (<["isActive" := VJson (JBool false)]>
                        {["password" := VJson (JStr "secret123")]})
                     MemoryStore.empty) "secret123" Hpassword)
    as (user & H1 & _ & H3 & _).
  exists user. split; [exact H1 | exact H3].
Defined.

(** A retired record of the store is made active again, and deleted. *)
Lemma sample_record_found :
  MemoryStore.findStaffById (fun _ => None)
    (MemoryStore.mk [] []
       [ <["id" := VJson (JNum 1)]>
           (<["employmentStatus" := VJson (JStr "retired")]>
              {["retirementDate" := VDate 5]}) ] 2) 1
  = Some (<["id" := VJson (JNum 1)]>
            (<["employmentStatus" := VJson (JStr "retired")]>
               {["retirementDate" := VDate 5]})).
Proof.
  unfold MemoryStore.findStaffById, MemoryStore.findById.
  cbn [MemoryStore.staff find]. by rewrite lookup_insert_eq.
Qed.

Lemma updateStaff_merges_witness :
  ∃ x,
    (MemoryStore.updateStaff (fun _ => None) 9 1
       {["employmentStatus" := VJson (JStr "active")]}
       (MemoryStore.mk [] []
          [ <["id" := VJson (JNum 1)]>
              (<["employmentStatus" := VJson (JStr "retired")]>
                 {["retirementDate" := VDate 5]}) ] 2)).1 = Some x
    ∧ x !! "updatedAt" = Some (VDate 9).
Proof.
  destruct (proj2 (updateStaff_merges (fun _ => None) 9 1
                     {["employmentStatus" := VJson (JStr "active")]} _)
              _ sample_record_found) as (x & H1 & _ & _ & H4 & _).
  by exists x.
Defined.

Lemma deleteStaff_removes_witness :
  (MemoryStore.deleteStaff (fun _ => None) 1
     (MemoryStore.mk [] []
        [ <["id" := VJson (JNum 1)]>
            (<["employmentStatus" := VJson (JStr "retired")]>
               {["retirementDate" := VDate 5]}) ] 2)).1
  = Some (<["id" := VJson (JNum 1)]>
            (<["employmentStatus" := VJson (JStr "retired")]>
               {["retirementDate" := VDate 5]})).
Proof.
  exact (proj1 (proj2 (deleteStaff_removes (fun _ => None) 1 _)
                  _ sample_record_found)).
Defined.

End StoreFacts.
